(** * The playground server: compile-request pipeline

    A shallow embedding of the Go server of the playground (package main):
    [readArchive], [checkImports], [permittedPackages], [buildWASM],
    [handleDownload] and the handler returned by [handleRun].

    Go strings and byte slices are sequences of bytes: both are modelled by
    [string] (a list of 8-bit characters), binary artifacts by [list byte].
    [url.Values] and [http.Header] are finite maps from strings to lists of
    strings.  The operating system and the Go toolchain are collaborators of
    the program: they appear as the fields of an interface record, and the
    claims are proved for every implementation of it.

    The file has three parts: the program, the statements of the
    specification with the data to try them on, and the properties. *)

From Stdlib Require Import ZArith Lia Ascii String List.
From Stdlib Require Import Strings.Byte.
From stdpp Require Import base option list strings pretty gmap.

Local Open Scope string_scope.
Local Open Scope list_scope.
Local Open Scope Z_scope.

(** ** Errors

    [errors.New] and [fmt.Errorf] without [%w] build an error that only has
    a message; [fmt.Errorf] with [%w] also keeps the wrapped error.  The
    program only ever calls [Error()] on them. *)

Inductive error : Type :=
| errors_New (msg : string)
| wrapError (msg : string) (inner : error).

Definition Error (e : error) : string :=
  match e with
  | errors_New msg => msg
  | wrapError msg _ => msg
  end.

(** [fmt.Errorf(prefix + "%w", err)] *)
Definition fmt_Errorf_w (prefix : string) (err : error) : error :=
  wrapError (prefix +:+ Error err) err.

(** ** txtar archives and form values *)

Record File : Type := mkFile { Name : string; Data : string }.

Record Archive : Type := mkArchive { Files : list File }.

(** [url.Values] is [map[string][]string]. *)
Abbreviation Values := (gmap string (list string)).

(** [form[key]]: the zero value (a nil slice) when the key is absent. *)
Definition Values_index (form : Values) (key : string) : list string :=
  default [] (form !! key).

(** [form.Get(key)]: the first value of the key, or the empty string. *)
Definition Values_Get (form : Values) (key : string) : string :=
  match Values_index form key with
  | [] => ""
  | v :: _ => v
  end.

(** [readArchive]: one [append] per element of [form["filename"]].  The
    result is a pointer and an error; the pointer is [Some], the error
    [None] when it is nil. *)
Definition readArchive_loop (form : Values) (filenames : list string)
    (files : list File) : list File :=
  fold_left (fun acc filename =>
               acc ++ [mkFile filename (Values_Get form filename)])
            filenames files.

Definition readArchive (form : Values) : option Archive * option error :=
  let filenames := Values_index form "filename" in
  let archive := mkArchive (readArchive_loop form filenames []) in
  (Some archive, None).

(** The names of an archive, in order. *)
Definition names (a : Archive) : list string := map Name (Files a).

(** ** Functions of the Go standard library that the program calls

    The pure ones are written out; they follow the library's code. *)

(** [path.Ext]: the suffix beginning at the final dot in the final
    slash-separated element of the path, empty if there is no dot.  Go
    scans backwards from the end; [Ext_scan] scans forwards and keeps in
    [cur] the answer for the part read so far. *)
Fixpoint Ext_scan (cur path : string) : string :=
  match path with
  | EmptyString => cur
  | String c rest =>
      if Ascii.eqb c "/" then Ext_scan "" rest
      else if Ascii.eqb c "." then Ext_scan path rest
      else Ext_scan cur rest
  end.

Definition path_Ext (path : string) : string := Ext_scan "" path.

(** [strings.Split(s, sep)] for a one-byte separator: the pieces between
    the separators, [[""]] for the empty string. *)
Fixpoint strings_Split (sep : ascii) (s : string) : list string :=
  match s with
  | EmptyString => [""]
  | String c rest =>
      if Ascii.eqb c sep then "" :: strings_Split sep rest
      else match strings_Split sep rest with
           | [] => [String c ""]
           | piece :: pieces => String c piece :: pieces
           end
  end.

Definition newline : ascii := "010"%char.

(** [slices.Index(s, v)]: the index of the first occurrence of [v], or -1. *)
Fixpoint slices_Index_from (i : Z) (s : list string) (v : string) : Z :=
  match s with
  | [] => -1
  | x :: rest => if String.eqb v x then i else slices_Index_from (i + 1) rest v
  end.

Definition slices_Index (s : list string) (v : string) : Z :=
  slices_Index_from 0 s v.

(** [strings.Contains(s, substr)] *)
Fixpoint strings_Contains (s substr : string) : bool :=
  String.prefix substr s
  || match s with
     | EmptyString => false
     | String _ rest => strings_Contains rest substr
     end.

(** *** [encoding/base64], the standard encoding with padding *)

Definition encodeStd : string :=
  "ABCDEFGHIJKLMNOPQRSTUVWXYZabcdefghijklmnopqrstuvwxyz0123456789+/".

Definition padChar : ascii := "="%char.

(** [enc.encode[i]] *)
Definition encode_at (i : Z) : ascii :=
  default padChar (String.get (Z.to_nat i) encodeStd).

Definition uint_of_byte (b : byte) : Z := Z.of_N (Byte.to_N b).

Definition byte_of_uint (z : Z) : byte :=
  default x00 (Byte.of_N (Z.to_N (Z.land z 255))).

(** [Encode]: three source bytes give four characters; a remainder of one
    or two bytes is padded. *)
Fixpoint Encode (src : list byte) : list ascii :=
  match src with
  | b0 :: b1 :: b2 :: rest =>
      let val := Z.lor (Z.lor (Z.shiftl (uint_of_byte b0) 16)
                              (Z.shiftl (uint_of_byte b1) 8))
                       (uint_of_byte b2) in
      encode_at (Z.land (Z.shiftr val 18) 63)
      :: encode_at (Z.land (Z.shiftr val 12) 63)
      :: encode_at (Z.land (Z.shiftr val 6) 63)
      :: encode_at (Z.land val 63)
      :: Encode rest
  | [b0; b1] =>
      let val := Z.lor (Z.shiftl (uint_of_byte b0) 16)
                       (Z.shiftl (uint_of_byte b1) 8) in
      [encode_at (Z.land (Z.shiftr val 18) 63);
       encode_at (Z.land (Z.shiftr val 12) 63);
       encode_at (Z.land (Z.shiftr val 6) 63);
       padChar]
  | [b0] =>
      let val := Z.shiftl (uint_of_byte b0) 16 in
      [encode_at (Z.land (Z.shiftr val 18) 63);
       encode_at (Z.land (Z.shiftr val 12) 63);
       padChar;
       padChar]
  | [] => []
  end.

Definition base64_EncodeToString (src : list byte) : string :=
  string_of_list_ascii (Encode src).

(** The decoder of the same encoding (RFC 4648, section 4): the reader of
    the artifact.  [decodeMap] inverts [encode_at]. *)
Fixpoint index_of (c : ascii) (alphabet : string) (i : Z) : option Z :=
  match alphabet with
  | EmptyString => None
  | String a rest => if Ascii.eqb c a then Some i else index_of c rest (i + 1)
  end.

Definition decodeMap (c : ascii) : option Z := index_of c encodeStd 0.

Fixpoint Decode (s : list ascii) : option (list byte) :=
  match s with
  | [] => Some []
  | [c0; c1; c2; c3] =>
      s0 ← decodeMap c0;
      s1 ← decodeMap c1;
      if Ascii.eqb c3 padChar then
        if Ascii.eqb c2 padChar then
          Some [byte_of_uint (Z.lor (Z.shiftl s0 2) (Z.shiftr s1 4))]
        else
          s2 ← decodeMap c2;
          Some [byte_of_uint (Z.lor (Z.shiftl s0 2) (Z.shiftr s1 4));
                byte_of_uint (Z.lor (Z.shiftl s1 4) (Z.shiftr s2 2))]
      else
        s2 ← decodeMap c2;
        s3 ← decodeMap c3;
        Some [byte_of_uint (Z.lor (Z.shiftl s0 2) (Z.shiftr s1 4));
              byte_of_uint (Z.lor (Z.shiftl s1 4) (Z.shiftr s2 2));
              byte_of_uint (Z.lor (Z.shiftl s2 6) s3)]
  | c0 :: c1 :: c2 :: c3 :: rest =>
      s0 ← decodeMap c0;
      s1 ← decodeMap c1;
      s2 ← decodeMap c2;
      s3 ← decodeMap c3;
      tail ← Decode rest;
      Some (byte_of_uint (Z.lor (Z.shiftl s0 2) (Z.shiftr s1 4))
            :: byte_of_uint (Z.lor (Z.shiftl s1 4) (Z.shiftr s2 2))
            :: byte_of_uint (Z.lor (Z.shiftl s2 6) s3)
            :: tail)
  | _ => None
  end.

Definition base64_DecodeString (s : string) : option (list byte) :=
  Decode (list_ascii_of_string s).

(** *** [unicode/utf8], [io/fs] and [path] *)

(** [utf8.ValidString], on the byte codes of the string (RFC 3629: no
    overlong forms, no surrogates, nothing above U+10FFFF). *)
Definition in_range (lo hi n : N) : bool := (N.leb lo n && N.leb n hi)%bool.

Fixpoint utf8_valid (codes : list N) : bool :=
  match codes with
  | [] => true
  | c0 :: rest =>
      if N.leb c0 127 then utf8_valid rest
      else match rest with
      | c1 :: rest1 =>
          if in_range 194 223 c0 then in_range 128 191 c1 && utf8_valid rest1
          else match rest1 with
          | c2 :: rest2 =>
              if in_range 224 239 c0 then
                in_range (if N.eqb c0 224 then 160 else 128)
                         (if N.eqb c0 237 then 159 else 191) c1
                && in_range 128 191 c2 && utf8_valid rest2
              else match rest2 with
              | c3 :: rest3 =>
                  in_range 240 244 c0
                  && in_range (if N.eqb c0 240 then 144 else 128)
                              (if N.eqb c0 244 then 143 else 191) c1
                  && in_range 128 191 c2 && in_range 128 191 c3
                  && utf8_valid rest3
              | [] => false
              end
          | [] => false
          end
      | [] => false
      end
  end.

Definition utf8_ValidString (s : string) : bool :=
  utf8_valid (map N_of_ascii (list_ascii_of_string s)).

(** [fs.ValidPath]: valid UTF-8 and either "." or slash-separated elements
    none of which is empty, "." or "..". *)
Definition valid_elem (elem : string) : bool :=
  negb (String.eqb elem "" || String.eqb elem "." || String.eqb elem "..").

Definition fs_ValidPath (name : string) : bool :=
  utf8_ValidString name
  && (String.eqb name "." || forallb valid_elem (strings_Split "/" name)).

(** [path.Dir]: all but the last element of the path, "." when the path
    has no slash.  [path.Dir] cleans its result; on the paths that
    [fs.ValidPath] accepts, the only ones it receives here, cleaning only
    drops the trailing slash. *)
Fixpoint Dir_scan (p : string) : option string :=
  match p with
  | EmptyString => None
  | String c rest =>
      match Dir_scan rest with
      | Some d => Some (String c d)
      | None => if Ascii.eqb c "/" then Some "" else None
      end
  end.

Definition path_Dir (p : string) : string :=
  match Dir_scan p with
  | None => "."
  | Some EmptyString => "/"
  | Some d => d
  end.

(** ** The collaborators of the program

    Library functions whose code is large ([go/parser], [strconv],
    [net/url], [html/template]) are fields of [GoLib]; the operating system
    and the Go toolchain are fields of [Host]. *)

Record URL : Type := mkURL { Scheme : string; Host_ : string }.

Record Run : Type := mkRun {
  Location : string;
  RunID : Z;
  BinaryBase64 : string;
  SourceHTMLDocument : string;
  WASMExecJS : string
}.

Record RunFailure : Type := mkRunFailure {
  BuildLogs : string;
  RunID_ : Z
}.

Record GoLib : Type := mkGoLib {
  (** [parser.ParseFile(_, "main.go", src, parser.ImportsOnly)]: the
      [Path.Value] of every import spec of the file, in order, or the
      syntax error. *)
  parser_ParseFile : string -> list string + error;
  (** [strconv.Unquote]: the value and the error, as Go returns both. *)
  strconv_Unquote : string -> string * option error;
  (** [strconv.Quote], the [%q] verb of [fmt]. *)
  strconv_Quote : string -> string;
  strconv_Atoi : string -> Z + error;
  url_Parse : string -> URL + error;
  textproto_CanonicalMIMEHeaderKey : string -> string;
  (** [templates.ExecuteTemplate(&buf, name, data)]: the text written. *)
  ExecuteTemplate : string -> Run -> string + error
}.

(** The disk: the paths that exist and what they are. *)
Inductive DiskNode : Type :=
| Directory
| Regular (content : list byte).

Abbreviation Disk := (gmap string DiskNode).

(** [context.Context], as far as the program builds it. *)
Inductive Context : Type :=
| request_Context
| WithTimeout (parent : Context) (seconds : Z).

(** [exec.Cmd] *)
Record Cmd : Type := mkCmd {
  cmd_ctx : Context;
  Path : string;
  Args : list string;
  Env : list string;
  Dir : string
}.

Inductive Stream : Type := Stdout | Stderr.

(** How a started command ends. *)
Inductive ProcessState : Type :=
| Exited (code : Z)
| Killed
| NotStarted (err : error).

(** What a command did: the chunks it wrote to its two streams, in the
    order of the writes, how it ended and the disk it left. *)
Record Completed : Type := mkCompleted {
  written : list (Stream * string);
  state : ProcessState;
  disk_after : Disk
}.

(** [txtar]'s file system of an archive: a node for every file and every
    directory above one, keyed by path. *)
Record node : Type := mknode {
  n_path : string;
  isDir : bool;
  idx : nat;
  entries : list string
}.

Record filesystem : Type := mkfilesystem {
  ar : Archive;
  nodes : gmap string node
}.

Record Host : Type := mkHost {
  (** The directory [os.MkdirTemp("", "")] creates, or its error. *)
  MkdirTemp_pick : Disk -> string + error;
  (** [os.CopyFS(dir, fsys)]: its error and the disk it leaves. *)
  CopyFS_result : string -> filesystem -> Disk -> option error * Disk;
  (** The run of a command, from start to exit or kill. *)
  run : Cmd -> Disk -> Completed;
  (** [os.RemoveAll(path)]: [None] when it removes the path and all it
      contains; otherwise the first error it met and the paths at or
      below [path] that it could not remove. *)
  RemoveAll_fails : string -> Disk -> option (error * (string -> bool))
}.

(** ** The state the program acts on *)

Record World : Type := mkWorld {
  disk : Disk;
  (** the commands [cmd.Run] was called on, oldest first *)
  started : list Cmd;
  (** the lines written with [log.Println] *)
  logged : list string
}.

Definition M (A : Type) : Type := World -> A * World.

Definition ret {A : Type} (a : A) : M A := fun w => (a, w).

Definition bind {A B : Type} (m : M A) (k : A -> M B) : M B :=
  fun w => let (a, w1) := m w in k a w1.

Declare Scope go_scope.
Delimit Scope go_scope with go.
Notation "x <- m ;; k" := (bind m (fun x => k))
  (at level 100, m at next level, right associativity) : go_scope.
Notation "m ;;; k" := (bind m (fun _ => k))
  (at level 100, right associativity) : go_scope.
Local Open Scope go_scope.

(** [defer cleanup(); body]: the deferred call runs when the function
    returns, whatever the return statement. *)
Definition defer {A : Type} (cleanup : M unit) (body : M A) : M A :=
  a <- body ;; cleanup ;;; ret a.

Definition log_Println (line : string) : M unit :=
  fun w => (tt, mkWorld (disk w) (started w) (logged w ++ [line])).

(** [p] is [dir] or lies below it. *)
Definition below (dir p : string) : bool :=
  String.eqb p dir || String.prefix (dir +:+ "/") p.

Definition os_ReadFile (p : string) : M (list byte + error) :=
  fun w =>
    (match disk w !! p with
     | Some (Regular content) => inl content
     | Some Directory => inr (errors_New ("read " +:+ p +:+ ": is a directory"))
     | None => inr (errors_New ("open " +:+ p +:+ ": no such file or directory"))
     end, w).

(** [filepath.Join(dir, name)] for a clean [dir] and a one-element name. *)
Definition filepath_Join (dir name : string) : string := dir +:+ "/" +:+ name.

(** ** Requests and responses *)

Record Request : Type := mkRequest {
  Form : Values;
  Header : gmap string (list string)
}.

(** An entry of a zip file as its reader lists it: the name of the header,
    whether its mode is that of a directory, and the uncompressed content. *)
Record ZipEntry : Type := mkZipEntry {
  zip_Name : string;
  zip_IsDir : bool;
  zip_Data : string
}.

Inductive TemplateData : Type :=
| RunData (data : Run)
| RunFailureData (data : RunFailure).

(** What a handler writes: [http.Error] with a body and a status;
    [renderHTML], a helper of the program defined in another file, which
    is handed the template, the status to write and the data;
    [http.ServeContent] after the headers were set; or a panic of the
    handler. *)
Inductive Response : Type :=
| http_Error (body : string) (code : Z)
| renderHTML (template : string) (status : Z) (data : TemplateData)
| http_ServeContent (headers : list (string * string)) (name : string)
                    (content : list ZipEntry)
| panic (msg : string).

Definition StatusOK : Z := 200.
Definition StatusBadRequest : Z := 400.
Definition StatusInternalServerError : Z := 500.

Section Server.

Variable lib : GoLib.
Variable host : Host.

(** The text of [assets/import_allow_list.txt], embedded at build time. *)
Variable permittedPackagesString : string.

(** *** Operating system calls *)

Definition os_MkdirTemp : M (string + error) :=
  fun w =>
    match MkdirTemp_pick host (disk w) with
    | inl tmp =>
        (inl tmp, mkWorld (<[tmp := Directory]> (disk w)) (started w) (logged w))
    | inr err => (inr err, w)
    end.

Definition os_CopyFS (dir : string) (fsys : filesystem) : M (option error) :=
  fun w =>
    let (err, d) := CopyFS_result host dir fsys (disk w) in
    (err, mkWorld d (started w) (logged w)).

(** [os.RemoveAll]: removes the path and any children it contains.  It
    removes everything it can and returns the first error it meets: the
    entries it could not remove stay.  It touches nothing outside the
    path. *)
Definition os_RemoveAll (p : string) : M (option error) :=
  fun w =>
    match RemoveAll_fails host p (disk w) with
    | None =>
        (None,
         mkWorld (filter (fun entry => below p entry.1 = false) (disk w))
                 (started w) (logged w))
    | Some (err, kept) =>
        (Some err,
         mkWorld (filter (fun entry =>
                            negb (below p entry.1) || kept entry.1 = true)
                         (disk w))
                 (started w) (logged w))
    end.

(** [cmd.Run()] with [cmd.Stdout] and [cmd.Stderr] set to the same
    buffer: the buffer receives every chunk in the order of the writes.
    The result is the content of the buffer and the error of [Run]. *)
Definition Wait_error (s : ProcessState) : option error :=
  match s with
  | Exited 0 => None
  | Exited code => Some (errors_New ("exit status " +:+ pretty code))
  | Killed => Some (errors_New "signal: killed")
  | NotStarted err => Some err
  end.

Definition Cmd_Run (cmd : Cmd) : M (string * option error) :=
  fun w =>
    let done := run host cmd (disk w) in
    ((String.concat "" (map snd (written done)), Wait_error (state done)),
     mkWorld (disk_after done) (started w ++ [cmd]) (logged w)).

(** *** Import screening *)

Definition permittedPackages : list string :=
  strings_Split newline permittedPackagesString.

Fixpoint checkImports_loop (imports : list string) : option error :=
  match imports with
  | [] => None
  | spec :: rest =>
      let path := (strconv_Unquote lib spec).1 in
      if Z.geb (slices_Index permittedPackages path) 0 then
        checkImports_loop rest
      else
        Some (errors_New ("importing " +:+ strconv_Quote lib path
                          +:+ " is not permitted on this site"))
  end.

Definition checkImports (mainGo : string) : option error :=
  match parser_ParseFile lib mainGo with
  | inr err => Some (fmt_Errorf_w "failed to parse main.go: " err)
  | inl imports => checkImports_loop imports
  end.

(** *** [txtar.FS]

    The program calls [txtar.FS] of the library [golang.org/x/tools/txtar]
    in both handlers; its code ([initFiles], [insert] and [directory] of
    the file [fs.go]) is written out here.  It refuses a name that is not
    a valid path ([fs.ValidPath]) and a path that is already in the tree. *)

Definition add_entry (dir child : string) (ns : gmap string node)
    : gmap string node :=
  alter (fun m => mknode (n_path m) (isDir m) (idx m) (entries m ++ [child]))
        dir ns.

(** [insert], with [directory] unfolded in it: the node is recorded, then
    its parent directory is looked up or created (which inserts it in
    turn), and the node is appended to the entries of the parent.  The
    root "." always exists, and each call is on a shorter path: [fuel]
    bounds the calls. *)
Fixpoint insert (fuel : nat) (ns : gmap string node) (n : node)
    : gmap string node + error :=
  match ns !! n_path n with
  | Some _ =>
      inr (errors_New ("duplicate path " +:+ strconv_Quote lib (n_path n)))
  | None =>
      let ns1 := <[n_path n := n]> ns in
      let dir := path_Dir (n_path n) in
      let created :=
        match fuel with
        | O => inr (errors_New "path too deep")
        | S fuel' => insert fuel' ns1 (mknode dir true 0%nat [])
        end in
      let parent :=
        match ns1 !! dir with
        | Some m => if isDir m then inl ns1 else created
        | None => created
        end in
      match parent with
      | inr err => inr err
      | inl ns2 => inl (add_entry dir (n_path n) ns2)
      end
  end.

Fixpoint initFiles (i : nat) (files : list File) (ns : gmap string node)
    : gmap string node + error :=
  match files with
  | [] => inl ns
  | file :: rest =>
      if negb (fs_ValidPath (Name file)) then
        inr (errors_New ("file " +:+ strconv_Quote lib (Name file)
                         +:+ " is an invalid path"))
      else
        match insert (String.length (Name file)) ns
                     (mknode (Name file) false i []) with
        | inr err => inr err
        | inl ns1 => initFiles (S i) rest ns1
        end
  end.

Definition root : node := mknode "." true 0%nat [].

Definition txtar_FS (a : Archive) : filesystem + error :=
  match initFiles 0%nat (Files a) {["." := root]} with
  | inr err =>
      inr (errors_New ("cannot create fs.FS from txtar.Archive: " +:+ Error err))
  | inl ns => inl (mkfilesystem a ns)
  end.

(** *** [buildWASM] *)

(** The loop over [archive.Files]: the first file with the extension
    [.go] whose imports are refused ends it. *)
Fixpoint buildWASM_screen (files : list File) : option error :=
  match files with
  | [] => None
  | file :: rest =>
      if negb (String.eqb (path_Ext (Name file)) ".go") then
        buildWASM_screen rest
      else
        match checkImports (Data file) with
        | Some err =>
            Some (fmt_Errorf_w ("failed in " +:+ Name file +:+ ": ") err)
        | None => buildWASM_screen rest
        end
  end.

Definition output : string := "main.wasm".

Definition build_Cmd (ctx : Context) (env : list string) (goExecPath tmp : string)
    : Cmd :=
  mkCmd ctx goExecPath
        [goExecPath; "build"; "-o"; output;
         "-gcflags=-trimpath=" +:+ tmp;
         "-asmflags=-trimpath=" +:+ tmp]
        env tmp.

(** The body of [buildWASM] after the [defer] statement. *)
Definition buildWASM_body (ctx : Context) (env : list string)
    (goExecPath : string) (archive : Archive) (tmp : string)
    : M (string * option error) :=
  match buildWASM_screen (Files archive) with
  | Some err => ret ("", Some err)
  | None =>
      match txtar_FS archive with
      | inr err => ret ("", Some err)
      | inl dir =>
          copied <- os_CopyFS tmp dir ;;
          match copied with
          | Some err => ret ("", Some err)
          | None =>
              ran <- Cmd_Run (build_Cmd ctx env goExecPath tmp) ;;
              match ran.2 with
              | Some _ => ret ("", Some (errors_New ran.1))
              | None =>
                  wasmBuild <- os_ReadFile (filepath_Join tmp output) ;;
                  match wasmBuild with
                  | inr err =>
                      ret ("", Some (fmt_Errorf_w "failed to open build file: " err))
                  | inl wasmBuild =>
                      ret (base64_EncodeToString wasmBuild, None)
                  end
              end
          end
      end
  end.

Definition buildWASM (ctx : Context) (env : list string) (goExecPath : string)
    (archive : Archive) : M (string * option error) :=
  tmp <- os_MkdirTemp ;;
  match tmp with
  | inr err =>
      log_Println ("failed to create temporary directory " +:+ Error err) ;;;
      ret ("", Some (errors_New "failed to create temporary directory"))
  | inl tmp =>
      defer (os_RemoveAll tmp ;;; ret tt)
            (buildWASM_body ctx env goExecPath archive tmp)
  end.

(** *** [zip.Writer.AddFS] over [fs.WalkDir]

    [AddFS] walks the file system from its root and adds a header for
    every file and every directory (before Go 1.24 it skips the
    directories, which changes nothing for the files).  The zip file is
    the list of its entries; compression is not modelled. *)

(** [path.Base] of a path without trailing slash: its last element. *)
Definition path_Base (p : string) : string :=
  List.last (strings_Split "/" p) "".

(** [fs.ReadDir] returns the entries of a directory sorted by name. *)
Fixpoint sort_insert (c : string) (sorted : list string) : list string :=
  match sorted with
  | [] => [c]
  | x :: rest =>
      if String.leb (path_Base c) (path_Base x) then c :: sorted
      else x :: sort_insert c rest
  end.

Definition sort_entries (l : list string) : list string :=
  foldr sort_insert [] l.

Definition uint16max : Z := 65535.

(** [w.CreateHeader] followed by the copy of the content: the name of a
    header is at most [uint16max] bytes long. *)
Definition zip_Create (w : list ZipEntry) (name : string) (dir : bool)
    (content : string) : list ZipEntry + error :=
  if uint16max <? Z.of_nat (String.length name) then
    inr (errors_New "zip: FileHeader.Name too long")
  else inl (w ++ [mkZipEntry name dir content]).

Definition ErrModified : error :=
  errors_New "txtar.Archive has been modified during txtar.FS".

(** [fsys.Open(name)] on a file node, read to its end. *)
Definition fs_Open (fsys : filesystem) (name : string) (n : node)
    : string + error :=
  match Files (ar fsys) !! idx n with
  | Some file => if String.eqb (Name file) name then inl (Data file)
                 else inr ErrModified
  | None => inr ErrModified
  end.

(** The function [AddFS] passes to [fs.WalkDir]: the root is skipped, a
    directory gets a header whose name ends with a slash, a file a header
    and its content. *)
Definition AddFS_visit (fsys : filesystem) (name : string) (n : node)
    (w : list ZipEntry) : list ZipEntry + error :=
  if String.eqb name "." then inl w
  else if isDir n then zip_Create w (name +:+ "/") true ""
  else match fs_Open fsys name n with
       | inr err => inr err
       | inl content => zip_Create w name false content
       end.

(** The loop of [walkDir] over the entries of a directory: it stops at the
    first error. *)
Definition walk_entries
    (walk : string -> list ZipEntry -> list ZipEntry + error)
    (children : list string) (w : list ZipEntry + error)
    : list ZipEntry + error :=
  fold_left (fun acc child =>
               match acc with
               | inr err => inr err
               | inl w1 => walk child w1
               end)
            children w.

(** [walkDir]: visit the node, then its entries in sorted order.  The
    depth of the recursion is the depth of the tree; [fuel] bounds it. *)
Fixpoint walkDir (fuel : nat) (fsys : filesystem) (name : string)
    (w : list ZipEntry) : list ZipEntry + error :=
  match nodes fsys !! name with
  | None => inr (errors_New ("open " +:+ name +:+ ": file does not exist"))
  | Some n =>
      match AddFS_visit fsys name n w with
      | inr err => inr err
      | inl w1 =>
          if isDir n then
            match fuel with
            | O => inr (errors_New "walk too deep")
            | S fuel' =>
                walk_entries (walkDir fuel' fsys) (sort_entries (entries n))
                             (inl w1)
            end
          else inl w1
      end
  end.

(** No path of the tree is longer than the longest name of the archive,
    and a path has fewer elements than bytes. *)
Definition walk_fuel (fsys : filesystem) : nat :=
  S (S (list_max (map (fun file => String.length (Name file))
                      (Files (ar fsys))))).

Definition zip_AddFS (fsys : filesystem) : list ZipEntry + error :=
  walkDir (walk_fuel fsys) fsys "." [].

(** *** The handlers

    [Form req] is the form once [req.ParseMultipartForm] has read it; the
    handlers ignore the error of that call. *)

Definition Header_Get (h : gmap string (list string)) (key : string) : string :=
  Values_Get h (textproto_CanonicalMIMEHeaderKey lib key).

Definition FormValue (req : Request) (key : string) : string :=
  Values_Get (Form req) key.

(** [handleDownload] once the archive is read. *)
Definition handleDownload_export (archive : option Archive) : Response :=
  (* [txtar.FS] dereferences its argument: a nil archive is a panic *)
  match archive with
  | None => panic "nil pointer dereference"
  | Some archive =>
      match txtar_FS archive with
      | inr err => http_Error (Error err) StatusBadRequest
      | inl dir =>
          match zip_AddFS dir with
          | inr err => http_Error (Error err) StatusBadRequest
          | inl buf =>
              http_ServeContent
                [("Content-Disposition", "attachment");
                 ("Content-Type", "application/zip")]
                "playground.zip" buf
          end
      end
  end.

Definition handleDownload (req : Request) : Response :=
  let (archive, err) := readArchive (Form req) in
  match err with
  | Some err => http_Error (Error err) StatusBadRequest
  | None => handleDownload_export archive
  end.

(** The handler [handleRun] returns, once the archive is read.
    [goExecPath], [env] and [wasmExecJS] are computed once, when
    [handleRun] is called. *)
Definition handleRun_build (goExecPath : string) (env : list string)
    (wasmExecJS : string) (req : Request) (archive : option Archive)
    : M Response :=
  let runIDQuery := FormValue req "run-id" in
  match (if String.eqb runIDQuery "" then inl 1
         else strconv_Atoi lib runIDQuery) with
  | inr _ => ret (http_Error "invalid run id" StatusBadRequest)
  | inl runID =>
      let ctx := WithTimeout request_Context 30 in
      match url_Parse lib (Header_Get (Header req) "hx-current-url") with
      | inr err =>
          log_Println ("failed to parse current url " +:+ Error err) ;;;
          ret (http_Error "failed to parse current url" StatusInternalServerError)
      | inl currentURL =>
          match archive with
          | None =>
              (* [buildWASM] dereferences the archive: nil is a panic *)
              ret (panic "nil pointer dereference")
          | Some archive =>
              built <- buildWASM ctx env goExecPath archive ;;
              match built.2 with
              | Some err =>
                  ret (renderHTML "build-failure" StatusOK
                         (RunFailureData (mkRunFailure (Error err) runID)))
              | None =>
                  let data :=
                    mkRun (Scheme currentURL +:+ "://" +:+ Host_ currentURL)
                          runID built.1 "" wasmExecJS in
                  if String.eqb (Header_Get (Header req) "HX-Target") "runner"
                  then
                    match ExecuteTemplate lib "run.html.template" data with
                    | inr err =>
                        log_Println ("failed to execute index template "
                                     +:+ Error err) ;;;
                        ret (http_Error "Internal Server Error"
                                        StatusInternalServerError)
                    | inl doc =>
                        ret (renderHTML "run-item" StatusOK
                               (RunData (mkRun (Location data) (RunID data)
                                               (BinaryBase64 data) doc
                                               (WASMExecJS data))))
                    end
                  else
                    ret (renderHTML "run.html.template" StatusOK (RunData data))
              end
          end
      end
  end.

Definition handleRun (goExecPath : string) (env : list string)
    (wasmExecJS : string) (req : Request) : M Response :=
  let (archive, err) := readArchive (Form req) in
  match err with
  | Some err => ret (http_Error (Error err) StatusBadRequest)
  | None => handleRun_build goExecPath env wasmExecJS req archive
  end.

End Server.

(** ** Statements of the specification and test data

    The sentences of the specification that the code is checked against,
    and the forms, libraries and hosts the checks run on. *)

Definition file_of_field (form : Values) (filename : string) : File :=
  mkFile filename (Values_Get form filename).

(** The claim of the specification, as it is written: the names of the
    archive are the distinct submitted names, each once, and every entry
    carries the value of its field. *)
Definition one_entry_per_distinct_name (form : Values) : Prop :=
  forall archive : Archive,
    (readArchive form).1 = Some archive ->
    NoDup (names archive)
    /\ (forall name, name ∈ names archive <-> name ∈ Values_index form "filename")
    /\ (forall file, file ∈ Files archive ->
                     Data file = Values_Get form (Name file)).

(** A form that submits the name [a] twice. *)
Definition form_twice : Values :=
  <["filename" := ["a"; "a"]]> (<["a" := ["x"]]> ∅).

Arguments readArchive_loop form filenames files : simpl never.

(** The import paths of a file as the guard reads them: the unquoted
    [Path.Value] of each import spec of the parsed file. *)
Definition is_go_file (file : File) : bool :=
  String.eqb (path_Ext (Name file)) ".go".

Definition imports_of (lib : GoLib) (file : File) : option (list string) :=
  match parser_ParseFile lib (Data file) with
  | inl specs => Some (map (fun spec => (strconv_Unquote lib spec).1) specs)
  | inr _ => None
  end.

(** [file] is a [.go] file and imports [path], which is not in the
    allow-list. *)
Definition offending (lib : GoLib) (permittedPackagesString : string)
    (file : File) (path : string) : Prop :=
  is_go_file file = true
  /\ exists paths, imports_of lib file = Some paths
                   /\ path ∈ paths
                   /\ path ∉ permittedPackages permittedPackagesString.

(** Every [.go] file of the list parses and imports allow-listed paths only. *)
Definition only_permitted_imports (lib : GoLib)
    (permittedPackagesString : string) (files : list File) : Prop :=
  forall file, file ∈ files -> is_go_file file = true ->
    exists paths, imports_of lib file = Some paths
                  /\ forall path, path ∈ paths ->
                                  path ∈ permittedPackages permittedPackagesString.

(** C6 as the specification words it: a submission all of whose import
    paths are in the allow-list is not rejected by the guard. *)
Definition permitted_never_rejected (lib : GoLib)
    (permittedPackagesString : string) (files : list File) : Prop :=
  (forall file path, file ∈ files -> is_go_file file = true ->
     (exists paths, imports_of lib file = Some paths /\ path ∈ paths) ->
     path ∈ permittedPackages permittedPackagesString) ->
  buildWASM_screen lib permittedPackagesString files = None.

(** The message of the rejection of [path] in the file [name]. *)
Definition not_permitted_message (lib : GoLib) (name path : string) : string :=
  "failed in " +:+ name +:+ ": importing " +:+ strconv_Quote lib path
  +:+ " is not permitted on this site".

(** The message for a file [name] whose import section does not parse. *)
Definition malformed_message (name : string) (err : error) : string :=
  "failed in " +:+ name +:+ ": failed to parse main.go: " +:+ Error err.

(** C1 as the specification words it: an archive with an offending file
    is rejected with a failure that identifies an offending import path,
    and no command is started. *)
Definition rejected_naming_the_import (lib : GoLib) (host : Host)
    (permittedPackagesString : string) (ctx : Context) (env : list string)
    (goExecPath : string) (archive : Archive) (w : World) : Prop :=
  (exists file path, file ∈ Files archive
                     /\ offending lib permittedPackagesString file path) ->
  let result := buildWASM lib host permittedPackagesString ctx env goExecPath
                          archive w in
  started result.2 = started w
  /\ exists err file path,
       result.1.2 = Some err
       /\ file ∈ Files archive
       /\ offending lib permittedPackagesString file path
       /\ strings_Contains (Error err) (strconv_Quote lib path) = true.

(** The build gets as far as starting the compiler: the directory [tmp] is
    created, the imports pass, the archive becomes the file system [dir]
    and [os.CopyFS] leaves the disk [d]. *)
Definition reaches_compiler (lib : GoLib) (host : Host)
    (permittedPackagesString : string) (archive : Archive) (w : World)
    (tmp : string) (dir : filesystem) (d : Disk) : Prop :=
  MkdirTemp_pick host (disk w) = inl tmp
  /\ buildWASM_screen lib permittedPackagesString (Files archive) = None
  /\ txtar_FS lib archive = inl dir
  /\ CopyFS_result host tmp dir (<[tmp := Directory]> (disk w)) = (None, d).

(** The host [host], except that every command ends in the state [st]. *)
Definition ending_in (host : Host) (st : ProcessState) : Host :=
  mkHost (MkdirTemp_pick host) (CopyFS_result host)
         (fun cmd d => let done := run host cmd d in
                       mkCompleted (written done) st (disk_after done))
         (RemoveAll_fails host).

(** C4 as the specification words it: a build whose compiler is killed at
    the deadline and a build whose compiler exits with a non-zero code
    never return the same failure. *)
Definition cancellation_distinguishable (lib : GoLib) (host : Host)
    (permittedPackagesString : string) (ctx : Context) (env : list string)
    (goExecPath : string) (archive : Archive) (w : World) : Prop :=
  forall code : Z, code <> 0 ->
    (buildWASM lib (ending_in host Killed) permittedPackagesString ctx env
               goExecPath archive w).1
    <> (buildWASM lib (ending_in host (Exited code)) permittedPackagesString
                  ctx env goExecPath archive w).1.

(** The infrastructure steps of a build and the error [buildWASM] returns
    when one fails: the creation of the temporary directory, the copy of
    the archive into it, the read of the produced artifact. *)
Inductive InfrastructureError (lib : GoLib) (host : Host)
    (permittedPackagesString : string) (ctx : Context) (env : list string)
    (goExecPath : string) (archive : Archive) (w : World) : error -> Prop :=
| mkdir_failed (err : error) :
    MkdirTemp_pick host (disk w) = inr err ->
    InfrastructureError lib host permittedPackagesString ctx env goExecPath
      archive w (errors_New "failed to create temporary directory")
| copy_failed (tmp : string) (dir : filesystem) (d : Disk) (err : error) :
    MkdirTemp_pick host (disk w) = inl tmp ->
    buildWASM_screen lib permittedPackagesString (Files archive) = None ->
    txtar_FS lib archive = inl dir ->
    CopyFS_result host tmp dir (<[tmp := Directory]> (disk w)) = (Some err, d) ->
    InfrastructureError lib host permittedPackagesString ctx env goExecPath
      archive w err
| read_failed (tmp : string) (dir : filesystem) (d : Disk) (err : error) :
    reaches_compiler lib host permittedPackagesString archive w tmp dir d ->
    let done := run host (build_Cmd ctx env goExecPath tmp) d in
    state done = Exited 0 ->
    (os_ReadFile (filepath_Join tmp output)
                 (mkWorld (disk_after done) [] [])).1 = inr err ->
    InfrastructureError lib host permittedPackagesString ctx env goExecPath
      archive w (fmt_Errorf_w "failed to open build file: " err).

(** C3 as the specification words it: when an infrastructure step fails,
    the response is an HTTP error with status 500. *)
Definition infrastructure_error_is_500 (lib : GoLib) (host : Host)
    (permittedPackagesString goExecPath wasmExecJS : string)
    (env : list string) (req : Request) (w : World) : Prop :=
  forall archive err,
    (readArchive (Form req)).1 = Some archive ->
    InfrastructureError lib host permittedPackagesString
      (WithTimeout request_Context 30) env goExecPath archive w err ->
    exists body,
      (handleRun lib host permittedPackagesString goExecPath env wasmExecJS
                 req w).1
      = http_Error body StatusInternalServerError.

(** The world once [os.MkdirTemp] has created [tmp], and the world once
    [os.RemoveAll] has run on it. *)
Definition with_tmp (tmp : string) (w : World) : World :=
  mkWorld (<[tmp := Directory]> (disk w)) (started w) (logged w).

Definition removed (host : Host) (tmp : string) (w : World) : World :=
  (os_RemoveAll host tmp w).2.

(** C2 as the specification words it: once the working directory is
    created, it is no longer on the disk when [buildWASM] returns. *)
Definition directory_gone_on_return (lib : GoLib) (host : Host)
    (permittedPackagesString : string) (ctx : Context) (env : list string)
    (goExecPath : string) (archive : Archive) (w : World) : Prop :=
  forall tmp, MkdirTemp_pick host (disk w) = inl tmp ->
    disk (buildWASM lib host permittedPackagesString ctx env goExecPath
                    archive w).2 !! tmp = None.

(** The merged stream of a command: what the shared buffer holds. *)
Definition merged (done : Completed) : string :=
  String.concat "" (map snd (written done)).

(** What the body of [buildWASM] returns from the start of the compiler
    on, for the disk [d] the copy left. *)
Definition after_compiler (host : Host) (ctx : Context) (env : list string)
    (goExecPath tmp : string) (w : World) (d : Disk)
    : (string * option error) * World :=
  let done := run host (build_Cmd ctx env goExecPath tmp) d in
  let w1 := mkWorld (disk_after done)
                    (started w ++ [build_Cmd ctx env goExecPath tmp])
                    (logged w) in
  match Wait_error (state done) with
  | Some _ => (("", Some (errors_New (merged done))), w1)
  | None =>
      match (os_ReadFile (filepath_Join tmp output) w1).1 with
      | inr err => (("", Some (fmt_Errorf_w "failed to open build file: " err)), w1)
      | inl wasmBuild => ((base64_EncodeToString wasmBuild, None), w1)
      end
  end.

(** The run identifier of a request, as the handler reads it: 1 when the
    field [run-id] is absent or empty. *)
Definition requested_run_id (lib : GoLib) (req : Request) : Z + error :=
  if String.eqb (FormValue req "run-id") "" then inl 1
  else strconv_Atoi lib (FormValue req "run-id").

(** *** The tree of [txtar.FS]

    What [insert] maintains.  [good p]: the elements of the path are
    valid.  [node_ok]: a node sits at its path, the path is the root or
    good and fits the bound [B], a file node points at its file in the
    archive, and the entries of a node are nodes of the tree one level
    below it.  [linked]: every node but the root (and the nodes that
    [insert] is still working on) is an entry of its parent directory. *)
Definition good (p : string) : bool :=
  forallb valid_elem (strings_Split "/" p).

Definition node_ok (files : list File) (B : nat) (ns : gmap string node)
    (q : string) (m : node) : Prop :=
  n_path m = q
  /\ (q = "." \/ good q = true)
  /\ (q <> "." -> (String.length q + (if isDir m then 1 else 0) <= B)%nat)
  /\ (isDir m = false ->
      exists file, files !! idx m = Some file /\ Name file = q)
  /\ (forall c, c ∈ entries m ->
        isDir m = true /\ c <> "." /\ path_Dir c = q /\ is_Some (ns !! c)).

Definition tree_ok (files : list File) (B : nat) (ns : gmap string node)
    : Prop :=
  (exists r, ns !! "." = Some r /\ isDir r = true)
  /\ forall q m, ns !! q = Some m -> node_ok files B ns q m.

Definition has_parent (ns : gmap string node) (c : string) : Prop :=
  exists m, ns !! path_Dir c = Some m /\ isDir m = true /\ c ∈ entries m.

Definition linked (pending : string -> Prop) (ns : gmap string node) : Prop :=
  forall c, is_Some (ns !! c) -> c <> "." -> ~ pending c -> has_parent ns c.

Definition grows (ns ns' : gmap string node) : Prop :=
  forall q m, ns !! q = Some m ->
    exists m', ns' !! q = Some m'
               /\ isDir m' = isDir m /\ idx m' = idx m
               /\ forall c, c ∈ entries m -> c ∈ entries m'.

(** Every file of the archive has its node, with its index. *)
Definition filed (done : list File) (ns : gmap string node) : Prop :=
  forall (i : nat) (file : File), done !! i = Some file ->
    exists m, ns !! Name file = Some m /\ isDir m = false /\ idx m = i.

(** The directories above a path, nearest first, up to the root ".". *)
Fixpoint ancestors_upto (fuel : nat) (p : string) : list string :=
  match fuel with
  | O => []
  | S fuel' =>
      let dir := path_Dir p in
      dir :: (if String.eqb dir "." then [] else ancestors_upto fuel' dir)
  end.

Definition ancestors (p : string) : list string :=
  ancestors_upto (String.length p) p.

(** The names [txtar.FS] accepts: valid paths, pairwise distinct, none of
    them a directory above another (or the root). *)
Definition txtar_accepts (names : list string) : bool :=
  forallb fs_ValidPath names
  && bool_decide (NoDup names)
  && forallb (fun p => forallb (fun q => negb (bool_decide (q ∈ ancestors p)))
                               names)
             names.

(** A name fits in a zip header. *)
Definition short_name (name : string) : bool :=
  Z.of_nat (String.length name) <=? uint16max.

(** What the nodes of the tree are, for the names inserted so far: the
    root, a file node for a name, a directory node above a name. *)
Definition nodes_of (done : list string) (ns : gmap string node) : Prop :=
  (exists r, ns !! "." = Some r /\ isDir r = true)
  /\ forall q m, ns !! q = Some m ->
       q = "."
       \/ (isDir m = false /\ q ∈ done)
       \/ (isDir m = true /\ exists d, d ∈ done /\ q ∈ ancestors d).

(** The level of a path in the tree is bounded by its length. *)
Definition rank (p : string) : nat :=
  if String.eqb p "." then 0%nat else String.length p.

(** An entry that is not a directory is a file of [files]. *)
Definition from_files (files : list File) (zipped : list ZipEntry) : Prop :=
  forall e, e ∈ zipped -> zip_IsDir e = false ->
    exists file, file ∈ files /\ e = mkZipEntry (Name file) false (Data file).

(** The files of the archive are reproduced by the entries of the zip
    file: each file is an entry, and each entry that is not a directory is
    a file of the archive. *)
Definition reproduces (archive : Archive) (zipped : list ZipEntry) : Prop :=
  (forall file, file ∈ Files archive ->
                mkZipEntry (Name file) false (Data file) ∈ zipped)
  /\ (forall e, e ∈ zipped -> zip_IsDir e = false ->
        exists file, file ∈ Files archive
                     /\ e = mkZipEntry (Name file) false (Data file)).

Definition download_headers : list (string * string) :=
  [("Content-Disposition", "attachment"); ("Content-Type", "application/zip")].

(** C8 as the specification words it: whatever the form, the download
    succeeds and the zip file reproduces the archive. *)
Definition export_succeeds (lib : GoLib) (req : Request) : Prop :=
  forall archive, (readArchive (Form req)).1 = Some archive ->
    exists zipped,
      handleDownload lib req
      = http_ServeContent download_headers "playground.zip" zipped
      /\ reproduces archive zipped.

(** A form that names a file above the root of the archive. *)
Definition form_outside : Values :=
  <["filename" := ["../main.go"]]> (<["../main.go" := ["package main"]]> ∅).

(** *** Doubles of the collaborators

    A library and a family of hosts to run the program on.  The parser
    reads sources of one shape: a first line [package ...], then lines
    [import "path"]; on these it agrees with [go/parser]. *)
Module Double.

Definition dquote : ascii := "034"%char.

Fixpoint import_lines (lines : list string) : list string :=
  match lines with
  | [] => []
  | line :: rest =>
      if String.prefix "import " line then
        String.substring 7 (String.length line - 7) line :: import_lines rest
      else if String.eqb line "" then import_lines rest
      else []
  end.

Definition ParseFile (src : string) : list string + error :=
  match strings_Split newline src with
  | first :: rest =>
      if String.prefix "package " first then inl (import_lines rest)
      else inr (errors_New "main.go:1:1: expected 'package'")
  | [] => inr (errors_New "main.go:1:1: expected 'package'")
  end.

Definition Unquote (s : string) : string * option error :=
  match s with
  | String c rest =>
      if Ascii.eqb c dquote
         && String.eqb (String.substring (String.length rest - 1) 1 rest)
                       (String dquote "")
      then (String.substring 0 (String.length rest - 1) rest, None)
      else ("", Some (errors_New "invalid syntax"))
  | EmptyString => ("", Some (errors_New "invalid syntax"))
  end.

Definition Quote (s : string) : string :=
  String dquote s +:+ String dquote "".

Fixpoint digits (acc : Z) (s : string) : option Z :=
  match s with
  | EmptyString => Some acc
  | String c rest =>
      let n := Z.of_N (N_of_ascii c) in
      if (48 <=? n) && (n <=? 57) then digits (acc * 10 + (n - 48)) rest
      else None
  end.

Definition Atoi (s : string) : Z + error :=
  let number :=
    match s with
    | EmptyString => None
    | String c rest =>
        if Ascii.eqb c "-" then
          if String.eqb rest "" then None else Z.opp <$> digits 0 rest
        else digits 0 s
    end in
  match number with
  | Some z =>
      if (- 2 ^ 63 <=? z) && (z <? 2 ^ 63) then inl z
      else inr (errors_New "strconv.Atoi: value out of range")
  | None => inr (errors_New "strconv.Atoi: invalid syntax")
  end.

Definition Parse (rawURL : string) : URL + error :=
  if String.prefix "http://" rawURL then
    inl (mkURL "http" (String.substring 7 (String.length rawURL - 7) rawURL))
  else if String.eqb rawURL "" then inl (mkURL "" "")
  else inr (errors_New "invalid URI for request").

Definition lib : GoLib :=
  mkGoLib ParseFile Unquote Quote Atoi Parse (fun key => key)
          (fun _ _ => inl "<html></html>").

(** The allow-list of the doubles: two packages, one per line. *)
Definition allow_list : string :=
  "fmt" +:+ String newline "syscall/js" +:+ String newline "".

Definition source (imports : list string) : string :=
  "package main"
  +:+ String.concat ""
        (map (fun path => String newline "import " +:+ Quote path) imports).

(** A host: the outcome of [os.MkdirTemp], the error of [os.CopyFS] (it
    writes the files when it has none), what the compiler writes, how it
    ends and the artifact it leaves, if any.  [os.RemoveAll] succeeds. *)
Definition copy_files (dir : string) (fsys : filesystem) (d : Disk) : Disk :=
  fold_left (fun acc file =>
               <[filepath_Join dir (Name file)
                 := Regular (list_byte_of_string (Data file))]> acc)
            (Files (ar fsys)) d.

Definition host (made : string + error) (copied : option error)
    (chunks : list (Stream * string)) (st : ProcessState)
    (artifact : option (list byte)) : Host :=
  mkHost (fun _ => made)
         (fun dir fsys d =>
            (copied, match copied with
                     | None => copy_files dir fsys d
                     | Some _ => d
                     end))
         (fun cmd d =>
            mkCompleted chunks st
              (match artifact with
               | Some content =>
                   <[filepath_Join (Dir cmd) output := Regular content]> d
               | None => d
               end))
         (fun _ _ => None).

Definition tmp : string := "/tmp/2461".

Definition wasm : list byte := [x00; x61; x73; x6d].

(** The compiler succeeds. *)
Definition host_ok : Host :=
  host (inl tmp) None [] (Exited 0) (Some wasm).

(** [os.MkdirTemp] fails. *)
Definition host_no_tmp : Host :=
  host (inr (errors_New "mkdir /tmp/2461: no space left on device")) None []
       (Exited 0) (Some wasm).

(** The compiler reports an error on both streams and exits with 1. *)
Definition diagnostics : list (Stream * string) :=
  [(Stderr, "# example"); (Stdout, String newline "");
   (Stderr, "./main.go:3:1: syntax error")].

Definition host_compile_error : Host :=
  host (inl tmp) None diagnostics (Exited 1) None.

(** The compiler writes the same and is killed at the deadline. *)
Definition host_killed : Host :=
  host (inl tmp) None diagnostics Killed None.

Definition world0 : World := mkWorld ∅ [] [].

Definition ctx : Context := WithTimeout request_Context 30.

Definition main_go (imports : list string) : File :=
  mkFile "main.go" (source imports).

(** A malformed file followed by a file that imports [net]. *)
Definition archive_malformed_then_net : Archive :=
  mkArchive [mkFile "a.go" "not go"; mkFile "b.go" (source ["net"])].

Definition archive_fmt : Archive := mkArchive [main_go ["fmt"]].

Definition archive_net : Archive := mkArchive [main_go ["fmt"; "net"]].

Definition request (form : Values) : Request := mkRequest form ∅.

Definition form_fmt : Values :=
  <["filename" := ["main.go"]]> (<["main.go" := [source ["fmt"]]]> ∅).

(** Two files, one of them in a directory. *)
Definition form_two_files : Values :=
  <["filename" := ["a.txt"; "b/c.txt"]]>
    (<["a.txt" := ["x"]]> (<["b/c.txt" := ["y"]]> ∅)).

Definition archive_two_files : Archive :=
  mkArchive [mkFile "a.txt" "x"; mkFile "b/c.txt" "y"].

(** [os.CopyFS] fails. *)
Definition host_copy_fails : Host :=
  host (inl tmp) (Some (errors_New "write /tmp/2461/main.go: disk quota exceeded"))
       [] (Exited 0) (Some wasm).

(** The compiler exits with 0 and leaves no artifact. *)
Definition host_no_artifact : Host :=
  host (inl tmp) None [] (Exited 0) None.

(** The compiler succeeds; [os.RemoveAll] fails and removes nothing. *)
Definition host_remove_fails : Host :=
  mkHost (MkdirTemp_pick host_ok) (CopyFS_result host_ok) (run host_ok)
         (fun _ _ =>
            Some (errors_New "unlinkat /tmp/2461/main.go: permission denied",
                  fun _ => true)).

(** One file, which is no Go source. *)
Definition archive_malformed : Archive := mkArchive [mkFile "a.go" "not go"].

(** A disk that already holds other files. *)
Definition world1 : World :=
  mkWorld (<["/tmp/2461x/keep" := Regular []]> (<["/tmp" := Directory]> ∅)) [] [].

(** A name that is both a file and a directory. *)
Definition form_file_and_directory : Values :=
  <["filename" := ["a"; "a/b"]]> ∅.

End Double.

(** Requests as the page sends them: with a run identifier and the
    headers of htmx. *)
Module Htmx.

Definition headers (target : string) : gmap string (list string) :=
  <["hx-current-url" := ["http://localhost:8080"]]>
    (<["HX-Target" := [target]]> ∅).

(** The third run, swapped into the element [runner]. *)
Definition request_runner : Request :=
  mkRequest (<["run-id" := ["3"]]> Double.form_fmt) (headers "runner").

(** A run identifier that is no number. *)
Definition request_bad_run_id : Request :=
  mkRequest (<["run-id" := ["three"]]> Double.form_fmt) (headers "runner").

(** A current URL that does not parse. *)
Definition request_bad_url : Request :=
  mkRequest Double.form_fmt (<["hx-current-url" := ["://"]]> ∅).

(** Two files of the same name. *)
Definition archive_twice : Archive :=
  mkArchive [Double.main_go ["fmt"]; Double.main_go ["fmt"]].

End Htmx.

(** ** The example [counting-up]

    The program of [assets/examples/counting-up/main.go], as the sequence
    of what it does to the page, its standard output and the clock. *)
Module CountingUp.







End CountingUp.

(** * Properties *)

(** ** The assembler: [readArchive] *)

Lemma readArchive_loop_app (form : Values) (filenames : list string)
    (files : list File) :
  readArchive_loop form filenames files
  = files ++ map (file_of_field form) filenames.
Proof.
  unfold readArchive_loop.
  revert files.
  induction filenames as [|filename filenames IH]; intros files; simpl.
  - by rewrite app_nil_r.
  - rewrite IH, <- app_assoc. reflexivity.
Qed.

Lemma readArchive_Files (form : Values) :
  readArchive form
  = (Some (mkArchive (map (file_of_field form) (Values_index form "filename"))),
     None).
Proof.
  unfold readArchive. by rewrite readArchive_loop_app.
Qed.

(** C7, counterexample: the form that names [a] twice yields an archive
    with two entries named [a], not a single one. *)
Lemma readArchive_keeps_duplicates :
  (readArchive form_twice).1
  = Some (mkArchive [mkFile "a" "x"; mkFile "a" "x"])
  /\ ~ one_entry_per_distinct_name form_twice.
Proof.
  split; [by vm_compute|].
  intros Hclaim.
  destruct (Hclaim (mkArchive [mkFile "a" "x"; mkFile "a" "x"]))
    as (Hnodup & _); [by vm_compute|].
  inversion Hnodup as [|? ? Hnotin _]; subst.
  apply Hnotin. by left.
Qed.

(** C7, amended: [readArchive] yields one entry per submitted filename
    value, in the order of submission, an entry for every occurrence of a
    name; the content of each entry is the (first) value of the form field
    of that name, empty when the form has no such field. *)
Theorem readArchive_one_entry_per_submitted_name (form : Values) :
  exists archive : Archive,
    (readArchive form).1 = Some archive
    /\ names archive = Values_index form "filename"
    /\ length (Files archive) = length (Values_index form "filename")
    /\ (forall (i : nat) (file : File),
          Files archive !! i = Some file ->
          Values_index form "filename" !! i = Some (Name file)
          /\ Data file = Values_Get form (Name file)).
Proof.
  rewrite readArchive_Files. eexists. split; [reflexivity|]. simpl.
  split; [|split].
  - unfold names. simpl. rewrite map_map. simpl. apply map_id.
  - apply length_map.
  - intros i file Hi.
    rewrite list_lookup_fmap in Hi.
    destruct (Values_index form "filename" !! i) as [filename|] eqn:Hname;
      simpl in Hi; [|discriminate].
    inversion Hi; subst. by simpl.
Qed.

(** C10: [readArchive] returns a non-nil archive and a nil error for
    every form, so both handlers always go on with that archive: the
    branch that answers 400 for an error of [readArchive] is never taken. *)
Theorem readArchive_never_fails (lib : GoLib) (host : Host)
    (permittedPackagesString goExecPath wasmExecJS : string)
    (env : list string) (req : Request) :
  exists archive : Archive,
    readArchive (Form req) = (Some archive, None)
    /\ handleRun lib host permittedPackagesString goExecPath env wasmExecJS req
       = handleRun_build lib host permittedPackagesString goExecPath env
                         wasmExecJS req (Some archive)
    /\ handleDownload lib req = handleDownload_export lib (Some archive).
Proof.
  eexists. split; [apply readArchive_Files|].
  unfold handleRun, handleDownload.
  rewrite readArchive_Files. split; reflexivity.
Qed.

(** ** The artifact encoder: [base64.StdEncoding.EncodeToString] *)

Section Base64.

Local Open Scope Z_scope.

(** The bits of [b] lie below those of [a * 2^n]: or-ing is adding. *)
Lemma lor_shiftl_add (a b n : Z) :
  0 <= n -> 0 <= b < 2 ^ n -> Z.lor (Z.shiftl a n) b = a * 2 ^ n + b.
Proof.
  intros Hn Hb.
  rewrite <- Z.add_lor_land, <- Z.shiftl_mul_pow2 by assumption.
  assert (Z.land (Z.shiftl a n) b = 0) as ->; [|lia].
  apply Z.bits_inj'. intros k Hk.
  rewrite Z.land_spec, Z.bits_0.
  destruct (Z.lt_ge_cases k n) as [Hlt|Hge].
  - rewrite Z.shiftl_spec_low by assumption. reflexivity.
  - assert (Z.testbit b k = false) as ->; [|apply andb_false_r].
    destruct (Z.eq_dec b 0) as [->|Hb0]; [apply Z.bits_0|].
    apply Z.bits_above_log2; [lia|].
    apply Z.lt_le_trans with n; [|assumption].
    apply Z.log2_lt_pow2; lia.
Qed.

Lemma uint_of_byte_range (b : byte) : 0 <= uint_of_byte b < 256.
Proof.
  unfold uint_of_byte. pose proof (Byte.to_N_bounded b). lia.
Qed.

Lemma byte_of_uint_of_byte (b : byte) (z : Z) :
  z mod 256 = uint_of_byte b -> byte_of_uint z = b.
Proof.
  intros Hz. unfold byte_of_uint.
  change 255 with (Z.ones 8). rewrite Z.land_ones by lia.
  change (2 ^ 8) with 256. rewrite Hz. unfold uint_of_byte.
  rewrite N2Z.id, Byte.of_to_N. reflexivity.
Qed.

(** The four sextets of a 24-bit value and the three bytes they give back. *)
Lemma sextets_bytes (z0 z1 z2 : Z) :
  0 <= z0 < 256 -> 0 <= z1 < 256 -> 0 <= z2 < 256 ->
  let val := Z.lor (Z.lor (Z.shiftl z0 16) (Z.shiftl z1 8)) z2 in
  let s0 := Z.land (Z.shiftr val 18) 63 in
  let s1 := Z.land (Z.shiftr val 12) 63 in
  let s2 := Z.land (Z.shiftr val 6) 63 in
  let s3 := Z.land val 63 in
  (0 <= s0 < 64 /\ 0 <= s1 < 64 /\ 0 <= s2 < 64 /\ 0 <= s3 < 64)
  /\ Z.lor (Z.shiftl s0 2) (Z.shiftr s1 4) mod 256 = z0
  /\ Z.lor (Z.shiftl s1 4) (Z.shiftr s2 2) mod 256 = z1
  /\ Z.lor (Z.shiftl s2 6) s3 mod 256 = z2.
Proof.
  intros H0 H1 H2 val s0 s1 s2 s3.
  assert (Hval : val = z0 * 65536 + z1 * 256 + z2).
  { unfold val.
    rewrite (Z.shiftl_mul_pow2 z1 8) by lia.
    rewrite (lor_shiftl_add z0 (z1 * 2 ^ 8) 16) by lia.
    replace (z0 * 2 ^ 16 + z1 * 2 ^ 8) with ((z0 * 256 + z1) * 2 ^ 8) by lia.
    rewrite <- Z.shiftl_mul_pow2 by lia.
    rewrite lor_shiftl_add by lia. lia. }
  assert (Hs0 : s0 = (val / 262144) mod 64).
  { unfold s0. change 63 with (Z.ones 6).
    rewrite Z.land_ones, Z.shiftr_div_pow2 by lia. reflexivity. }
  assert (Hs1 : s1 = (val / 4096) mod 64).
  { unfold s1. change 63 with (Z.ones 6).
    rewrite Z.land_ones, Z.shiftr_div_pow2 by lia. reflexivity. }
  assert (Hs2 : s2 = (val / 64) mod 64).
  { unfold s2. change 63 with (Z.ones 6).
    rewrite Z.land_ones, Z.shiftr_div_pow2 by lia. reflexivity. }
  assert (Hs3 : s3 = val mod 64).
  { unfold s3. change 63 with (Z.ones 6).
    rewrite Z.land_ones by lia. reflexivity. }
  assert (Hr0 : 0 <= s0 < 64) by (rewrite Hs0; apply Z.mod_pos_bound; lia).
  assert (Hr1 : 0 <= s1 < 64) by (rewrite Hs1; apply Z.mod_pos_bound; lia).
  assert (Hr2 : 0 <= s2 < 64) by (rewrite Hs2; apply Z.mod_pos_bound; lia).
  assert (Hr3 : 0 <= s3 < 64) by (rewrite Hs3; apply Z.mod_pos_bound; lia).
  split; [tauto|].
  rewrite !Z.shiftr_div_pow2 by lia.
  rewrite !lor_shiftl_add by
    first [lia | split; [apply Z.div_pos; lia | apply Z.div_lt_upper_bound; lia]].
  change (2 ^ 4) with 16. change (2 ^ 2) with 4. change (2 ^ 6) with 64.
  clearbody s0 s1 s2 s3 val. subst val s0 s1 s2 s3.
  repeat split; Z.div_mod_to_equations; lia.
Qed.

Lemma encode_table (i : Z) :
  0 <= i < 64 ->
  decodeMap (encode_at i) = Some i /\ Ascii.eqb (encode_at i) padChar = false.
Proof.
  intros Hi.
  assert (Htable :
    forallb (fun n : nat =>
               match decodeMap (encode_at (Z.of_nat n)) with
               | Some j => (j =? Z.of_nat n)
                           && negb (Ascii.eqb (encode_at (Z.of_nat n)) padChar)
               | None => false
               end) (seq 0 64) = true) by (vm_compute; reflexivity).
  rewrite forallb_forall in Htable.
  specialize (Htable (Z.to_nat i)).
  rewrite Z2Nat.id in Htable by lia.
  assert (Hin : In (Z.to_nat i) (seq 0 64)) by (apply in_seq; lia).
  specialize (Htable Hin).
  destruct (decodeMap (encode_at i)) as [j|]; [|discriminate].
  apply andb_prop in Htable as [Hj Hpad].
  apply Z.eqb_eq in Hj. subst j.
  split; [reflexivity|].
  by destruct (Ascii.eqb (encode_at i) padChar).
Qed.

(** A quantum: the characters [Encode] writes for three bytes decode to
    the sextets, and the sextets to the bytes. *)
Lemma quantum (b0 b1 b2 : byte) :
  let val := Z.lor (Z.lor (Z.shiftl (uint_of_byte b0) 16)
                          (Z.shiftl (uint_of_byte b1) 8))
                   (uint_of_byte b2) in
  let s0 := Z.land (Z.shiftr val 18) 63 in
  let s1 := Z.land (Z.shiftr val 12) 63 in
  let s2 := Z.land (Z.shiftr val 6) 63 in
  let s3 := Z.land val 63 in
  (decodeMap (encode_at s0) = Some s0 /\ decodeMap (encode_at s1) = Some s1
   /\ decodeMap (encode_at s2) = Some s2 /\ decodeMap (encode_at s3) = Some s3)
  /\ (Ascii.eqb (encode_at s2) padChar = false
      /\ Ascii.eqb (encode_at s3) padChar = false)
  /\ byte_of_uint (Z.lor (Z.shiftl s0 2) (Z.shiftr s1 4)) = b0
  /\ byte_of_uint (Z.lor (Z.shiftl s1 4) (Z.shiftr s2 2)) = b1
  /\ byte_of_uint (Z.lor (Z.shiftl s2 6) s3) = b2.
Proof.
  intros val s0 s1 s2 s3.
  destruct (sextets_bytes _ _ _ (uint_of_byte_range b0) (uint_of_byte_range b1)
                          (uint_of_byte_range b2))
    as ((H0 & H1 & H2 & H3) & Hb0 & Hb1 & Hb2).
  fold val in H0, H1, H2, H3, Hb0, Hb1, Hb2.
  fold s0 in H0, Hb0. fold s1 in H1, Hb0, Hb1.
  fold s2 in H2, Hb1, Hb2. fold s3 in H3, Hb2.
  repeat split;
    first [ apply encode_table; assumption
          | apply byte_of_uint_of_byte; assumption ].
Qed.

Lemma Encode_3 (b0 b1 b2 : byte) (rest : list byte) :
  Encode (b0 :: b1 :: b2 :: rest)
  = let val := Z.lor (Z.lor (Z.shiftl (uint_of_byte b0) 16)
                            (Z.shiftl (uint_of_byte b1) 8))
                     (uint_of_byte b2) in
    encode_at (Z.land (Z.shiftr val 18) 63)
    :: encode_at (Z.land (Z.shiftr val 12) 63)
    :: encode_at (Z.land (Z.shiftr val 6) 63)
    :: encode_at (Z.land val 63)
    :: Encode rest.
Proof. reflexivity. Qed.

Lemma Decode_5 (c0 c1 c2 c3 c4 : ascii) (more : list ascii) :
  Decode (c0 :: c1 :: c2 :: c3 :: c4 :: more)
  = (s0 ← decodeMap c0;
     s1 ← decodeMap c1;
     s2 ← decodeMap c2;
     s3 ← decodeMap c3;
     tail ← Decode (c4 :: more);
     Some (byte_of_uint (Z.lor (Z.shiftl s0 2) (Z.shiftr s1 4))
           :: byte_of_uint (Z.lor (Z.shiftl s1 4) (Z.shiftr s2 2))
           :: byte_of_uint (Z.lor (Z.shiftl s2 6) s3)
           :: tail)).
Proof. reflexivity. Qed.

Lemma Encode_nil_inv (src : list byte) : Encode src = [] -> src = [].
Proof.
  destruct src as [|b0 [|b1 [|b2 rest]]]; [reflexivity|discriminate..].
Qed.

Lemma list_ind3 {A : Type} (P : list A -> Prop) :
  P [] -> (forall a, P [a]) -> (forall a b, P [a; b]) ->
  (forall a b c l, P l -> P (a :: b :: c :: l)) ->
  forall l, P l.
Proof.
  intros Hnil Hone Htwo Hstep l.
  assert (H : P l /\ (forall a, P (a :: l)) /\ (forall a b, P (a :: b :: l))).
  { induction l as [|x l (IH0 & IH1 & IH2)].
    - auto.
    - repeat split; auto. }
  apply H.
Qed.

Lemma Decode_Encode (src : list byte) : Decode (Encode src) = Some src.
Proof.
  induction src as [| b0 | b0 b1 | b0 b1 b2 rest IH] using list_ind3.
  - reflexivity.
  - (* one byte: the quantum of b0, 0, 0 with two pad characters *)
    destruct (quantum b0 x00 x00) as ((D0 & D1 & _) & _ & B0 & _).
    change (uint_of_byte x00) with 0 in D0, D1, B0.
    rewrite Z.shiftl_0_l, !Z.lor_0_r in D0, D1, B0.
    cbn [Encode Decode].
    rewrite D0, D1. cbn [mbind option_bind].
    change (Ascii.eqb padChar padChar) with true. cbn iota.
    by rewrite B0.
  - (* two bytes: the quantum of b0, b1, 0 with one pad character *)
    destruct (quantum b0 b1 x00) as ((D0 & D1 & D2 & _) & (P2 & _) & B0 & B1 & _).
    change (uint_of_byte x00) with 0 in D0, D1, D2, P2, B0, B1.
    rewrite !Z.lor_0_r in D0, D1, D2, P2, B0, B1.
    cbn [Encode Decode].
    rewrite D0, D1. cbn [mbind option_bind].
    change (Ascii.eqb padChar padChar) with true. cbn iota.
    rewrite P2, D2. cbn [mbind option_bind].
    by rewrite B0, B1.
  - destruct (quantum b0 b1 b2)
      as ((D0 & D1 & D2 & D3) & (P2 & P3) & B0 & B1 & B2).
    rewrite Encode_3. cbv zeta.
    destruct (Encode rest) as [|c4 more] eqn:Hrest.
    + apply Encode_nil_inv in Hrest. subst rest.
      cbn [Decode].
      rewrite D0, D1. cbn [mbind option_bind].
      rewrite P3, D2, D3. cbn [mbind option_bind].
      by rewrite B0, B1, B2.
    + rewrite Decode_5, D0, D1, D2, D3. cbn [mbind option_bind].
      rewrite IH. cbn [mbind option_bind].
      by rewrite B0, B1, B2.
Qed.

Lemma Encode_length (src : list byte) :
  Z.of_nat (length (Encode src)) = 4 * ((Z.of_nat (length src) + 2) / 3).
Proof.
  induction src as [| b0 | b0 b1 | b0 b1 b2 rest IH] using list_ind3;
    try reflexivity.
  rewrite Encode_3. cbv zeta. cbn [length].
  rewrite !Nat2Z.inj_succ, IH.
  Z.div_mod_to_equations. lia.
Qed.

End Base64.

(** C9: the encoding of the artifact is a function of its bytes, it is
    reversible (decoding the encoded string gives back exactly the bytes,
    for every byte sequence, the empty one included) and it does not
    compress: [n] bytes give [4 * ceil(n / 3)] characters. *)
Theorem base64_round_trip (wasmBuild : list byte) :
  base64_DecodeString (base64_EncodeToString wasmBuild) = Some wasmBuild
  /\ Z.of_nat (String.length (base64_EncodeToString wasmBuild))
     = 4 * ((Z.of_nat (length wasmBuild) + 2) / 3).
Proof.
  unfold base64_DecodeString, base64_EncodeToString. split.
  - rewrite list_ascii_of_string_of_list_ascii. apply Decode_Encode.
  - rewrite <- Encode_length. f_equal.
    induction (Encode wasmBuild) as [|c l IH]; simpl; [reflexivity|].
    by rewrite IH.
Qed.

(** ** The import guard: [checkImports] and the loop of [buildWASM] *)

Section Guard.

Variable lib : GoLib.
Variable permittedPackagesString : string.

Let permitted := permittedPackages permittedPackagesString.
Let unquoted (spec : string) : string := (strconv_Unquote lib spec).1.

Lemma slices_Index_from_elem (s : list string) (v : string) (i : Z) :
  0 <= i -> (Z.geb (slices_Index_from i s v) 0 = true <-> v ∈ s).
Proof.
  revert i. induction s as [|x s IH]; intros i Hi; simpl.
  - split; [discriminate|]. intros H. inversion H.
  - destruct (String.eqb_spec v x) as [->|Hne].
    + split; [intros _; left|intros _]. apply Z.geb_le. lia.
    + rewrite IH by lia. split; [by right|].
      intros H. inversion H; [congruence|assumption].
Qed.

Lemma slices_Index_elem (s : list string) (v : string) :
  Z.geb (slices_Index s v) 0 = true <-> v ∈ s.
Proof. apply slices_Index_from_elem. lia. Qed.

(** [checkImports_loop] passes exactly the lists of permitted imports and
    otherwise reports the first import that is not permitted. *)
Lemma checkImports_loop_None (specs : list string) :
  checkImports_loop lib permittedPackagesString specs = None
  <-> forall spec, spec ∈ specs -> unquoted spec ∈ permitted.
Proof.
  induction specs as [|spec specs IH]; simpl.
  - split; [|reflexivity]. intros _ spec H. inversion H.
  - destruct (Z.geb _ 0) eqn:Hidx.
    + apply slices_Index_elem in Hidx. rewrite IH. split.
      * intros Hall s Hs. inversion Hs; subst; [exact Hidx|by apply Hall].
      * intros Hall s Hs. apply Hall. by right.
    + split; [discriminate|]. intros Hall. exfalso.
      assert (Hin : unquoted spec ∈ permitted) by (apply Hall; left).
      apply slices_Index_elem in Hin. unfold unquoted, permitted in Hin.
      congruence.
Qed.

Lemma checkImports_loop_Some (specs : list string) (err : error) :
  checkImports_loop lib permittedPackagesString specs = Some err ->
  exists spec, spec ∈ specs
               /\ (unquoted spec ∉ permitted)
               /\ err = errors_New ("importing "
                                    +:+ strconv_Quote lib (unquoted spec)
                                    +:+ " is not permitted on this site").
Proof.
  induction specs as [|spec specs IH]; simpl; [discriminate|].
  destruct (Z.geb _ 0) eqn:Hidx.
  - intros H. destruct (IH H) as (s & Hs & Hrest). exists s. split; [by right|].
    exact Hrest.
  - intros [= <-]. exists spec. split; [left|]. split; [|reflexivity].
    intros Hin. apply slices_Index_elem in Hin. unfold unquoted, permitted in Hin.
    congruence.
Qed.

Lemma imports_of_elem (file : File) (paths : list string) (path : string) :
  imports_of lib file = Some paths -> path ∈ paths ->
  exists specs spec, parser_ParseFile lib (Data file) = inl specs
                     /\ spec ∈ specs /\ path = unquoted spec.
Proof.
  unfold imports_of.
  destruct (parser_ParseFile lib (Data file)) as [specs|]; [|discriminate].
  intros [= <-] Hin. apply list_elem_of_fmap in Hin as (spec & -> & Hspec).
  eauto.
Qed.

(** A file with an import outside the allow-list does not pass. *)
Lemma checkImports_offending (file : File) (path : string) :
  offending lib permittedPackagesString file path ->
  exists err, checkImports lib permittedPackagesString (Data file) = Some err.
Proof.
  intros (_ & paths & Hparse & Hin & Hnot).
  destruct (imports_of_elem _ _ _ Hparse Hin) as (specs & spec & Hspecs & Hspec & ->).
  unfold checkImports. rewrite Hspecs.
  destruct (checkImports_loop lib permittedPackagesString specs) eqn:Hloop;
    [eauto|].
  exfalso. apply Hnot.
  by apply (proj1 (checkImports_loop_None specs) Hloop).
Qed.

(** What [checkImports] reports: the syntax error, or an import of the file
    that is not permitted. *)
Lemma checkImports_Some (file : File) (err : error) :
  is_go_file file = true ->
  checkImports lib permittedPackagesString (Data file) = Some err ->
  (exists perr, parser_ParseFile lib (Data file) = inr perr
                /\ Error err = "failed to parse main.go: " +:+ Error perr)
  \/ (exists bad, offending lib permittedPackagesString file bad
                  /\ Error err = "importing " +:+ strconv_Quote lib bad
                                 +:+ " is not permitted on this site").
Proof.
  intros Hgo. unfold checkImports.
  destruct (parser_ParseFile lib (Data file)) as [specs|perr] eqn:Hparse.
  - intros Hloop. right.
    destruct (checkImports_loop_Some _ _ Hloop) as (spec & Hspec & Hnot & ->).
    exists (unquoted spec). split; [|reflexivity].
    split; [exact Hgo|].
    exists (map unquoted specs). unfold imports_of. rewrite Hparse.
    split; [reflexivity|]. split; [|exact Hnot].
    apply list_elem_of_fmap. eauto.
  - intros [= <-]. left. eauto.
Qed.

(** The loop of [buildWASM] stops at the first [.go] file that
    [checkImports] refuses. *)
Lemma buildWASM_screen_Some (files : list File) (err : error) :
  buildWASM_screen lib permittedPackagesString files = Some err ->
  exists pre culprit post cerr,
    files = pre ++ culprit :: post
    /\ buildWASM_screen lib permittedPackagesString pre = None
    /\ is_go_file culprit = true
    /\ checkImports lib permittedPackagesString (Data culprit) = Some cerr
    /\ err = fmt_Errorf_w ("failed in " +:+ Name culprit +:+ ": ") cerr.
Proof.
  induction files as [|file files IH]; simpl; [discriminate|].
  fold (is_go_file file).
  destruct (is_go_file file) eqn:Hgo; simpl.
  - destruct (checkImports lib permittedPackagesString (Data file))
      as [cerr|] eqn:Hcheck.
    + intros [= <-]. exists [], file, files, cerr. by repeat split.
    + intros H. destruct (IH H) as (pre & culprit & post & cerr & -> & Hpre & Hrest).
      exists (file :: pre), culprit, post, cerr.
      split; [reflexivity|]. split; [|exact Hrest].
      simpl. fold (is_go_file file). by rewrite Hgo, Hcheck.
  - intros H. destruct (IH H) as (pre & culprit & post & cerr & -> & Hpre & Hrest).
    exists (file :: pre), culprit, post, cerr.
    split; [reflexivity|]. split; [|exact Hrest].
    simpl. fold (is_go_file file). by rewrite Hgo.
Qed.

Lemma buildWASM_screen_offending (files : list File) (file : File)
    (path : string) :
  file ∈ files -> offending lib permittedPackagesString file path ->
  exists err, buildWASM_screen lib permittedPackagesString files = Some err.
Proof.
  intros Hin Hoff.
  induction files as [|first files IH]; [inversion Hin|].
  simpl. fold (is_go_file first).
  destruct (is_go_file first) eqn:Hgo; simpl.
  - destruct (checkImports lib permittedPackagesString (Data first)) eqn:Hcheck;
      [eauto|].
    inversion Hin; subst; [|by apply IH].
    destruct (checkImports_offending _ _ Hoff) as (err & Herr). congruence.
  - inversion Hin; subst; [|by apply IH].
    destruct Hoff as (Hgo' & _). congruence.
Qed.

Lemma buildWASM_screen_None (files : list File) :
  only_permitted_imports lib permittedPackagesString files ->
  buildWASM_screen lib permittedPackagesString files = None.
Proof.
  intros Hall.
  destruct (buildWASM_screen lib permittedPackagesString files) as [err|] eqn:Hscreen;
    [|reflexivity].
  exfalso.
  destruct (buildWASM_screen_Some _ _ Hscreen)
    as (pre & culprit & post & cerr & -> & _ & Hgo & Hcheck & _).
  destruct (Hall culprit) as (paths & Hparse & Hpaths);
    [apply elem_of_app; right; left | exact Hgo |].
  destruct (checkImports_Some _ _ Hgo Hcheck) as [(perr & Hperr & _)|(bad & Hbad & _)].
  - unfold imports_of in Hparse. by rewrite Hperr in Hparse.
  - destruct Hbad as (_ & paths' & Hparse' & Hin & Hnot).
    rewrite Hparse in Hparse'. injection Hparse' as <-. by apply Hnot, Hpaths.
Qed.

(** The loop passes exactly when [checkImports] passes every [.go] file. *)
Lemma buildWASM_screen_passes (files : list File) :
  buildWASM_screen lib permittedPackagesString files = None
  <-> forall file, file ∈ files -> is_go_file file = true ->
        checkImports lib permittedPackagesString (Data file) = None.
Proof.
  induction files as [|first files IH]; simpl.
  - split; [|reflexivity]. intros _ file Hin. inversion Hin.
  - fold (is_go_file first).
    destruct (is_go_file first) eqn:Hgo; simpl.
    + destruct (checkImports lib permittedPackagesString (Data first))
        eqn:Hfirst.
      * split; [discriminate|]. intros Hall.
        specialize (Hall first ltac:(left) Hgo). congruence.
      * rewrite IH. split.
        -- intros Hall file Hin Hfile.
           inversion Hin; subst; [exact Hfirst|by apply Hall].
        -- intros Hall file Hin. apply Hall. by right.
    + rewrite IH. split.
      * intros Hall file Hin Hfile.
        inversion Hin; subst; [congruence|by apply Hall].
      * intros Hall file Hin. apply Hall. by right.
Qed.

End Guard.

(** Equality, not prefix: [syscall/js] is in the allow-list of the
    doubles, [syscall] is not. *)
Example prefix_is_not_permitted :
  buildWASM_screen Double.lib Double.allow_list [Double.main_go ["syscall/js"]]
  = None
  /\ buildWASM_screen Double.lib Double.allow_list [Double.main_go ["syscall"]]
     = Some (fmt_Errorf_w "failed in main.go: "
               (errors_New ("importing " +:+ Double.Quote "syscall"
                            +:+ " is not permitted on this site"))).
Proof. split; vm_compute; reflexivity. Qed.

(** C6, counterexample: a submission whose only file is no Go source has
    no import path outside the allow-list, and the guard refuses it. *)
Lemma unparsable_file_rejected :
  imports_of Double.lib (mkFile "a.go" "not go") = None
  /\ buildWASM_screen Double.lib Double.allow_list
                      (Files Double.archive_malformed) <> None
  /\ ~ permitted_never_rejected Double.lib Double.allow_list
         (Files Double.archive_malformed).
Proof.
  assert (Hrefused : buildWASM_screen Double.lib Double.allow_list
                                      (Files Double.archive_malformed) <> None)
    by (vm_compute; discriminate).
  split; [reflexivity|]. split; [exact Hrefused|].
  intros Hclaim. apply Hrefused, Hclaim.
  intros file path Hin _ (paths & Hparse & _).
  apply list_elem_of_singleton in Hin. subst file.
  vm_compute in Hparse. discriminate.
Qed.

(** C6, amended: the guard decides by exact equality with a line of the
    allow-list, no prefix or pattern.  [checkImports] passes a source
    exactly when it parses and the path of each of its imports is equal to
    a line of the list; the loop of [buildWASM] passes a submission
    exactly when this holds of every [.go] file of it.  So a submission
    whose [.go] files parse and import listed paths only is never
    rejected, and one with a [.go] file that does not parse always is. *)
Theorem guard_passes_exact_members (lib : GoLib)
    (permittedPackagesString : string) (files : list File) :
  (forall mainGo : string,
     checkImports lib permittedPackagesString mainGo = None
     <-> exists specs,
           parser_ParseFile lib mainGo = inl specs
           /\ forall spec, spec ∈ specs ->
                exists line,
                  line ∈ permittedPackages permittedPackagesString
                  /\ (strconv_Unquote lib spec).1 = line)
  /\ (buildWASM_screen lib permittedPackagesString files = None
      <-> forall file, file ∈ files -> is_go_file file = true ->
            exists specs,
              parser_ParseFile lib (Data file) = inl specs
              /\ forall spec, spec ∈ specs ->
                   exists line,
                     line ∈ permittedPackages permittedPackagesString
                     /\ (strconv_Unquote lib spec).1 = line).
Proof.
  assert (Hcheck : forall mainGo : string,
    checkImports lib permittedPackagesString mainGo = None
    <-> exists specs,
          parser_ParseFile lib mainGo = inl specs
          /\ forall spec, spec ∈ specs ->
               exists line,
                 line ∈ permittedPackages permittedPackagesString
                 /\ (strconv_Unquote lib spec).1 = line).
  { intros mainGo. unfold checkImports.
    destruct (parser_ParseFile lib mainGo) as [specs|perr].
    - rewrite checkImports_loop_None. split.
      + intros Hall. exists specs. split; [reflexivity|].
        intros spec Hspec. eexists. split; [by apply Hall|reflexivity].
      + intros (specs' & [= <-] & Hall) spec Hspec.
        destruct (Hall spec Hspec) as (line & Hline & ->). exact Hline.
    - split; [discriminate|]. intros (specs & Hparse & _). discriminate. }
  split; [exact Hcheck|].
  setoid_rewrite <- Hcheck.
  rewrite buildWASM_screen_passes. reflexivity.
Qed.

(** ** The build: [buildWASM] *)

Section Build.

Variable lib : GoLib.
Variable host : Host.
Variable permittedPackagesString : string.
Variable ctx : Context.
Variable env : list string.
Variable goExecPath : string.
Variable archive : Archive.

Let build := buildWASM lib host permittedPackagesString ctx env goExecPath archive.
Let body := buildWASM_body lib host permittedPackagesString ctx env goExecPath
                           archive.

Lemma buildWASM_no_tmp (w : World) (err : error) :
  MkdirTemp_pick host (disk w) = inr err ->
  build w
  = (("", Some (errors_New "failed to create temporary directory")),
     mkWorld (disk w) (started w)
             (logged w ++ ["failed to create temporary directory "
                           +:+ Error err])).
Proof.
  intros Hpick. unfold build, buildWASM, bind, os_MkdirTemp.
  rewrite Hpick. reflexivity.
Qed.

(** With a directory, [buildWASM] is its body followed by the deferred
    [os.RemoveAll]. *)
Lemma buildWASM_deferred (w : World) (tmp : string) :
  MkdirTemp_pick host (disk w) = inl tmp ->
  build w = ((body tmp (with_tmp tmp w)).1,
             removed host tmp (body tmp (with_tmp tmp w)).2).
Proof.
  intros Hpick. unfold build, buildWASM, bind, os_MkdirTemp.
  rewrite Hpick. unfold defer, bind, ret, removed, with_tmp.
  fold body.
  destruct (body tmp _) as [result w1]. simpl.
  destruct (os_RemoveAll host tmp w1) as [? w2]. reflexivity.
Qed.

(** [os.RemoveAll] changes the disk only. *)
Lemma removed_started (tmp : string) (w : World) :
  started (removed host tmp w) = started w.
Proof.
  unfold removed, os_RemoveAll.
  by destruct (RemoveAll_fails host tmp (disk w)) as [[err kept]|].
Qed.

Lemma removed_logged (tmp : string) (w : World) :
  logged (removed host tmp w) = logged w.
Proof.
  unfold removed, os_RemoveAll.
  by destruct (RemoveAll_fails host tmp (disk w)) as [[err kept]|].
Qed.

(** When it succeeds, nothing is left at the path or below it. *)
Lemma removed_gone (tmp p : string) (w : World) :
  RemoveAll_fails host tmp (disk w) = None ->
  below tmp p = true -> disk (removed host tmp w) !! p = None.
Proof.
  intros Hdone Hbelow. unfold removed, os_RemoveAll. rewrite Hdone. simpl.
  apply map_lookup_filter_None. right. intros node _. simpl. congruence.
Qed.

(** Whether it succeeds or not, the rest of the disk is as before. *)
Lemma removed_outside (tmp p : string) (w : World) :
  below tmp p = false -> disk (removed host tmp w) !! p = disk w !! p.
Proof.
  intros Hbelow. unfold removed, os_RemoveAll.
  destruct (RemoveAll_fails host tmp (disk w)) as [[err kept]|]; simpl.
  - destruct (disk w !! p) as [node|] eqn:Hp.
    + apply map_lookup_filter_Some. split; [exact Hp|].
      simpl. by rewrite Hbelow.
    + apply map_lookup_filter_None. by left.
  - destruct (disk w !! p) as [node|] eqn:Hp.
    + apply map_lookup_filter_Some. by split.
    + apply map_lookup_filter_None. by left.
Qed.

Lemma below_refl (tmp : string) : below tmp tmp = true.
Proof. unfold below. by rewrite String.eqb_refl. Qed.

(** The body when the guard refuses the archive: nothing else happens. *)
Lemma body_rejected (w : World) (tmp : string) (err : error) :
  buildWASM_screen lib permittedPackagesString (Files archive) = Some err ->
  body tmp w = (("", Some err), w).
Proof.
  intros Hscreen. unfold body, buildWASM_body. by rewrite Hscreen.
Qed.

Lemma body_compiles (w : World) (tmp : string) (dir : filesystem) (d : Disk) :
  reaches_compiler lib host permittedPackagesString archive w tmp dir d ->
  body tmp (with_tmp tmp w) = after_compiler host ctx env goExecPath tmp w d.
Proof.
  intros (_ & Hscreen & Hfs & Hcopy).
  unfold body, buildWASM_body, after_compiler, merged.
  rewrite Hscreen, Hfs. unfold bind, os_CopyFS, with_tmp. simpl.
  rewrite Hcopy. unfold Cmd_Run. simpl.
  destruct (Wait_error _); [reflexivity|].
  unfold os_ReadFile. simpl.
  by destruct (disk_after _ !! _) as [[]|].
Qed.

Lemma body_copy_failed (w : World) (tmp : string) (dir : filesystem)
    (d : Disk) (err : error) :
  buildWASM_screen lib permittedPackagesString (Files archive) = None ->
  txtar_FS lib archive = inl dir ->
  CopyFS_result host tmp dir (<[tmp := Directory]> (disk w)) = (Some err, d) ->
  (body tmp (with_tmp tmp w)).1 = ("", Some err).
Proof.
  intros Hscreen Hfs Hcopy.
  unfold body, buildWASM_body.
  rewrite Hscreen, Hfs. unfold bind, os_CopyFS, with_tmp. simpl.
  by rewrite Hcopy.
Qed.

Lemma Wait_error_failed (st : ProcessState) :
  st <> Exited 0 -> exists err, Wait_error st = Some err.
Proof.
  destruct st as [[| |]| |]; simpl; eauto. congruence.
Qed.

End Build.

Lemma append_assoc (a b c : string) : (a +:+ b) +:+ c = a +:+ (b +:+ c).
Proof.
  induction a as [|x a IH]; [reflexivity|].
  change (String x ((a +:+ b) +:+ c) = String x (a +:+ (b +:+ c))).
  by f_equal.
Qed.

(** C1, counterexample: a malformed [.go] file comes before the file that
    imports [net]; the build is rejected, but the failure reports the
    syntax error of the first file and names no import path. *)
Lemma rejection_may_name_no_import :
  (buildWASM Double.lib Double.host_ok Double.allow_list Double.ctx []
             "/usr/bin/go" Double.archive_malformed_then_net Double.world0).1
  = ("", Some (fmt_Errorf_w "failed in a.go: "
                 (fmt_Errorf_w "failed to parse main.go: "
                    (errors_New "main.go:1:1: expected 'package'"))))
  /\ ~ rejected_naming_the_import Double.lib Double.host_ok Double.allow_list
        Double.ctx [] "/usr/bin/go" Double.archive_malformed_then_net
        Double.world0.
Proof.
  split; [by vm_compute|].
  intros Hclaim.
  destruct Hclaim as (_ & err & file & path & Herr & Hin & Hoff & Hnamed).
  { exists (mkFile "b.go" (Double.source ["net"])), "net".
    split; [right; left|].
    split; [reflexivity|].
    exists ["net"]. split; [reflexivity|]. split; [left|].
    vm_compute. intros H. repeat (inversion H as [|? ? ? H']; clear H; subst;
                                  try rename H' into H). }
  vm_compute in Herr. injection Herr as <-.
  destruct Hoff as (_ & paths & Hparse & Hpath & _).
  apply elem_of_cons in Hin as [->|Hin].
  - vm_compute in Hparse. discriminate.
  - apply list_elem_of_singleton in Hin. subst file.
    vm_compute in Hparse. injection Hparse as <-.
    apply list_elem_of_singleton in Hpath. subst path.
    vm_compute in Hnamed. discriminate.
Qed.

(** C1, amended: an archive with a [.go] file that imports a path outside
    the allow-list is always rejected, and no command is started.  The
    failure is the first one met: the temporary directory could not be
    created, or the first [.go] file of the archive that the guard
    refuses is malformed (the failure names the file and the syntax
    error), or that file imports a path outside the allow-list (the
    failure names the file and the quoted path). *)
Theorem disallowed_import_rejected_before_compiling
    (lib : GoLib) (host : Host) (permittedPackagesString : string)
    (ctx : Context) (env : list string) (goExecPath : string)
    (archive : Archive) (w : World) (file : File) (path : string)
    (Hin : file ∈ Files archive)
    (Hoff : offending lib permittedPackagesString file path) :
  let result := buildWASM lib host permittedPackagesString ctx env goExecPath
                          archive w in
  started result.2 = started w
  /\ result.1.1 = ""
  /\ exists err,
       result.1.2 = Some err
       /\ ((exists e, MkdirTemp_pick host (disk w) = inr e
                      /\ Error err = "failed to create temporary directory")
           \/ (exists pre culprit post,
                 Files archive = pre ++ culprit :: post
                 /\ buildWASM_screen lib permittedPackagesString pre = None
                 /\ is_go_file culprit = true
                 /\ ((exists perr,
                        parser_ParseFile lib (Data culprit) = inr perr
                        /\ Error err = malformed_message (Name culprit) perr)
                     \/ (exists bad,
                           offending lib permittedPackagesString culprit bad
                           /\ Error err
                              = not_permitted_message lib (Name culprit) bad)))).
Proof.
  intros result. subst result.
  destruct (buildWASM_screen_offending lib permittedPackagesString
              (Files archive) file path Hin Hoff) as (serr & Hscreen).
  destruct (MkdirTemp_pick host (disk w)) as [tmp|e] eqn:Hpick.
  - rewrite (buildWASM_deferred _ _ _ _ _ _ _ _ _ Hpick).
    rewrite (body_rejected _ _ _ _ _ _ _ _ _ _ Hscreen). simpl.
    split; [by rewrite removed_started|]. split; [reflexivity|].
    exists serr. split; [reflexivity|]. right.
    destruct (buildWASM_screen_Some _ _ _ _ Hscreen)
      as (pre & culprit & post & cerr & Hfiles & Hpre & Hgo & Hcheck & ->).
    exists pre, culprit, post. repeat (split; [assumption|]).
    destruct (checkImports_Some _ _ _ _ Hgo Hcheck)
      as [(perr & Hperr & Hmsg)|(bad & Hbad & Hmsg)]; [left|right].
    + exists perr. split; [exact Hperr|].
      unfold fmt_Errorf_w, malformed_message. cbn [Error]. rewrite Hmsg.
      rewrite !append_assoc. reflexivity.
    + exists bad. split; [exact Hbad|].
      unfold fmt_Errorf_w, not_permitted_message. cbn [Error]. rewrite Hmsg.
      rewrite !append_assoc. reflexivity.
  - rewrite (buildWASM_no_tmp _ _ _ _ _ _ _ _ _ Hpick). simpl.
    split; [reflexivity|]. split; [reflexivity|].
    eexists. split; [reflexivity|]. left. eauto.
Qed.

Lemma disallowed_import_rejected_before_compiling_witness :
  offending Double.lib Double.allow_list (Double.main_go ["fmt"; "net"]) "net"
  /\ let result := buildWASM Double.lib Double.host_ok Double.allow_list
                             Double.ctx [] "/usr/bin/go" Double.archive_net
                             Double.world0 in
     started result.2 = started Double.world0 /\ result.1.1 = "".
Proof.
  assert (Hoff : offending Double.lib Double.allow_list
                           (Double.main_go ["fmt"; "net"]) "net").
  { split; [reflexivity|].
    exists ["fmt"; "net"]. split; [reflexivity|]. split; [right; left|].
    vm_compute. intros H. repeat (inversion H as [|? ? ? H']; clear H; subst;
                                  try rename H' into H). }
  split; [exact Hoff|].
  destruct (disallowed_import_rejected_before_compiling
              Double.lib Double.host_ok Double.allow_list Double.ctx []
              "/usr/bin/go" Double.archive_net Double.world0
              (Double.main_go ["fmt"; "net"]) "net"
              ltac:(left) Hoff) as (Hstarted & Hempty & _).
  split; assumption.
Defined.

(** C2, counterexample: the compiler succeeds and [os.RemoveAll] fails;
    [buildWASM] discards that error and returns the binary, and the
    working directory is still on the disk. *)
Lemma working_directory_may_remain :
  (buildWASM Double.lib Double.host_remove_fails Double.allow_list Double.ctx
             [] "/usr/bin/go" Double.archive_fmt Double.world0).1
  = (base64_EncodeToString Double.wasm, None)
  /\ disk (buildWASM Double.lib Double.host_remove_fails Double.allow_list
                     Double.ctx [] "/usr/bin/go" Double.archive_fmt
                     Double.world0).2 !! Double.tmp = Some Directory
  /\ ~ directory_gone_on_return Double.lib Double.host_remove_fails
         Double.allow_list Double.ctx [] "/usr/bin/go" Double.archive_fmt
         Double.world0.
Proof.
  assert (Hstays :
    disk (buildWASM Double.lib Double.host_remove_fails Double.allow_list
                    Double.ctx [] "/usr/bin/go" Double.archive_fmt
                    Double.world0).2 !! Double.tmp = Some Directory)
    by (vm_compute; reflexivity).
  split; [by vm_compute|]. split; [exact Hstays|].
  intros Hclaim. specialize (Hclaim Double.tmp eq_refl).
  rewrite Hstays in Hclaim. discriminate.
Qed.

(** C2, amended: once [os.MkdirTemp] has created the working directory,
    [buildWASM] ends with [os.RemoveAll] of that directory whatever the
    path through its body (the imports refused, the archive not turned
    into a file system, the copy failed, the compiler failed or killed at
    the deadline, the artifact unreadable, or success), and returns what
    the body returned: the error of the removal is discarded.  When the
    removal succeeds, the directory and everything below it is gone; in
    either case the paths outside the directory are as the body left
    them. *)
Theorem working_directory_removal
    (lib : GoLib) (host : Host) (permittedPackagesString : string)
    (ctx : Context) (env : list string) (goExecPath : string)
    (archive : Archive) (w : World) (tmp : string)
    (Htmp : MkdirTemp_pick host (disk w) = inl tmp) :
  let returned := buildWASM_body lib host permittedPackagesString ctx env
                                 goExecPath archive tmp (with_tmp tmp w) in
  let after := (buildWASM lib host permittedPackagesString ctx env goExecPath
                          archive w).2 in
  buildWASM lib host permittedPackagesString ctx env goExecPath archive w
  = (returned.1, (os_RemoveAll host tmp returned.2).2)
  /\ (RemoveAll_fails host tmp (disk returned.2) = None ->
      forall p : string, below tmp p = true -> disk after !! p = None)
  /\ (forall p : string, below tmp p = false ->
                         disk after !! p = disk returned.2 !! p).
Proof.
  intros returned after. subst returned after.
  rewrite (buildWASM_deferred _ _ _ _ _ _ _ _ _ Htmp). cbn [fst snd].
  split; [reflexivity|]. split.
  - intros Hdone p Hp. by apply removed_gone.
  - intros p Hp. by apply removed_outside.
Qed.

Lemma working_directory_removal_witness :
  MkdirTemp_pick Double.host_ok (disk Double.world0) = inl Double.tmp
  /\ disk (buildWASM Double.lib Double.host_ok Double.allow_list Double.ctx []
                     "/usr/bin/go" Double.archive_fmt Double.world0).2
     !! Double.tmp = None.
Proof.
  split; [reflexivity|].
  refine (proj1 (proj2 (working_directory_removal
                          Double.lib Double.host_ok Double.allow_list
                          Double.ctx [] "/usr/bin/go" Double.archive_fmt
                          Double.world0 Double.tmp eq_refl))
                eq_refl Double.tmp _).
  reflexivity.
Defined.

(** The paths through [buildWASM], on the doubles: what it returns and
    the disk it leaves. *)
Example buildWASM_paths :
  let build host archive :=
    buildWASM Double.lib host Double.allow_list Double.ctx [] "/usr/bin/go"
              archive Double.world1 in
  (build Double.host_ok Double.archive_fmt).1 = ("AGFzbQ==", None)
  /\ (build Double.host_ok Double.archive_net).1.2
     = Some (fmt_Errorf_w "failed in main.go: "
               (errors_New ("importing " +:+ Double.Quote "net"
                            +:+ " is not permitted on this site")))
  /\ (build Double.host_copy_fails Double.archive_fmt).1.2
     = Some (errors_New "write /tmp/2461/main.go: disk quota exceeded")
  /\ (build Double.host_compile_error Double.archive_fmt).1.2
     = Some (errors_New ("# example" +:+ String newline
                           "./main.go:3:1: syntax error"))
  /\ (build Double.host_no_artifact Double.archive_fmt).1.2
     = Some (fmt_Errorf_w "failed to open build file: "
               (errors_New "open /tmp/2461/main.wasm: no such file or directory"))
  /\ Forall (fun host => disk (build host Double.archive_fmt).2
                         = disk Double.world1)
            [Double.host_ok; Double.host_copy_fails; Double.host_compile_error;
             Double.host_killed; Double.host_no_artifact].
Proof.
  cbv zeta. repeat split; try (vm_compute; reflexivity).
  repeat constructor; apply map_eq; intros p; vm_compute; reflexivity.
Qed.

(** C5: when the compiler exits with a non-zero code, [buildWASM] returns
    the failure whose text is exactly what the compiler wrote to its
    standard output and standard error, merged in the order of the writes. *)
Theorem compiler_failure_shows_merged_output
    (lib : GoLib) (host : Host) (permittedPackagesString : string)
    (ctx : Context) (env : list string) (goExecPath : string)
    (archive : Archive) (w : World) (tmp : string) (dir : filesystem)
    (d : Disk) (code : Z)
    (Hreach : reaches_compiler lib host permittedPackagesString archive w
                               tmp dir d)
    (Hstate : state (run host (build_Cmd ctx env goExecPath tmp) d)
              = Exited code)
    (Hcode : code <> 0) :
  let done := run host (build_Cmd ctx env goExecPath tmp) d in
  exists err,
    (buildWASM lib host permittedPackagesString ctx env goExecPath archive w).1
    = ("", Some err)
    /\ Error err = String.concat "" (map snd (written done)).
Proof.
  intros done.
  destruct Hreach as (Hpick & Hrest).
  rewrite (buildWASM_deferred _ _ _ _ _ _ _ _ _ Hpick). simpl.
  rewrite (body_compiles _ _ _ _ _ _ _ _ _ _ _ (conj Hpick Hrest)).
  subst done. unfold after_compiler, merged. cbv zeta. rewrite Hstate.
  destruct (Wait_error_failed (Exited code)) as (e & ->); [congruence|].
  eexists. split; reflexivity.
Qed.

Lemma compiler_failure_shows_merged_output_witness :
  exists err,
    (buildWASM Double.lib Double.host_compile_error Double.allow_list
               Double.ctx [] "/usr/bin/go" Double.archive_fmt Double.world0).1
    = ("", Some err)
    /\ Error err
       = "# example" +:+ String newline "./main.go:3:1: syntax error".
Proof.
  assert (Hfs : exists dir, txtar_FS Double.lib Double.archive_fmt = inl dir)
    by (eexists; vm_compute; reflexivity).
  destruct Hfs as (dir & Hfs).
  apply (compiler_failure_shows_merged_output
           Double.lib Double.host_compile_error Double.allow_list Double.ctx []
           "/usr/bin/go" Double.archive_fmt Double.world0 Double.tmp dir
           (Double.copy_files Double.tmp dir (<[Double.tmp := Directory]> ∅)) 1).
  - split; [reflexivity|]. split; [reflexivity|]. split; [exact Hfs|reflexivity].
  - reflexivity.
  - lia.
Defined.

(** C4, counterexample: the compiler writes the same diagnostics and is
    either killed at the deadline or exits with code 1; [buildWASM]
    returns the same failure in both cases. *)
Lemma cancellation_conflated :
  (buildWASM Double.lib (ending_in Double.host_compile_error Killed)
             Double.allow_list Double.ctx [] "/usr/bin/go" Double.archive_fmt
             Double.world0).1
  = ("", Some (errors_New ("# example" +:+ String newline
                             "./main.go:3:1: syntax error")))
  /\ (buildWASM Double.lib (ending_in Double.host_compile_error (Exited 1))
                Double.allow_list Double.ctx [] "/usr/bin/go"
                Double.archive_fmt Double.world0).1
     = ("", Some (errors_New ("# example" +:+ String newline
                                "./main.go:3:1: syntax error")))
  /\ ~ cancellation_distinguishable Double.lib Double.host_compile_error
        Double.allow_list Double.ctx [] "/usr/bin/go" Double.archive_fmt
        Double.world0.
Proof.
  split; [by vm_compute|]. split; [by vm_compute|].
  intros Hclaim. apply (Hclaim 1); [lia|]. vm_compute. reflexivity.
Qed.

(** C4, amended: when the compiler is killed at the deadline, the build
    fails, and the text of the failure is what the compiler had written
    until then; the failure is the one [buildWASM] returns when the
    compiler exits with a non-zero code after the same output: the two
    are not told apart. *)
Theorem cancellation_reported_like_compiler_error
    (lib : GoLib) (host : Host) (permittedPackagesString : string)
    (ctx : Context) (env : list string) (goExecPath : string)
    (archive : Archive) (w : World) (tmp : string) (dir : filesystem)
    (d : Disk) (code : Z)
    (Hreach : reaches_compiler lib host permittedPackagesString archive w
                               tmp dir d)
    (Hcode : code <> 0) :
  let out := merged (run host (build_Cmd ctx env goExecPath tmp) d) in
  (buildWASM lib (ending_in host Killed) permittedPackagesString ctx env
             goExecPath archive w).1
  = ("", Some (errors_New out))
  /\ buildWASM lib (ending_in host (Exited code)) permittedPackagesString ctx
               env goExecPath archive w
     = buildWASM lib (ending_in host Killed) permittedPackagesString ctx env
                 goExecPath archive w.
Proof.
  intros out.
  assert (Hall : forall st, st <> Exited 0 ->
    buildWASM lib (ending_in host st) permittedPackagesString ctx env
              goExecPath archive w
    = (("", Some (errors_New out)),
       removed host tmp
         (mkWorld (disk_after (run host (build_Cmd ctx env goExecPath tmp) d))
                  (started w ++ [build_Cmd ctx env goExecPath tmp])
                  (logged w)))).
  { intros st Hst.
    assert (Hreach' : reaches_compiler lib (ending_in host st)
                        permittedPackagesString archive w tmp dir d)
      by exact Hreach.
    destruct Hreach' as (Hpick & Hrest).
    rewrite (buildWASM_deferred _ _ _ _ _ _ _ _ _ Hpick).
    rewrite (body_compiles _ _ _ _ _ _ _ _ _ _ _ (conj Hpick Hrest)).
    unfold after_compiler. simpl.
    destruct (Wait_error_failed st Hst) as (e & ->). reflexivity. }
  rewrite (Hall Killed) by discriminate.
  rewrite (Hall (Exited code)) by congruence.
  split; reflexivity.
Qed.

Lemma cancellation_reported_like_compiler_error_witness :
  (buildWASM Double.lib (ending_in Double.host_compile_error Killed)
             Double.allow_list Double.ctx [] "/usr/bin/go" Double.archive_fmt
             Double.world0).1
  = ("", Some (errors_New
                 ("# example" +:+ String newline "./main.go:3:1: syntax error"))).
Proof.
  assert (Hfs : exists dir, txtar_FS Double.lib Double.archive_fmt = inl dir)
    by (eexists; vm_compute; reflexivity).
  destruct Hfs as (dir & Hfs).
  refine (proj1 (cancellation_reported_like_compiler_error
           Double.lib Double.host_compile_error Double.allow_list Double.ctx []
           "/usr/bin/go" Double.archive_fmt Double.world0 Double.tmp dir
           (Double.copy_files Double.tmp dir (<[Double.tmp := Directory]> ∅)) 1
           _ _)).
  - split; [reflexivity|]. split; [reflexivity|]. split; [exact Hfs|reflexivity].
  - lia.
Defined.

(** ** The compile handler *)

(** When an infrastructure step fails, [buildWASM] returns its error. *)
Lemma buildWASM_InfrastructureError
    (lib : GoLib) (host : Host) (permittedPackagesString : string)
    (ctx : Context) (env : list string) (goExecPath : string)
    (archive : Archive) (w : World) (err : error) :
  InfrastructureError lib host permittedPackagesString ctx env goExecPath
                      archive w err ->
  (buildWASM lib host permittedPackagesString ctx env goExecPath archive w).1
  = ("", Some err).
Proof.
  intros [e Hpick | tmp dir d e Hpick Hscreen Hfs Hcopy
          | tmp dir d e Hreach done Hstate Hread].
  - by rewrite (buildWASM_no_tmp _ _ _ _ _ _ _ _ _ Hpick).
  - rewrite (buildWASM_deferred _ _ _ _ _ _ _ _ _ Hpick). simpl.
    by apply body_copy_failed with dir d.
  - pose proof Hreach as (Hpick & _).
    rewrite (buildWASM_deferred _ _ _ _ _ _ _ _ _ Hpick). simpl.
    rewrite (body_compiles _ _ _ _ _ _ _ _ _ _ _ Hreach).
    unfold after_compiler. fold done. rewrite Hstate. simpl.
    unfold os_ReadFile in *. simpl in *. by rewrite Hread.
Qed.

(** Whatever error [buildWASM] returns, the handler renders the template
    [build-failure] with status 200 and the text of the error. *)
Lemma handleRun_build_failure
    (lib : GoLib) (host : Host)
    (permittedPackagesString goExecPath wasmExecJS : string)
    (env : list string) (req : Request) (w : World) (archive : Archive)
    (runID : Z) (currentURL : URL) (err : error) :
  (readArchive (Form req)).1 = Some archive ->
  requested_run_id lib req = inl runID ->
  url_Parse lib (Header_Get lib (Header req) "hx-current-url") = inl currentURL ->
  (buildWASM lib host permittedPackagesString (WithTimeout request_Context 30)
             env goExecPath archive w).1.2 = Some err ->
  (handleRun lib host permittedPackagesString goExecPath env wasmExecJS req w).1
  = renderHTML "build-failure" StatusOK
               (RunFailureData (mkRunFailure (Error err) runID)).
Proof.
  intros Harchive Hid Hurl Hbuild.
  rewrite readArchive_Files in Harchive. simpl in Harchive.
  unfold handleRun. rewrite readArchive_Files. rewrite Harchive.
  unfold handleRun_build. unfold requested_run_id in Hid.
  rewrite Hid, Hurl. unfold bind.
  destruct (buildWASM _ _ _ _ _ _ _ _) as [[encoded berr] w1].
  simpl in Hbuild. subst berr. reflexivity.
Qed.

(** C3, counterexample: [os.MkdirTemp] fails; the response is the
    rendered failure with status 200, not an HTTP error with status 500. *)
Lemma infrastructure_error_answered_200 :
  (handleRun Double.lib Double.host_no_tmp Double.allow_list "/usr/bin/go" []
             "" (Double.request Double.form_fmt) Double.world0).1
  = renderHTML "build-failure" 200
      (RunFailureData (mkRunFailure "failed to create temporary directory" 1))
  /\ ~ infrastructure_error_is_500 Double.lib Double.host_no_tmp
         Double.allow_list "/usr/bin/go" "" [] (Double.request Double.form_fmt)
         Double.world0.
Proof.
  split; [by vm_compute|].
  intros Hclaim.
  destruct (Hclaim Double.archive_fmt
                   (errors_New "failed to create temporary directory"))
    as (body & Hbody).
  - by vm_compute.
  - by eapply mkdir_failed.
  - vm_compute in Hbody. discriminate.
Qed.

(** C3, amended: when an infrastructure step of a compile request fails
    (the temporary directory cannot be created, the archive cannot be
    copied into it, or the artifact cannot be read), the response is the
    template [build-failure] rendered with status 200 and a [RunFailure]
    whose text is the message of the error [buildWASM] returns; for the
    temporary directory that message is the fixed text
    "failed to create temporary directory". *)
Theorem infrastructure_error_rendered_as_failure
    (lib : GoLib) (host : Host)
    (permittedPackagesString goExecPath wasmExecJS : string)
    (env : list string) (req : Request) (w : World) (archive : Archive)
    (runID : Z) (currentURL : URL) (err : error)
    (Harchive : (readArchive (Form req)).1 = Some archive)
    (Hid : requested_run_id lib req = inl runID)
    (Hurl : url_Parse lib (Header_Get lib (Header req) "hx-current-url")
            = inl currentURL)
    (Hinfra : InfrastructureError lib host permittedPackagesString
                (WithTimeout request_Context 30) env goExecPath archive w err) :
  (handleRun lib host permittedPackagesString goExecPath env wasmExecJS req w).1
  = renderHTML "build-failure" StatusOK
               (RunFailureData (mkRunFailure (Error err) runID))
  /\ ((exists e, MkdirTemp_pick host (disk w) = inr e) ->
      Error err = "failed to create temporary directory").
Proof.
  split.
  - apply handleRun_build_failure with archive currentURL; try assumption.
    by rewrite (buildWASM_InfrastructureError _ _ _ _ _ _ _ _ _ Hinfra).
  - intros (e & Hpick).
    destruct Hinfra as [| tmp ? ? ? Hpick' | tmp ? ? ? (Hpick' & _)];
      [reflexivity|congruence..].
Qed.

Lemma infrastructure_error_rendered_as_failure_witness :
  (handleRun Double.lib Double.host_no_tmp Double.allow_list "/usr/bin/go" []
             "" (Double.request Double.form_fmt) Double.world0).1
  = renderHTML "build-failure" StatusOK
      (RunFailureData (mkRunFailure "failed to create temporary directory" 1)).
Proof.
  refine (proj1 (infrastructure_error_rendered_as_failure
           Double.lib Double.host_no_tmp Double.allow_list "/usr/bin/go" ""
           [] (Double.request Double.form_fmt) Double.world0
           Double.archive_fmt 1 (mkURL "" "")
           (errors_New "failed to create temporary directory") _ _ _ _)).
  - vm_compute. reflexivity.
  - reflexivity.
  - reflexivity.
  - eapply mkdir_failed. reflexivity.
Defined.

(** ** The exporter: [txtar.FS] and [zip.Writer.AddFS] *)

Section Paths.

Lemma strings_Split_nonempty (sep : ascii) (s : string) :
  strings_Split sep s <> [].
Proof.
  destruct s as [|c s]; simpl; [discriminate|].
  destruct (Ascii.eqb c sep); [discriminate|].
  destruct (strings_Split sep s); discriminate.
Qed.

Lemma Dir_scan_None (p : string) :
  Dir_scan p = None -> strings_Split "/" p = [p].
Proof.
  induction p as [|c p IH]; simpl; [reflexivity|].
  destruct (Dir_scan p) as [d|]; [discriminate|].
  destruct (Ascii.eqb c "/"); [discriminate|].
  intros _. by rewrite IH.
Qed.

(** A path with a slash is its directory, a slash and its last element. *)
Lemma Dir_scan_Some (p d : string) :
  Dir_scan p = Some d ->
  exists e, strings_Split "/" p = strings_Split "/" d ++ [e]
            /\ String.length p = (String.length d + 1 + String.length e)%nat.
Proof.
  revert d. induction p as [|c p IH]; intros d; simpl; [discriminate|].
  destruct (Dir_scan p) as [d'|] eqn:Hscan.
  - intros [= <-]. destruct (IH d' eq_refl) as (e & Hsplit & Hlen).
    exists e. simpl. rewrite Hsplit, Hlen. split; [|reflexivity].
    destruct (Ascii.eqb c "/"); [reflexivity|].
    pose proof (strings_Split_nonempty "/" d') as Hne.
    by destruct (strings_Split "/" d').
  - destruct (Ascii.eqb c "/") eqn:Hc; [|discriminate].
    intros [= <-]. exists p. simpl.
    rewrite (Dir_scan_None p Hscan). split; [reflexivity|lia].
Qed.

Lemma good_not_root (p : string) : good p = true -> p <> ".".
Proof. intros Hgood ->. discriminate. Qed.

Lemma good_not_empty (p : string) : good p = true -> p <> "".
Proof. intros Hgood ->. discriminate. Qed.

(** The directory of a good path is the root, or a shorter good path. *)
Lemma good_Dir (p : string) :
  good p = true ->
  path_Dir p = "."
  \/ (good (path_Dir p) = true
      /\ (String.length (path_Dir p) < String.length p)%nat).
Proof.
  intros Hgood. unfold path_Dir.
  destruct (Dir_scan p) as [d|] eqn:Hscan; [|by left].
  right. destruct (Dir_scan_Some p d Hscan) as (e & Hsplit & Hlen).
  assert (Hd : good d = true).
  { unfold good in *. rewrite Hsplit, forallb_app in Hgood.
    by apply andb_prop in Hgood as [? _]. }
  destruct d as [|c d]; [discriminate|].
  split; [exact Hd|lia].
Qed.

Lemma rank_child (p c : string) :
  good c = true -> path_Dir c = p -> (rank p < rank c)%nat.
Proof.
  intros Hgood <-. unfold rank at 2.
  destruct (String.eqb_spec c ".") as [->|_]; [discriminate|].
  destruct (good_Dir c Hgood) as [->|[Hd Hlt]].
  - unfold rank. simpl. destruct c; [discriminate|simpl; lia].
  - unfold rank. destruct (String.eqb _ "."); lia.
Qed.

(** Every path of the tree leads up to the root. *)
Lemma reaches_root (len : nat) :
  forall q : string,
    (String.length q <= len)%nat -> q = "." \/ good q = true ->
    exists k, Nat.iter k path_Dir q = ".".
Proof.
  induction len as [|len IH]; intros q Hlen [->|Hgood].
  - by exists 0%nat.
  - destruct q; [discriminate|simpl in Hlen; lia].
  - by exists 0%nat.
  - destruct (good_Dir q Hgood) as [Hroot|[Hdgood Hdlen]].
    + exists 1%nat. exact Hroot.
    + destruct (IH (path_Dir q)) as (k & Hk); [lia|by right|].
      exists (S k). rewrite Nat.iter_succ_r. exact Hk.
Qed.

Lemma path_Dir_neq (p : string) : good p = true -> path_Dir p <> p.
Proof.
  intros Hgood Heq. destruct (good_Dir p Hgood) as [Hroot|[_ Hlt]].
  - rewrite Heq in Hroot. by apply (good_not_root p).
  - rewrite Heq in Hlt. lia.
Qed.

(** More fuel than the length of the path lists no more ancestors. *)
Lemma ancestors_upto_fuel (fuel : nat) :
  forall (fuel' : nat) (d : string),
    good d = true ->
    (String.length d <= fuel)%nat -> (String.length d <= fuel')%nat ->
    ancestors_upto fuel d = ancestors_upto fuel' d.
Proof.
  induction fuel as [|fuel IH]; intros fuel' d Hgood Hlen Hlen'.
  { destruct d; [discriminate|simpl in Hlen; lia]. }
  destruct fuel' as [|fuel'].
  { destruct d; [discriminate|simpl in Hlen'; lia]. }
  cbn [ancestors_upto]. f_equal.
  destruct (String.eqb_spec (path_Dir d) ".") as [|Hne]; [reflexivity|].
  destruct (good_Dir d Hgood) as [?|[Hdgood Hdlen]]; [done|].
  apply IH; [exact Hdgood|lia|lia].
Qed.

Lemma ancestors_step (p : string) :
  good p = true ->
  ancestors p
  = path_Dir p :: (if String.eqb (path_Dir p) "." then []
                   else ancestors (path_Dir p)).
Proof.
  intros Hgood. unfold ancestors.
  destruct (String.length p) as [|len] eqn:Hlen.
  { destruct p; [discriminate|simpl in Hlen; lia]. }
  cbn [ancestors_upto]. f_equal.
  destruct (String.eqb_spec (path_Dir p) ".") as [|Hne]; [reflexivity|].
  destruct (good_Dir p Hgood) as [?|[Hdgood Hdlen]]; [done|].
  apply ancestors_upto_fuel; [exact Hdgood|lia|lia].
Qed.

(** An ancestor is the root or a shorter good path. *)
Lemma ancestors_shorter (len : nat) :
  forall p q : string,
    (String.length p <= len)%nat -> good p = true -> q ∈ ancestors p ->
    q = "." \/ (good q = true /\ (String.length q < String.length p)%nat).
Proof.
  induction len as [|len IH]; intros p q Hlen Hgood Hq.
  { destruct p; [discriminate|simpl in Hlen; lia]. }
  rewrite (ancestors_step p Hgood) in Hq.
  destruct (good_Dir p Hgood) as [Hroot|[Hdgood Hdlen]].
  - rewrite Hroot in Hq. simpl in Hq.
    apply list_elem_of_singleton in Hq. by left.
  - apply elem_of_cons in Hq as [->|Hq]; [by right|].
    destruct (String.eqb (path_Dir p) "."); [inversion Hq|].
    destruct (IH (path_Dir p) q) as [?|[? ?]]; [lia|assumption..| |].
    + by left.
    + right. split; [assumption|lia].
Qed.

Lemma ancestors_neq (p q : string) :
  good p = true -> q ∈ ancestors p -> q <> p.
Proof.
  intros Hgood Hq ->.
  destruct (ancestors_shorter _ p p (Nat.le_refl _) Hgood Hq) as [?|[_ ?]];
    [by apply (good_not_root p)|lia].
Qed.

Lemma fs_ValidPath_good (name : string) :
  fs_ValidPath name = true -> name <> "." -> good name = true.
Proof.
  unfold fs_ValidPath. intros Hvalid Hroot.
  apply andb_prop in Hvalid as [_ Hvalid].
  apply orb_prop in Hvalid as [Heq|Hgood]; [|exact Hgood].
  by apply String.eqb_eq in Heq.
Qed.

End Paths.

Section Tree.

Variable lib : GoLib.
Variable files : list File.
Variable B : nat.

Lemma grows_refl (ns : gmap string node) : grows ns ns.
Proof. intros q m Hq. exists m. auto. Qed.

Lemma grows_trans (ns1 ns2 ns3 : gmap string node) :
  grows ns1 ns2 -> grows ns2 ns3 -> grows ns1 ns3.
Proof.
  intros H12 H23 q m Hq.
  destruct (H12 q m Hq) as (m2 & Hq2 & Hdir2 & Hidx2 & Hent2).
  destruct (H23 q m2 Hq2) as (m3 & Hq3 & Hdir3 & Hidx3 & Hent3).
  exists m3. repeat split; [assumption|congruence|congruence|auto].
Qed.

Lemma grows_insert_fresh (ns : gmap string node) (p : string) (n : node) :
  ns !! p = None -> grows ns (<[p := n]> ns).
Proof.
  intros Hp q m Hq. exists m.
  rewrite lookup_insert_ne by congruence. auto.
Qed.

Lemma grows_add_entry (ns : gmap string node) (dir child : string) :
  grows ns (add_entry dir child ns).
Proof.
  intros q m Hq. unfold add_entry.
  destruct (decide (dir = q)) as [->|Hne].
  - rewrite lookup_alter_eq, Hq. simpl. eexists. split; [reflexivity|].
    simpl. repeat split; [].
    intros c Hc. apply elem_of_app. by left.
  - rewrite lookup_alter_ne by assumption. exists m. auto.
Qed.

Lemma grows_is_Some (ns ns' : gmap string node) (c : string) :
  grows ns ns' -> is_Some (ns !! c) -> is_Some (ns' !! c).
Proof.
  intros Hgrows [m Hm]. destruct (Hgrows c m Hm) as (m' & Hm' & _). eauto.
Qed.

Lemma grows_has_parent (ns ns' : gmap string node) (c : string) :
  grows ns ns' -> has_parent ns c -> has_parent ns' c.
Proof.
  intros Hgrows (m & Hm & Hdir & Hc).
  destruct (Hgrows _ m Hm) as (m' & Hm' & Hdir' & _ & Hent).
  exists m'. repeat split; [assumption|congruence|auto].
Qed.

Lemma node_ok_grows (ns ns' : gmap string node) (q : string) (m : node) :
  grows ns ns' -> node_ok files B ns q m -> node_ok files B ns' q m.
Proof.
  intros Hgrows (Hpath & Hgood & Hlen & Hfile & Hent).
  split; [|split; [|split; [|split]]]; try assumption.
  intros c Hc. destruct (Hent c Hc) as (Hd & Hn & Hp & Hs).
  repeat split; try assumption. by apply grows_is_Some with ns.
Qed.

(** A fresh node without entries keeps the tree well formed. *)
Lemma tree_ok_insert_fresh (ns : gmap string node) (n : node) :
  tree_ok files B ns ->
  ns !! n_path n = None ->
  entries n = [] ->
  good (n_path n) = true ->
  (String.length (n_path n) + (if isDir n then 1 else 0) <= B)%nat ->
  (isDir n = false ->
   exists file, files !! idx n = Some file /\ Name file = n_path n) ->
  tree_ok files B (<[n_path n := n]> ns).
Proof.
  intros ((r & Hroot & Hrdir) & Hnodes) Hfresh Hent Hgood Hlen Hfile.
  split.
  - exists r. rewrite lookup_insert_ne by congruence. auto.
  - intros q m Hq.
    destruct (decide (n_path n = q)) as [<-|Hne].
    + rewrite lookup_insert_eq in Hq. injection Hq as <-.
      split; [|split; [|split; [|split]]]; auto.
      intros c Hc. rewrite Hent in Hc. inversion Hc.
    + rewrite lookup_insert_ne in Hq by assumption.
      apply node_ok_grows with ns; [by apply grows_insert_fresh|auto].
Qed.

(** A node of the tree becomes an entry of its parent directory. *)
Lemma tree_ok_add_entry (ns : gmap string node) (dir child : string)
    (m : node) :
  tree_ok files B ns ->
  ns !! dir = Some m -> isDir m = true ->
  is_Some (ns !! child) -> child <> "." -> path_Dir child = dir ->
  tree_ok files B (add_entry dir child ns).
Proof.
  intros ((r & Hroot & Hrdir) & Hnodes) Hdir Hmdir Hchild Hne Hparent.
  pose proof (grows_add_entry ns dir child) as Hgrows.
  split.
  - destruct (Hgrows _ r Hroot) as (r' & Hr' & Hrdir' & _).
    exists r'. split; [assumption|congruence].
  - intros q m' Hq. unfold add_entry in Hq.
    destruct (decide (dir = q)) as [<-|Hneq].
    + rewrite lookup_alter_eq, Hdir in Hq. simpl in Hq. injection Hq as <-.
      destruct (Hnodes dir m Hdir) as (Hpath & Hgood & Hlen & Hfile & Hent).
      split; [|split; [|split; [|split]]]; simpl; try assumption.
      intros c Hc. split; [assumption|].
      assert (Hcase : c <> "." /\ path_Dir c = dir /\ is_Some (ns !! c)).
      { apply elem_of_app in Hc as [Hc|Hc].
        - by destruct (Hent c Hc) as (_ & ? & ? & ?).
        - apply list_elem_of_singleton in Hc. by subst c. }
      destruct Hcase as (? & ? & ?). repeat split; try assumption.
      by apply grows_is_Some with ns.
    + rewrite lookup_alter_ne in Hq by assumption.
      apply node_ok_grows with ns; auto.
Qed.

Lemma insert_unfold (fuel : nat) (ns : gmap string node) (n : node) :
  insert lib fuel ns n
  = match ns !! n_path n with
    | Some _ =>
        inr (errors_New ("duplicate path " +:+ strconv_Quote lib (n_path n)))
    | None =>
        let ns1 := <[n_path n := n]> ns in
        let dir := path_Dir (n_path n) in
        let created :=
          match fuel with
          | O => inr (errors_New "path too deep")
          | S fuel' => insert lib fuel' ns1 (mknode dir true 0%nat [])
          end in
        let parent :=
          match ns1 !! dir with
          | Some m => if isDir m then inl ns1 else created
          | None => created
          end in
        match parent with
        | inr err => inr err
        | inl ns2 => inl (add_entry dir (n_path n) ns2)
        end
    end.
Proof. destruct fuel; reflexivity. Qed.

(** The fuel [insert] is given, the length of the path, is enough: with
    more, the result is the same. *)
Lemma insert_fuel (fuel : nat) :
  forall (fuel' : nat) (ns : gmap string node) (n : node),
    (exists r, ns !! "." = Some r /\ isDir r = true) ->
    good (n_path n) = true ->
    (String.length (n_path n) <= fuel)%nat ->
    (String.length (n_path n) <= fuel')%nat ->
    insert lib fuel ns n = insert lib fuel' ns n.
Proof.
  induction fuel as [|fuel IH]; intros fuel' ns n (r & Hr & Hrdir) Hgood Hlen Hlen'.
  { destruct (n_path n); [discriminate|simpl in Hlen; lia]. }
  destruct fuel' as [|fuel'].
  { destruct (n_path n); [discriminate|simpl in Hlen'; lia]. }
  rewrite !insert_unfold.
  destruct (ns !! n_path n) eqn:Hfresh; [reflexivity|]. cbv zeta.
  assert (Hroot : <[n_path n := n]> ns !! "." = Some r).
  { rewrite lookup_insert_ne; [exact Hr|]. intros Heq.
    by apply (good_not_root _ Hgood). }
  assert (Hrec : path_Dir (n_path n) <> "." ->
            insert lib fuel (<[n_path n := n]> ns)
                   (mknode (path_Dir (n_path n)) true 0%nat [])
            = insert lib fuel' (<[n_path n := n]> ns)
                     (mknode (path_Dir (n_path n)) true 0%nat [])).
  { intros Hne. destruct (good_Dir _ Hgood) as [?|[Hdgood Hdlen]]; [done|].
    apply IH; simpl; eauto; lia. }
  destruct (<[n_path n := n]> ns !! path_Dir (n_path n)) as [m|] eqn:Hdir.
  - destruct (isDir m) eqn:Hmdir; [reflexivity|].
    rewrite Hrec; [reflexivity|]. intros Heq. rewrite Heq in Hdir. congruence.
  - rewrite Hrec; [reflexivity|]. intros Heq. rewrite Heq in Hdir. congruence.
Qed.

Lemma add_entry_lookup (ns : gmap string node) (dir child q : string)
    (m' : node) :
  add_entry dir child ns !! q = Some m' ->
  exists m, ns !! q = Some m /\ isDir m = isDir m'.
Proof.
  unfold add_entry. intros Hq.
  destruct (decide (dir = q)) as [->|Hne].
  - rewrite lookup_alter_eq in Hq.
    destruct (ns !! q) as [m|]; [|discriminate].
    simpl in Hq. injection Hq as <-. eauto.
  - rewrite lookup_alter_ne in Hq by assumption. eauto.
Qed.

(** [insert] succeeds on a fresh good path none of whose ancestors is a
    file; the nodes it adds are the node and directories above it. *)
Lemma insert_succeeds (fuel : nat) :
  forall (ns : gmap string node) (n : node),
    (exists r, ns !! "." = Some r /\ isDir r = true) ->
    good (n_path n) = true ->
    (String.length (n_path n) <= fuel)%nat ->
    ns !! n_path n = None ->
    (forall q m, q ∈ ancestors (n_path n) -> ns !! q = Some m ->
                 isDir m = true) ->
    exists ns',
      insert lib fuel ns n = inl ns'
      /\ (exists r, ns' !! "." = Some r /\ isDir r = true)
      /\ forall q m', ns' !! q = Some m' ->
           (exists m, ns !! q = Some m /\ isDir m = isDir m')
           \/ (q = n_path n /\ isDir m' = isDir n)
           \/ (q ∈ ancestors (n_path n) /\ isDir m' = true).
Proof.
  induction fuel as [|fuel IH]; intros ns n (r & Hr & Hrdir) Hgood Hlen Hfresh Hanc.
  { destruct (n_path n); [discriminate|simpl in Hlen; lia]. }
  rewrite insert_unfold, Hfresh. cbv zeta.
  set (p := n_path n) in *. set (ns1 := <[p := n]> ns).
  set (dir := path_Dir p) in *.
  pose proof (ancestors_step p Hgood) as Hstep. fold dir in Hstep.
  assert (Hdirp : dir <> p) by (by apply path_Dir_neq).
  assert (Hroot1 : ns1 !! "." = Some r).
  { unfold ns1. rewrite lookup_insert_ne; [exact Hr|].
    intros Heq. by apply (good_not_root p). }
  assert (Hold : forall q m, ns1 !! q = Some m ->
            (exists m0, ns !! q = Some m0 /\ isDir m0 = isDir m)
            \/ (q = p /\ isDir m = isDir n)).
  { intros q m Hq. unfold ns1 in Hq.
    apply lookup_insert_Some in Hq as [[<- <-]|[_ Hq]]; eauto. }
  assert (Hdirin : dir ∈ ancestors p) by (rewrite Hstep; left).
  assert (Hparent : exists ns2,
            match ns1 !! dir with
            | Some m => if isDir m then inl ns1
                        else insert lib fuel ns1 (mknode dir true 0%nat [])
            | None => insert lib fuel ns1 (mknode dir true 0%nat [])
            end = inl ns2
            /\ (exists r2, ns2 !! "." = Some r2 /\ isDir r2 = true)
            /\ forall q m', ns2 !! q = Some m' ->
                 (exists m, ns !! q = Some m /\ isDir m = isDir m')
                 \/ (q = p /\ isDir m' = isDir n)
                 \/ (q ∈ ancestors p /\ isDir m' = true)).
  { destruct (ns1 !! dir) as [m|] eqn:Hdir.
    - assert (Hm : ns !! dir = Some m).
      { unfold ns1 in Hdir. by rewrite lookup_insert_ne in Hdir. }
      rewrite (Hanc dir m Hdirin Hm).
      exists ns1. split; [reflexivity|]. split; [eauto|].
      intros q m' Hq. destruct (Hold q m' Hq) as [?|?]; auto.
    - assert (Hne : dir <> ".") by congruence.
      destruct (good_Dir p Hgood) as [?|[Hdgood Hdlen]]; [done|].
      fold dir in Hdgood, Hdlen.
      assert (Hrest : ancestors p = dir :: ancestors dir).
      { rewrite Hstep. by destruct (String.eqb_spec dir "."). }
      destruct (IH ns1 (mknode dir true 0%nat [])) as (ns2 & Hins & Hroot2 & Hdom);
        simpl; eauto; [lia| |].
      + intros q m Hq Hqm.
        assert (Hqp : q <> p).
        { intros ->.
          destruct (ancestors_shorter _ dir p (Nat.le_refl _) Hdgood Hq)
            as [?|[_ ?]]; [by apply (good_not_root p)|lia]. }
        apply (Hanc q m); [rewrite Hrest; by right|].
        unfold ns1 in Hqm. by rewrite lookup_insert_ne in Hqm.
      + exists ns2. split; [exact Hins|]. split; [exact Hroot2|].
        intros q m' Hq. destruct (Hdom q m' Hq) as [(m & Hm & Hd)|[[-> Hd]|[Hq' Hd]]].
        * destruct (Hold q m Hm) as [(m0 & Hm0 & Hd0)|[-> Hd0]].
          -- left. exists m0. split; [exact Hm0|congruence].
          -- right. left. split; [reflexivity|congruence].
        * right. right. split; [exact Hdirin|exact Hd].
        * right. right. split; [rewrite Hrest; by right|exact Hd]. }
  destruct Hparent as (ns2 & -> & (r2 & Hr2 & Hr2dir) & Hdom).
  eexists. split; [reflexivity|]. split.
  - destruct (grows_add_entry ns2 dir p _ r2 Hr2) as (r3 & Hr3 & Hd3 & _).
    exists r3. split; [exact Hr3|congruence].
  - intros q m' Hq.
    destruct (add_entry_lookup _ _ _ _ _ Hq) as (m & Hm & Hd).
    destruct (Hdom q m Hm) as [(m0 & Hm0 & Hd0)|[[-> Hd0]|[Hq' Hd0]]].
    + left. exists m0. split; [exact Hm0|congruence].
    + right. left. split; [reflexivity|congruence].
    + right. right. split; [exact Hq'|congruence].
Qed.

(** The node [n] has been recorded at its fresh path. *)
Lemma insert_recorded (ns : gmap string node) (n : node)
    (pending : string -> Prop) :
  ns !! n_path n = None ->
  tree_ok files B ns -> linked pending ns ->
  entries n = [] -> good (n_path n) = true ->
  (String.length (n_path n) + (if isDir n then 1 else 0) <= B)%nat ->
  (isDir n = false ->
   exists file, files !! idx n = Some file /\ Name file = n_path n) ->
  let ns1 := <[n_path n := n]> ns in
  tree_ok files B ns1
  /\ linked (fun c => pending c \/ c = n_path n) ns1
  /\ grows ns ns1.
Proof.
  intros Hfresh Htree Hlinked Hent Hgood Hlen Hfile ns1.
  assert (Hgrows1 : grows ns ns1) by (by apply grows_insert_fresh).
  split; [by apply tree_ok_insert_fresh|]. split; [|exact Hgrows1].
  intros c Hc Hroot Hpend.
  apply grows_has_parent with ns; [exact Hgrows1|].
  apply Hlinked; [|exact Hroot|tauto].
  unfold ns1 in Hc. rewrite lookup_insert_ne in Hc; [exact Hc|].
  intros Heq. apply Hpend. by right.
Qed.

(** The node recorded at [p] becomes an entry of its parent directory. *)
Lemma insert_entered (ns1 ns2 : gmap string node) (n md : node)
    (pending : string -> Prop) :
  let p := n_path n in
  let dir := path_Dir p in
  good p = true ->
  ns1 !! p = Some n ->
  tree_ok files B ns2 ->
  linked (fun c => pending c \/ c = p) ns2 ->
  grows ns1 ns2 ->
  ns2 !! dir = Some md -> isDir md = true ->
  let ns' := add_entry dir p ns2 in
  tree_ok files B ns' /\ linked pending ns' /\ grows ns1 ns'
  /\ exists m, ns' !! p = Some m /\ isDir m = isDir n /\ idx m = idx n.
Proof.
  intros p dir Hgood Hp1 Htree2 Hlinked2 Hgrows2 Hmd Hmdir ns'.
  pose proof (grows_add_entry ns2 dir p) as Hgrows3. fold ns' in Hgrows3.
  assert (Hp : p <> ".") by (by apply good_not_root).
  assert (Hp2 : is_Some (ns2 !! p)) by (apply grows_is_Some with ns1; eauto).
  split; [by apply tree_ok_add_entry with md|].
  split; [|split].
  - intros c Hc Hroot Hpend.
    assert (Hc2 : is_Some (ns2 !! c)).
    { unfold ns', add_entry in Hc. by apply lookup_alter_is_Some in Hc. }
    destruct (decide (c = p)) as [->|Hne].
    + destruct (Hgrows3 _ md Hmd) as (md' & Hmd' & Hmdir' & _ & _).
      exists md'. fold dir. repeat split; [exact Hmd'|congruence|].
      unfold ns', add_entry in Hmd'. rewrite lookup_alter_eq, Hmd in Hmd'.
      injection Hmd' as <-. simpl. apply elem_of_app. right. left.
    + apply grows_has_parent with ns2; [exact Hgrows3|].
      apply Hlinked2; [exact Hc2|exact Hroot|tauto].
  - by apply grows_trans with ns2.
  - destruct (Hgrows2 _ n Hp1) as (m2 & Hm2 & Hd2 & Hi2 & _).
    destruct (Hgrows3 _ m2 Hm2) as (m3 & Hm3 & Hd3 & Hi3 & _).
    exists m3. repeat split; [exact Hm3|congruence|congruence].
Qed.

(** [insert] keeps the tree well formed: the node is in the tree, as an
    entry of its parent, and so are the directories it had to create. *)
Lemma insert_ok (fuel : nat) :
  forall (ns ns' : gmap string node) (n : node) (pending : string -> Prop),
    insert lib fuel ns n = inl ns' ->
    tree_ok files B ns -> linked pending ns ->
    entries n = [] -> good (n_path n) = true ->
    (String.length (n_path n) + (if isDir n then 1 else 0) <= B)%nat ->
    (isDir n = false ->
     exists file, files !! idx n = Some file /\ Name file = n_path n) ->
    tree_ok files B ns' /\ linked pending ns' /\ grows ns ns'
    /\ exists m, ns' !! n_path n = Some m
                 /\ isDir m = isDir n /\ idx m = idx n.
Proof.
  induction fuel as [|fuel IH];
    intros ns ns' n pending Hins Htree Hlinked Hent Hgood Hlen Hfile;
    rewrite insert_unfold in Hins;
    destruct (ns !! n_path n) as [|] eqn:Hfresh; try discriminate;
    cbv zeta in Hins;
    destruct (insert_recorded ns n pending Hfresh Htree Hlinked Hent Hgood
                              Hlen Hfile) as (Htree1 & Hlinked1 & Hgrows1);
    assert (Hp1 : <[n_path n := n]> ns !! n_path n = Some n)
      by apply lookup_insert_eq;
    set (ns1 := <[n_path n := n]> ns) in *;
    set (dir := path_Dir (n_path n)) in *.
  - (* no fuel: the parent directory is there *)
    destruct (ns1 !! dir) as [m|] eqn:Hdir; [|discriminate].
    destruct (isDir m) eqn:Hmdir; [|discriminate].
    injection Hins as <-.
    destruct (insert_entered ns1 ns1 n m pending Hgood Hp1 Htree1 Hlinked1
                             (grows_refl ns1) Hdir Hmdir)
      as (? & ? & ? & ?).
    split; [assumption|]. split; [assumption|].
    split; [by apply grows_trans with ns1|assumption].
  - assert (Hparent : exists ns2 md,
              ns' = add_entry dir (n_path n) ns2
              /\ tree_ok files B ns2
              /\ linked (fun c => pending c \/ c = n_path n) ns2
              /\ grows ns1 ns2
              /\ ns2 !! dir = Some md /\ isDir md = true).
    { destruct (ns1 !! dir) as [m|] eqn:Hdir.
      - destruct (isDir m) eqn:Hmdir.
        + injection Hins as <-. exists ns1, m.
          split; [reflexivity|]. split; [assumption|]. split; [assumption|].
          split; [apply grows_refl|]. split; assumption.
        + exfalso. rewrite insert_unfold in Hins. simpl in Hins.
          fold dir in Hins. by rewrite Hdir in Hins.
      - destruct (insert lib fuel ns1 (mknode dir true 0%nat [])) as [ns2|]
          eqn:Hrec; [|discriminate].
        injection Hins as <-.
        assert (Hdirgood : good dir = true
                  /\ (String.length dir < String.length (n_path n))%nat).
        { destruct (good_Dir (n_path n) Hgood) as [Hroot|?]; [|assumption].
          exfalso. destruct Htree1 as ((r & Hr & _) & _).
          fold dir in Hroot. rewrite Hroot in Hdir. congruence. }
        destruct Hdirgood as (Hdgood & Hdlen).
        destruct (IH ns1 ns2 (mknode dir true 0%nat [])
                     (fun c => pending c \/ c = n_path n) Hrec Htree1 Hlinked1)
          as (Htree2 & Hlinked2 & Hgrows2 & md & Hmd & Hmdir & _);
          simpl; try done.
        { destruct (isDir n); lia. }
        exists ns2, md.
        split; [reflexivity|]. split; [assumption|]. split; [assumption|].
        split; [assumption|]. split; assumption. }
    destruct Hparent as (ns2 & md & -> & Htree2 & Hlinked2 & Hgrows2 & Hmd & Hmdir).
    destruct (insert_entered ns1 ns2 n md pending Hgood Hp1 Htree2 Hlinked2
                             Hgrows2 Hmd Hmdir)
      as (? & ? & ? & ?).
    split; [assumption|]. split; [assumption|].
    split; [by apply grows_trans with ns1|assumption].
Qed.

Lemma initFiles_ok (rest : list File) :
  forall (done : list File) (ns ns' : gmap string node),
    files = done ++ rest ->
    initFiles lib (length done) rest ns = inl ns' ->
    tree_ok files B ns -> linked (fun _ => False) ns -> filed done ns ->
    (forall file, file ∈ rest -> (String.length (Name file) <= B)%nat) ->
    tree_ok files B ns' /\ linked (fun _ => False) ns' /\ filed files ns'.
Proof.
  induction rest as [|file rest IH];
    intros done ns ns' Hfiles Hinit Htree Hlinked Hfiled Hshort.
  - simpl in Hinit. injection Hinit as <-.
    rewrite app_nil_r in Hfiles. subst done. auto.
  - simpl in Hinit.
    destruct (fs_ValidPath (Name file)) eqn:Hvalid; [|discriminate].
    simpl in Hinit.
    destruct (insert lib _ ns _) as [ns1|] eqn:Hins; [|discriminate].
    assert (Hfresh : ns !! Name file = None).
    { rewrite insert_unfold in Hins. simpl in Hins.
      by destruct (ns !! Name file). }
    assert (Hroot : Name file <> ".").
    { destruct Htree as ((r & Hr & _) & _). congruence. }
    destruct (insert_ok _ ns ns1 _ (fun _ => False) Hins Htree Hlinked)
      as (Htree1 & Hlinked1 & Hgrows1 & m & Hm & Hmdir & Hmidx); simpl.
    + reflexivity.
    + by apply fs_ValidPath_good.
    + rewrite Nat.add_0_r. apply Hshort. left.
    + intros _. exists file. split; [|reflexivity].
      rewrite Hfiles. by apply list_lookup_middle.
    + apply (IH (done ++ [file]) ns1 ns').
      * by rewrite <- app_assoc.
      * rewrite length_app. simpl. by rewrite Nat.add_1_r.
      * exact Htree1.
      * exact Hlinked1.
      * intros i f Hi.
        destruct (lookup_app_Some done [file] i f) as [Hcases _].
        destruct (Hcases Hi) as [Hdone|[Hge Hlast]].
        -- destruct (Hfiled i f Hdone) as (mf & Hmf & Hfdir & Hfidx).
           destruct (Hgrows1 _ mf Hmf) as (mf' & Hmf' & Hd & Hi' & _).
           exists mf'. repeat split; congruence.
        -- destruct (i - length done)%nat as [|k] eqn:Hk; [|by destruct k].
           injection Hlast as <-.
           exists m. simpl in *. repeat split; [exact Hm|exact Hmdir|lia].
      * intros f Hf. apply Hshort. by right.
Qed.

Lemma tree_ok_root : tree_ok files B {["." := root]}.
Proof.
  split.
  - exists root. by rewrite lookup_singleton_eq.
  - intros q m Hq. apply lookup_singleton_Some in Hq as [<- <-].
    split; [reflexivity|]. split; [by left|]. split; [done|].
    split; [discriminate|]. intros c Hc. inversion Hc.
Qed.

Lemma linked_root : linked (fun _ => False) ({["." := root]} : gmap string node).
Proof.
  intros c [m Hc] Hroot _.
  apply lookup_singleton_Some in Hc as [<- _]. congruence.
Qed.

End Tree.

(** The file system [txtar.FS] returns is a well-formed tree over the
    files of the archive. *)
Lemma txtar_FS_ok (lib : GoLib) (a : Archive) (fsys : filesystem) (B : nat) :
  txtar_FS lib a = inl fsys ->
  (forall file, file ∈ Files a -> (String.length (Name file) <= B)%nat) ->
  ar fsys = a
  /\ tree_ok (Files a) B (nodes fsys)
  /\ linked (fun _ => False) (nodes fsys)
  /\ filed (Files a) (nodes fsys).
Proof.
  unfold txtar_FS. intros Hfs Hshort.
  destruct (initFiles lib 0 (Files a) _) as [ns|] eqn:Hinit; [|discriminate].
  injection Hfs as <-. simpl. split; [reflexivity|].
  apply (initFiles_ok lib (Files a) B (Files a) [] _ ns eq_refl Hinit).
  - apply tree_ok_root.
  - apply linked_root.
  - intros i f Hi. inversion Hi.
  - exact Hshort.
Qed.

Section Walk.

Variable fsys : filesystem.
Variable B : nat.

Let files := Files (ar fsys).

Hypothesis Htree : tree_ok files B (nodes fsys).
Hypothesis Hlinked : linked (fun _ => False) (nodes fsys).
Hypothesis Hbound : Z.of_nat B <= uint16max.

Lemma walkDir_unfold (fuel : nat) (name : string) (w : list ZipEntry) :
  walkDir fuel fsys name w
  = match nodes fsys !! name with
    | None => inr (errors_New ("open " +:+ name +:+ ": file does not exist"))
    | Some n =>
        match AddFS_visit fsys name n w with
        | inr err => inr err
        | inl w1 =>
            if isDir n then
              match fuel with
              | O => inr (errors_New "walk too deep")
              | S fuel' =>
                  walk_entries (walkDir fuel' fsys) (sort_entries (entries n))
                               (inl w1)
              end
            else inl w1
        end
    end.
Proof. destruct fuel; reflexivity. Qed.

Lemma walk_entries_cons
    (walk : string -> list ZipEntry -> list ZipEntry + error)
    (c : string) (l : list string) (w : list ZipEntry) :
  walk_entries walk (c :: l) (inl w) = walk_entries walk l (walk c w).
Proof. reflexivity. Qed.

Lemma walk_entries_inr
    (walk : string -> list ZipEntry -> list ZipEntry + error)
    (l : list string) (err : error) :
  walk_entries walk l (inr err) = inr err.
Proof. induction l as [|c l IH]; [reflexivity|exact IH]. Qed.

Lemma sort_insert_elem (x c : string) (l : list string) :
  x ∈ sort_insert c l <-> x = c \/ x ∈ l.
Proof.
  induction l as [|y l IH]; simpl.
  - rewrite list_elem_of_singleton. split; [by left|].
    intros [?|H]; [assumption|inversion H].
  - destruct (String.leb _ _).
    + by rewrite elem_of_cons.
    + rewrite !elem_of_cons, IH. tauto.
Qed.

Lemma sort_entries_elem (x : string) (l : list string) :
  x ∈ sort_entries l <-> x ∈ l.
Proof.
  induction l as [|y l IH]; simpl; [reflexivity|].
  rewrite sort_insert_elem, elem_of_cons, IH. tauto.
Qed.

Lemma from_files_app (a b : list ZipEntry) :
  from_files files a -> from_files files b -> from_files files (a ++ b).
Proof.
  intros Ha Hb e He. apply elem_of_app in He as [He|He]; auto.
Qed.

Lemma rank_bound (p : string) (n : node) :
  nodes fsys !! p = Some n -> (rank p + (if isDir n then 1 else 0) <= S B)%nat.
Proof.
  intros Hp. destruct Htree as (_ & Hnodes).
  destruct (Hnodes p n Hp) as (_ & _ & Hlen & _).
  unfold rank. destruct (String.eqb_spec p ".") as [->|Hne].
  - destruct (isDir n); lia.
  - specialize (Hlen Hne). lia.
Qed.

(** The visit of a node of the tree succeeds; it adds at most the entry
    of the node. *)
Lemma AddFS_visit_ok (p : string) (n : node) (w : list ZipEntry) :
  nodes fsys !! p = Some n ->
  exists new, AddFS_visit fsys p n w = inl (w ++ new) /\ from_files files new.
Proof.
  intros Hp. destruct Htree as (_ & Hnodes).
  destruct (Hnodes p n Hp) as (_ & _ & Hlen & Hfile & _).
  unfold AddFS_visit.
  destruct (String.eqb_spec p ".") as [->|Hne].
  - exists []. rewrite app_nil_r. split; [reflexivity|].
    intros e He. inversion He.
  - specialize (Hlen Hne). destruct (isDir n) eqn:Hdir.
    + unfold zip_Create.
      assert (Hshort : (uint16max <? Z.of_nat (String.length (p +:+ "/"))) = false).
      { apply Z.ltb_ge.
        assert (String.length (p +:+ "/") = (String.length p + 1)%nat) as ->.
        { clear. induction p as [|c p IH]; simpl; [reflexivity|].
          change (S (String.length (p +:+ "/")) = S (String.length p + 1)).
          by rewrite IH. }
        lia. }
      rewrite Hshort. eexists. split; [reflexivity|].
      intros e He. apply list_elem_of_singleton in He. subst e. discriminate.
    + destruct (Hfile eq_refl) as (file & Hidx & Hname).
      unfold fs_Open. fold files. rewrite Hidx, Hname, String.eqb_refl.
      unfold zip_Create.
      assert (Hshort : (uint16max <? Z.of_nat (String.length p)) = false)
        by (apply Z.ltb_ge; lia).
      rewrite Hshort. eexists. split; [reflexivity|].
      intros e He _. apply list_elem_of_singleton in He. subst e.
      exists file. split; [|by rewrite Hname].
      by apply list_elem_of_lookup_2 with (idx n).
Qed.

Lemma walk_entries_ok
    (walk : string -> list ZipEntry -> list ZipEntry + error)
    (l : list string) :
  (forall c, c ∈ l -> forall w,
     exists new, walk c w = inl (w ++ new) /\ from_files files new) ->
  forall w,
    exists new, walk_entries walk l (inl w) = inl (w ++ new)
                /\ from_files files new.
Proof.
  induction l as [|c l IH]; intros Hwalk w.
  - exists []. rewrite app_nil_r. split; [reflexivity|].
    intros e He. inversion He.
  - rewrite walk_entries_cons.
    destruct (Hwalk c ltac:(left) w) as (new1 & -> & Hnew1).
    destruct (IH (fun c' Hc' => Hwalk c' ltac:(by right)) (w ++ new1))
      as (new2 & -> & Hnew2).
    exists (new1 ++ new2). rewrite app_assoc. split; [reflexivity|].
    by apply from_files_app.
Qed.

(** With fuel for the levels below the node, the walk succeeds, and the
    entries it adds that are not directories are files of the archive. *)
Lemma walkDir_ok (fuel : nat) :
  forall (p : string) (n : node) (w : list ZipEntry),
    nodes fsys !! p = Some n ->
    (S B <= fuel + rank p)%nat ->
    exists new, walkDir fuel fsys p w = inl (w ++ new)
                /\ from_files files new.
Proof.
  induction fuel as [|fuel IH]; intros p n w Hp Hfuel;
    rewrite walkDir_unfold, Hp;
    destruct (AddFS_visit_ok p n w Hp) as (vis & -> & Hvis);
    pose proof (rank_bound p n Hp) as Hrank;
    destruct (isDir n) eqn:Hdir; eauto; [lia|].
  assert (Hkids : forall c, c ∈ sort_entries (entries n) -> forall w1,
            exists new, walkDir fuel fsys c w1 = inl (w1 ++ new)
                        /\ from_files files new).
  { intros c Hc w1. apply (proj1 (sort_entries_elem c (entries n))) in Hc.
    destruct Htree as (_ & Hnodes).
    destruct (Hnodes p n Hp) as (_ & _ & _ & _ & Hent).
    destruct (Hent c Hc) as (_ & Hroot & Hparent & [nc Hnc]).
    destruct (Hnodes c nc Hnc) as (_ & [?|Hgood] & _); [done|].
    pose proof (rank_child p c Hgood Hparent).
    apply (IH c nc w1 Hnc). lia. }
  destruct (walk_entries_ok (walkDir fuel fsys) (sort_entries (entries n))
                            Hkids (w ++ vis)) as (new & -> & Hnew).
  exists (vis ++ new). rewrite app_assoc. split; [reflexivity|].
  by apply from_files_app.
Qed.

Lemma AddFS_visit_extends (p : string) (n : node) (w w1 : list ZipEntry) :
  AddFS_visit fsys p n w = inl w1 -> exists new, w1 = w ++ new.
Proof.
  unfold AddFS_visit, zip_Create.
  destruct (String.eqb p ".").
  - intros [= <-]. exists []. by rewrite app_nil_r.
  - destruct (isDir n).
    + destruct (uint16max <? _); [discriminate|]. intros [= <-]. eauto.
    + destruct (fs_Open fsys p n); [|discriminate].
      destruct (uint16max <? _); [discriminate|]. intros [= <-]. eauto.
Qed.

Lemma walk_entries_extends
    (walk : string -> list ZipEntry -> list ZipEntry + error)
    (l : list string) :
  (forall c w w', walk c w = inl w' -> exists new, w' = w ++ new) ->
  forall w w', walk_entries walk l (inl w) = inl w' -> exists new, w' = w ++ new.
Proof.
  intros Hwalk. induction l as [|c l IH]; intros w w'.
  - intros [= <-]. exists []. by rewrite app_nil_r.
  - rewrite walk_entries_cons.
    destruct (walk c w) as [w1|err] eqn:Hc.
    + intros Hrest. destruct (Hwalk c w w1 Hc) as (new1 & ->).
      destruct (IH _ _ Hrest) as (new2 & ->).
      exists (new1 ++ new2). by rewrite app_assoc.
    + by rewrite walk_entries_inr.
Qed.

Lemma walkDir_extends (fuel : nat) :
  forall (p : string) (w w' : list ZipEntry),
    walkDir fuel fsys p w = inl w' -> exists new, w' = w ++ new.
Proof.
  induction fuel as [|fuel IH]; intros p w w'; rewrite walkDir_unfold;
    destruct (nodes fsys !! p) as [n|]; try discriminate;
    destruct (AddFS_visit fsys p n w) as [w1|] eqn:Hvisit; try discriminate;
    destruct (AddFS_visit_extends p n w w1 Hvisit) as (vis & ->);
    destruct (isDir n); try discriminate; try (intros [= <-]; eauto).
  intros Hkids.
  destruct (walk_entries_extends _ _ IH _ _ Hkids) as (new & ->).
  exists (vis ++ new). by rewrite app_assoc.
Qed.

(** The walk of an entry of the list is part of the walk of the list. *)
Lemma walk_entries_member
    (walk : string -> list ZipEntry -> list ZipEntry + error)
    (l : list string) (c : string) :
  (forall c w w', walk c w = inl w' -> exists new, w' = w ++ new) ->
  c ∈ l ->
  forall w w', walk_entries walk l (inl w) = inl w' ->
    exists wa wb rest, walk c wa = inl wb /\ w' = wb ++ rest.
Proof.
  intros Hwalk. induction l as [|x l IH]; intros Hc w w'; [inversion Hc|].
  rewrite walk_entries_cons.
  destruct (walk x w) as [w1|err] eqn:Hx; [|by rewrite walk_entries_inr].
  intros Hrest. apply elem_of_cons in Hc as [->|Hc].
  - destruct (walk_entries_extends walk l Hwalk _ _ Hrest) as (rest & ->).
    exists w, w1, rest. auto.
  - by apply (IH Hc w1 w').
Qed.

(** The directories above a node are nodes. *)
Lemma ancestors_are_nodes (q : string) (k : nat) :
  is_Some (nodes fsys !! q) -> is_Some (nodes fsys !! Nat.iter k path_Dir q).
Proof.
  intros Hq. induction k as [|k IH]; [exact Hq|]. simpl.
  destruct (decide (Nat.iter k path_Dir q = ".")) as [->|Hne].
  - destruct Htree as ((r & Hr & _) & _). change (path_Dir ".") with ".". eauto.
  - destruct (Hlinked _ IH Hne) as (m & Hm & _); [tauto|eauto].
Qed.

(** A file node below the node where the walk starts is visited: its
    entry is in the result. *)
Lemma walkDir_covers (k : nat) :
  forall (q : string) (nq : node) (fuel : nat) (p : string)
         (w w' : list ZipEntry),
    nodes fsys !! q = Some nq -> isDir nq = false ->
    Nat.iter k path_Dir q = p ->
    walkDir fuel fsys p w = inl w' ->
    exists file, files !! idx nq = Some file /\ Name file = q
                 /\ mkZipEntry q false (Data file) ∈ w'
                 /\ Z.of_nat (String.length q) <= uint16max.
Proof.
  induction k as [|k IH]; intros q nq fuel p w w' Hq Hfile Hp Hwalk.
  - simpl in Hp. subst p. rewrite walkDir_unfold, Hq in Hwalk.
    destruct (AddFS_visit fsys q nq w) as [w1|] eqn:Hvisit; [|discriminate].
    rewrite Hfile in Hwalk. injection Hwalk as <-.
    unfold AddFS_visit in Hvisit.
    destruct (String.eqb_spec q ".") as [->|Hne].
    { destruct Htree as ((r & Hr & Hrdir) & _). congruence. }
    rewrite Hfile in Hvisit. unfold fs_Open in Hvisit. fold files in Hvisit.
    destruct (files !! idx nq) as [file|]; [|discriminate].
    destruct (String.eqb_spec (Name file) q) as [Hname|]; [|discriminate].
    unfold zip_Create in Hvisit.
    destruct (uint16max <? _) eqn:Hlong; [discriminate|].
    injection Hvisit as <-. apply Z.ltb_ge in Hlong.
    exists file. repeat split; [assumption| |exact Hlong].
    apply elem_of_app. right. left.
  - simpl in Hp. set (c := Nat.iter k path_Dir q) in *.
    destruct (decide (c = ".")) as [Hroot|Hne].
    { apply (IH q nq fuel p w w' Hq Hfile); [|exact Hwalk].
      fold c. rewrite <- Hp, Hroot. reflexivity. }
    destruct (Hlinked c) as (m & Hm & Hmdir & Hc); [|exact Hne|tauto|].
    { apply ancestors_are_nodes. eauto. }
    rewrite Hp in Hm. rewrite walkDir_unfold, Hm in Hwalk.
    destruct (AddFS_visit fsys p m w) as [w1|]; [|discriminate].
    rewrite Hmdir in Hwalk.
    destruct fuel as [|fuel]; [discriminate|].
    destruct (walk_entries_member (walkDir fuel fsys)
                (sort_entries (entries m)) c (walkDir_extends fuel)
                (proj2 (sort_entries_elem c (entries m)) Hc) _ _ Hwalk)
      as (wa & wb & rest & Hsub & ->).
    destruct (IH q nq fuel c wa wb Hq Hfile eq_refl Hsub)
      as (file & Hidx & Hname & Hin & Hlong).
    exists file. repeat split; try assumption.
    apply elem_of_app. by left.
Qed.

End Walk.

(** [initFiles] goes through when the names are valid, distinct and none
    is a directory above another. *)
Lemma initFiles_succeeds (lib : GoLib) (rest : list File) :
  forall (done : list File) (ns : gmap string node) (i : nat),
    nodes_of (map Name done) ns ->
    NoDup (map Name (done ++ rest)) ->
    (forall file, file ∈ rest -> fs_ValidPath (Name file) = true) ->
    (forall p q, p ∈ map Name (done ++ rest) -> q ∈ map Name (done ++ rest) ->
                 q ∉ ancestors p) ->
    exists ns', initFiles lib i rest ns = inl ns'.
Proof.
  induction rest as [|file rest IH]; intros done ns i Hnodes Hnodup Hvalid Hfree.
  { simpl. eauto. }
  set (p := Name file).
  assert (Hp : p ∈ map Name (done ++ file :: rest)).
  { rewrite map_app. apply elem_of_app. right. left. }
  assert (Hroot : p <> ".").
  { intros Heq. apply (Hfree p p Hp Hp). rewrite Heq. by left. }
  assert (Hgood : good p = true).
  { apply fs_ValidPath_good; [|exact Hroot]. apply Hvalid. left. }
  assert (Hdone : forall q, q ∈ map Name done ->
                    q ∈ map Name (done ++ file :: rest)).
  { intros q Hq. rewrite map_app. apply elem_of_app. by left. }
  destruct Hnodes as (Hr & Hdom).
  destruct (insert_succeeds lib (String.length p) ns (mknode p false i []))
    as (ns1 & Hins & Hr1 & Hdom1); simpl; try done.
  - destruct (ns !! p) as [m|] eqn:Hm; [exfalso|reflexivity].
    destruct (Hdom p m Hm) as [?|[[_ Hin]|[_ (d & Hd & Hin)]]]; [done| |].
    + rewrite map_app in Hnodup. apply NoDup_app in Hnodup as (_ & Hdisj & _).
      apply (Hdisj p Hin). left.
    + by apply (Hfree d p (Hdone d Hd) Hp).
  - intros q m Hq Hm.
    destruct (Hdom q m Hm) as [->|[[_ Hin]|[? _]]]; [|exfalso|assumption].
    + destruct Hr as (r & Hr & Hrdir). congruence.
    + by apply (Hfree p q Hp (Hdone q Hin)).
  - simpl. rewrite (proj2 (negb_false_iff _)) by (apply Hvalid; left).
    fold p. rewrite Hins.
    apply (IH (done ++ [file]) ns1 (S i)).
    + split; [exact Hr1|]. intros q m' Hq.
      rewrite map_app. simpl.
      destruct (Hdom1 q m' Hq) as [(m & Hm & Hd)|[[-> Hd]|[Hq' Hd]]].
      * destruct (Hdom q m Hm) as [?|[[Hf Hin]|[Hdir (d & Hd' & Hin)]]].
        -- by left.
        -- right. left. split; [congruence|]. apply elem_of_app. by left.
        -- right. right. split; [congruence|].
           exists d. split; [apply elem_of_app; by left|exact Hin].
      * right. left. split; [exact Hd|]. apply elem_of_app. right. left.
      * right. right. split; [exact Hd|].
        exists p. split; [apply elem_of_app; right; left|exact Hq'].
    + by rewrite <- app_assoc.
    + intros f Hf. apply Hvalid. by right.
    + rewrite <- app_assoc. exact Hfree.
Qed.

(** [txtar.FS] accepts the archives whose names [txtar_accepts] accepts. *)
Lemma txtar_FS_accepts (lib : GoLib) (a : Archive) :
  txtar_accepts (names a) = true -> exists fsys, txtar_FS lib a = inl fsys.
Proof.
  unfold txtar_accepts, names. intros Hacc.
  apply andb_prop in Hacc as [Hacc Hfree].
  apply andb_prop in Hacc as [Hvalid Hnodup].
  apply bool_decide_eq_true in Hnodup.
  rewrite forallb_forall in Hvalid, Hfree.
  destruct (initFiles_succeeds lib (Files a) [] {["." := root]} 0)
    as (ns & Hinit).
  - split; [exists root; by rewrite lookup_singleton_eq|].
    intros q m Hq. apply lookup_singleton_Some in Hq as [<- _]. by left.
  - exact Hnodup.
  - intros file Hin. apply Hvalid. apply in_map. by apply list_elem_of_In.
  - intros p q Hp Hq. simpl in Hp, Hq.
    apply list_elem_of_In in Hp, Hq.
    specialize (Hfree p Hp). rewrite forallb_forall in Hfree.
    specialize (Hfree q Hq). apply negb_true_iff in Hfree.
    by apply bool_decide_eq_false in Hfree.
  - unfold txtar_FS. rewrite Hinit. eauto.
Qed.

Lemma name_length_max (a : Archive) (file : File) :
  file ∈ Files a ->
  (String.length (Name file)
   <= list_max (map (fun file => String.length (Name file)) (Files a)))%nat.
Proof.
  intros Hin.
  assert (Hall : Forall (fun k => (k <= list_max
                           (map (fun file => String.length (Name file))
                                (Files a)))%nat)
                   (map (fun file => String.length (Name file)) (Files a)))
    by (by apply list_max_le).
  rewrite List.Forall_forall in Hall. apply Hall.
  apply in_map_iff. exists file. split; [reflexivity|].
  by apply list_elem_of_In.
Qed.

(** The tree of an accepted archive, with the length of its longest name
    as bound. *)
Lemma txtar_FS_tree (lib : GoLib) (a : Archive) (fsys : filesystem) :
  txtar_FS lib a = inl fsys ->
  let B := list_max (map (fun file => String.length (Name file)) (Files a)) in
  ar fsys = a
  /\ tree_ok (Files (ar fsys)) B (nodes fsys)
  /\ linked (fun _ => False) (nodes fsys)
  /\ filed (Files (ar fsys)) (nodes fsys).
Proof.
  intros Hfs B.
  destruct (txtar_FS_ok lib a fsys B Hfs (name_length_max a))
    as (Har & Htree & Hlinked & Hfiled).
  rewrite Har. auto.
Qed.

(** In the tree of an archive, the directories above a node are
    directory nodes. *)
Lemma ancestors_are_directories (fsys : filesystem) (B len : nat) :
  tree_ok (Files (ar fsys)) B (nodes fsys) ->
  linked (fun _ => False) (nodes fsys) ->
  forall p q : string,
    (String.length p <= len)%nat -> good p = true ->
    is_Some (nodes fsys !! p) -> q ∈ ancestors p ->
    exists m, nodes fsys !! q = Some m /\ isDir m = true.
Proof.
  intros Htree Hlinked. induction len as [|len IH]; intros p q Hlen Hgood Hp Hq.
  { destruct p; [discriminate|simpl in Hlen; lia]. }
  destruct (Hlinked p Hp (good_not_root p Hgood)) as (m & Hm & Hmdir & _);
    [tauto|].
  rewrite (ancestors_step p Hgood) in Hq.
  apply elem_of_cons in Hq as [->|Hq]; [eauto|].
  destruct (String.eqb (path_Dir p) "."); [inversion Hq|].
  destruct (good_Dir p Hgood) as [Hroot|[Hdgood Hdlen]].
  - rewrite Hroot in Hq. apply list_elem_of_singleton in Hq. subst q.
    rewrite Hroot in Hm. eauto.
  - apply (IH (path_Dir p) q); [lia|exact Hdgood|eauto|exact Hq].
Qed.

(** What [txtar.FS] accepts is what [txtar_accepts] accepts. *)
Lemma txtar_FS_names (lib : GoLib) (a : Archive) (fsys : filesystem) :
  txtar_FS lib a = inl fsys -> txtar_accepts (names a) = true.
Proof.
  intros Hfs.
  destruct (txtar_FS_tree lib a fsys Hfs) as (Har & Htree & Hlinked & Hfiled).
  rewrite Har in Hfiled.
  assert (Hnode : forall name, name ∈ names a ->
            exists m, nodes fsys !! name = Some m /\ isDir m = false).
  { intros name Hin. unfold names in Hin.
    apply list_elem_of_fmap in Hin as (file & -> & Hin).
    apply list_elem_of_lookup_1 in Hin as (i & Hi).
    destruct (Hfiled i file Hi) as (m & Hm & Hmdir & _). eauto. }
  assert (Hgood : forall name, name ∈ names a -> good name = true).
  { intros name Hin. destruct (Hnode name Hin) as (m & Hm & Hmdir).
    destruct Htree as ((r & Hr & Hrdir) & Hnodes).
    destruct (Hnodes _ m Hm) as (_ & [->|?] & _); [congruence|assumption]. }
  unfold txtar_accepts. apply andb_true_intro. split;
    [apply andb_true_intro; split|].
  - apply forallb_forall. intros name Hin. apply list_elem_of_In in Hin.
    unfold names in Hin. apply list_elem_of_fmap in Hin as (file & -> & Hin).
    apply list_elem_of_lookup_1 in Hin as (i & Hi).
    clear -Hfs Hi. unfold txtar_FS in Hfs.
    destruct (initFiles lib 0 (Files a) _) as [ns|] eqn:Hinit; [|discriminate].
    clear Hfs. revert i Hi Hinit.
    generalize 0%nat ({["." := root]} : gmap string node).
    induction (Files a) as [|f fs IH]; intros k ns0 i Hi Hinit; [inversion Hi|].
    simpl in Hinit.
    destruct (fs_ValidPath (Name f)) eqn:Hvalid; [|discriminate].
    simpl in Hinit.
    destruct (insert lib _ ns0 _) as [ns1|]; [|discriminate].
    destruct i as [|i]; [by injection Hi as <-|]. eauto.
  - apply bool_decide_eq_true.
    apply NoDup_alt. intros i j name Hi Hj. unfold names in Hi, Hj.
    rewrite list_lookup_fmap in Hi, Hj.
    destruct (Files a !! i) as [fi|] eqn:Hfi; [|discriminate].
    destruct (Files a !! j) as [fj|] eqn:Hfj; [|discriminate].
    simpl in Hi, Hj. injection Hi as Hi. injection Hj as Hj.
    destruct (Hfiled i fi Hfi) as (mi & Hmi & _ & Hidxi).
    destruct (Hfiled j fj Hfj) as (mj & Hmj & _ & Hidxj).
    rewrite Hi in Hmi. rewrite Hj in Hmj. congruence.
  - apply forallb_forall. intros p Hp. apply list_elem_of_In in Hp.
    apply forallb_forall. intros q Hq. apply list_elem_of_In in Hq.
    apply negb_true_iff, bool_decide_eq_false. intros Hanc.
    destruct (Hnode p Hp) as (mp & Hmp & _).
    destruct (Hnode q Hq) as (mq & Hmq & Hfile).
    destruct (ancestors_are_directories fsys _ _ Htree Hlinked p q
                (Nat.le_refl _) (Hgood p Hp) ltac:(eauto) Hanc)
      as (m & Hm & Hmdir).
    congruence.
Qed.

(** The walk from the root over the file system of an archive: when no
    name is too long for a zip header, it succeeds and the zip file
    reproduces the archive; when it succeeds, no name is too long. *)
Lemma zip_AddFS_ok (lib : GoLib) (archive : Archive) (fsys : filesystem) :
  txtar_FS lib archive = inl fsys ->
  (forall file, file ∈ Files archive ->
                Z.of_nat (String.length (Name file)) <= uint16max) ->
  exists zipped, zip_AddFS fsys = inl zipped /\ reproduces archive zipped.
Proof.
  intros Hfs Hshort.
  destruct (txtar_FS_tree lib archive fsys Hfs) as (Har & Htree & Hlinked & Hfiled).
  set (B := list_max (map (fun file => String.length (Name file))
                          (Files archive))) in *.
  assert (Hbound : Z.of_nat B <= uint16max).
  { assert (Hmax : (B <= Z.to_nat uint16max)%nat); [|unfold uint16max in *; lia].
    apply list_max_le. apply List.Forall_forall. intros k Hk.
    apply in_map_iff in Hk as (file & <- & Hin).
    apply list_elem_of_In in Hin. specialize (Hshort file Hin).
    unfold uint16max in *. lia. }
  pose proof Htree as ((r & Hr & Hrdir) & Hnodes).
  destruct (walkDir_ok fsys B Htree Hbound (walk_fuel fsys) "." r [] Hr)
    as (zipped & Hwalk & Hfrom).
  { unfold walk_fuel. rewrite Har. fold B. simpl. lia. }
  change ([] ++ zipped) with zipped in Hwalk.
  exists zipped. split; [exact Hwalk|].
  rewrite Har in Hfrom. split; [|exact Hfrom].
  intros file Hin.
  apply list_elem_of_lookup_1 in Hin as (i & Hi).
  rewrite <- Har in Hi.
  destruct (Hfiled i file Hi) as (m & Hm & Hmdir & Hmidx).
  destruct (Hnodes _ m Hm) as (_ & Hgood & _).
  destruct (reaches_root _ (Name file) (Nat.le_refl _) Hgood) as (k & Hk).
  destruct (walkDir_covers fsys B Htree Hlinked k (Name file) m
              (walk_fuel fsys) "." [] zipped Hm Hmdir Hk Hwalk)
    as (file' & Hidx & _ & Hin & _).
  rewrite Hmidx in Hidx.
  assert (file' = file) as -> by congruence.
  exact Hin.
Qed.

Lemma zip_AddFS_short (lib : GoLib) (archive : Archive) (fsys : filesystem)
    (zipped : list ZipEntry) :
  txtar_FS lib archive = inl fsys ->
  zip_AddFS fsys = inl zipped ->
  forall file, file ∈ Files archive ->
               Z.of_nat (String.length (Name file)) <= uint16max.
Proof.
  intros Hfs Hwalk file Hin.
  destruct (txtar_FS_tree lib archive fsys Hfs) as (Har & Htree & Hlinked & Hfiled).
  pose proof Htree as (_ & Hnodes).
  apply list_elem_of_lookup_1 in Hin as (i & Hi).
  rewrite <- Har in Hi.
  destruct (Hfiled i file Hi) as (m & Hm & Hmdir & Hmidx).
  destruct (Hnodes _ m Hm) as (_ & Hgood & _).
  destruct (reaches_root _ (Name file) (Nat.le_refl _) Hgood) as (k & Hk).
  destruct (walkDir_covers fsys _ Htree Hlinked k (Name file) m
              (walk_fuel fsys) "." [] zipped Hm Hmdir Hk Hwalk)
    as (_ & _ & _ & _ & Hlong).
  exact Hlong.
Qed.

(** Two more forms [txtar.FS] refuses: a name submitted twice, and a name
    that is both a file and a directory. *)
Example download_refused :
  handleDownload Double.lib (Double.request form_twice)
  = http_Error ("cannot create fs.FS from txtar.Archive: duplicate path "
                +:+ Double.Quote "a") StatusBadRequest
  /\ handleDownload Double.lib (Double.request Double.form_file_and_directory)
     = http_Error ("cannot create fs.FS from txtar.Archive: duplicate path "
                   +:+ Double.Quote "a") StatusBadRequest.
Proof. split; vm_compute; reflexivity. Qed.

(** C8, counterexample: the form names the file [../main.go]; [txtar.FS]
    refuses the archive and the download is answered with status 400. *)
Lemma export_may_fail :
  handleDownload Double.lib (Double.request form_outside)
  = http_Error ("cannot create fs.FS from txtar.Archive: file "
                +:+ Double.Quote "../main.go" +:+ " is an invalid path")
               StatusBadRequest
  /\ ~ export_succeeds Double.lib (Double.request form_outside).
Proof.
  split; [by vm_compute|].
  intros Hclaim.
  destruct (Hclaim (mkArchive [mkFile "../main.go" "package main"]))
    as (zipped & Hzip & _); [by vm_compute|].
  vm_compute in Hzip. discriminate.
Qed.

(** The download of two files, one of them in a directory: the zip file
    holds the two files and the directory. *)
Example download_two_files :
  handleDownload Double.lib (Double.request Double.form_two_files)
  = http_ServeContent download_headers "playground.zip"
      [mkZipEntry "a.txt" false "x"; mkZipEntry "b/" true "";
       mkZipEntry "b/c.txt" false "y"].
Proof. vm_compute. reflexivity. Qed.

(** C8, amended: the download succeeds exactly for the archives of the
    assembler whose names are valid slash-separated paths, pairwise
    distinct, none of them a directory above another, and at most 65535
    bytes long.  Then every file of the archive is an entry of the zip
    file with its name and content, every entry that is not a directory
    is such a file, and the empty archive gives the zip file without
    entries.  For every other archive the answer has status 400. *)
Theorem export_round_trip (lib : GoLib) (req : Request) :
  exists archive,
    (readArchive (Form req)).1 = Some archive
    /\ if txtar_accepts (names archive) && forallb short_name (names archive)
       then exists zipped,
              handleDownload lib req
              = http_ServeContent download_headers "playground.zip" zipped
              /\ reproduces archive zipped
              /\ (Files archive = [] -> zipped = [])
       else exists body,
              handleDownload lib req = http_Error body StatusBadRequest.
Proof.
  eexists. rewrite readArchive_Files. split; [reflexivity|].
  set (archive := mkArchive _).
  unfold handleDownload. rewrite readArchive_Files. fold archive.
  clearbody archive. unfold handleDownload_export.
  destruct (txtar_accepts (names archive)) eqn:Haccept; simpl.
  - destruct (txtar_FS_accepts lib archive Haccept) as (fsys & Hfs).
    rewrite Hfs.
    destruct (forallb short_name (names archive)) eqn:Hshort.
    + assert (Hall : forall file, file ∈ Files archive ->
                Z.of_nat (String.length (Name file)) <= uint16max).
      { intros file Hin. rewrite forallb_forall in Hshort.
        apply Z.leb_le. apply (Hshort (Name file)).
        apply in_map. by apply list_elem_of_In. }
      destruct (zip_AddFS_ok lib archive fsys Hfs Hall) as (zipped & Hzip & Hrep).
      rewrite Hzip. exists zipped. split; [reflexivity|]. split; [exact Hrep|].
      intros Hempty. unfold txtar_FS in Hfs. rewrite Hempty in Hfs.
      simpl in Hfs. injection Hfs as <-.
      unfold zip_AddFS, walk_fuel in Hzip. cbn [ar] in Hzip.
      rewrite Hempty in Hzip. vm_compute in Hzip. by injection Hzip as <-.
    + destruct (zip_AddFS fsys) as [zipped|err] eqn:Hzip; [exfalso|eauto].
      apply not_true_iff_false in Hshort. apply Hshort.
      apply forallb_forall. intros name Hin.
      apply in_map_iff in Hin as (file & <- & Hin).
      apply Z.leb_le.
      apply (zip_AddFS_short lib archive fsys zipped Hfs Hzip).
      by apply list_elem_of_In.
  - destruct (txtar_FS lib archive) as [fsys|err] eqn:Hfs; [exfalso|eauto].
    apply txtar_FS_names in Hfs. congruence.
Qed.

(** * Further properties of the program *)

(** ** Which files the guard reads *)

Lemma append_nil_r (s : string) : s +:+ "" = s.
Proof.
  induction s as [|c s IH]; [reflexivity|].
  change (String c (s +:+ "") = String c s). by rewrite IH.
Qed.

Lemma Ext_scan_suffix_go (stem cur : string) :
  Ext_scan cur (stem +:+ ".go") = ".go".
Proof.
  revert cur. induction stem as [|c stem IH]; intros cur; [reflexivity|].
  change (Ext_scan cur (String c (stem +:+ ".go")) = ".go").
  cbn [Ext_scan].
  destruct (Ascii.eqb c "/"); [apply IH|].
  destruct (Ascii.eqb c "."); apply IH.
Qed.

(** The result of the scan is what it started with, or a suffix of the path. *)
Lemma Ext_scan_suffix (path : string) :
  forall cur, Ext_scan cur path = cur
              \/ exists stem, path = stem +:+ Ext_scan cur path.
Proof.
  induction path as [|c path IH]; intros cur; [by left|].
  cbn [Ext_scan].
  destruct (Ascii.eqb c "/").
  - right. destruct (IH "") as [->|(stem & Hstem)].
    + exists (String c path). by rewrite append_nil_r.
    + exists (String c stem).
      change (String c path = String c (stem +:+ Ext_scan "" path)).
      by rewrite <- Hstem.
  - destruct (Ascii.eqb c ".").
    + right. destruct (IH (String c path)) as [->|(stem & Hstem)].
      * by exists "".
      * exists (String c stem).
        change (String c path
                = String c (stem +:+ Ext_scan (String c path) path)).
        by rewrite <- Hstem.
    + destruct (IH cur) as [?|(stem & Hstem)]; [by left|right].
      exists (String c stem).
      change (String c path = String c (stem +:+ Ext_scan cur path)).
      by rewrite <- Hstem.
Qed.

(** X1: [buildWASM] screens a file exactly when its name ends with the four
    bytes [.go]: [path.Ext(file.Name)] is [".go"] for these names and for
    no other. *)
Theorem go_file_iff_suffix (file : File) :
  is_go_file file = true <-> exists stem, Name file = stem +:+ ".go".
Proof.
  unfold is_go_file, path_Ext. rewrite String.eqb_eq. split.
  - intros Hext. destruct (Ext_scan_suffix (Name file) "") as [Hcur|(stem & Hstem)].
    + rewrite Hext in Hcur. discriminate.
    + exists stem. by rewrite Hext in Hstem.
  - intros (stem & ->). apply Ext_scan_suffix_go.
Qed.

(** X2: the files whose extension is not [.go] play no part in the
    screening: the verdict of the loop of [buildWASM] is its verdict on the
    [.go] files alone, in their order. *)
Theorem screen_reads_go_files_only (lib : GoLib)
    (permittedPackagesString : string) (files : list File) :
  buildWASM_screen lib permittedPackagesString files
  = buildWASM_screen lib permittedPackagesString (List.filter is_go_file files).
Proof.
  induction files as [|file files IH]; [reflexivity|].
  cbn [buildWASM_screen List.filter]. fold (is_go_file file).
  destruct (is_go_file file) eqn:Hgo; cbn [negb]; [|exact IH].
  cbn [buildWASM_screen]. fold (is_go_file file). rewrite Hgo. cbn [negb].
  by rewrite IH.
Qed.

(** ** What the guard reports, and what the allow-list is *)

(** X3: [checkImports] stops at the first import, in the order of the
    source, whose path is not in the allow-list, and reports that path; the
    imports after it are not looked at. *)
Theorem checkImports_first_disallowed (lib : GoLib)
    (permittedPackagesString mainGo : string) (pre post : list string)
    (bad : string)
    (Hparse : parser_ParseFile lib mainGo = inl (pre ++ bad :: post))
    (Hpre : forall spec, spec ∈ pre ->
              (strconv_Unquote lib spec).1
              ∈ permittedPackages permittedPackagesString)
    (Hbad : (strconv_Unquote lib bad).1
            ∉ permittedPackages permittedPackagesString) :
  checkImports lib permittedPackagesString mainGo
  = Some (errors_New ("importing "
                      +:+ strconv_Quote lib (strconv_Unquote lib bad).1
                      +:+ " is not permitted on this site")).
Proof.
  unfold checkImports. rewrite Hparse. clear Hparse.
  induction pre as [|spec pre IH]; cbn [app checkImports_loop].
  - destruct (Z.geb _ 0) eqn:Hidx; [|reflexivity].
    apply slices_Index_elem in Hidx. contradiction.
  - assert (Hspec : Z.geb (slices_Index
                             (permittedPackages permittedPackagesString)
                             (strconv_Unquote lib spec).1) 0 = true).
    { apply slices_Index_elem. apply Hpre. left. }
    rewrite Hspec. apply IH. intros s Hs. apply Hpre. by right.
Qed.

Lemma checkImports_first_disallowed_witness :
  checkImports Double.lib Double.allow_list (Double.source ["fmt"; "net"; "os"])
  = Some (errors_New ("importing " +:+ Double.Quote "net"
                      +:+ " is not permitted on this site")).
Proof.
  apply (checkImports_first_disallowed Double.lib Double.allow_list
           (Double.source ["fmt"; "net"; "os"])
           [Double.Quote "fmt"] [Double.Quote "os"] (Double.Quote "net")).
  - reflexivity.
  - intros spec Hspec. apply list_elem_of_singleton in Hspec. subst spec.
    vm_compute. left.
  - vm_compute. intros H.
    repeat (inversion H as [|? ? ? H']; clear H; subst; try rename H' into H).
Defined.

Lemma strings_Split_join (sep : ascii) (s : string) :
  String.concat (String sep "") (strings_Split sep s) = s.
Proof.
  induction s as [|c s IH]; [reflexivity|].
  cbn [strings_Split].
  pose proof (strings_Split_nonempty sep s) as Hne.
  destruct (Ascii.eqb_spec c sep) as [->|_];
    destruct (strings_Split sep s) as [|piece pieces]; try contradiction.
  - cbn [String.concat]. by rewrite <- IH.
  - rewrite <- IH. by destruct pieces.
Qed.

Lemma strings_Split_no_sep (sep : ascii) (s piece : string) :
  piece ∈ strings_Split sep s -> ~ In sep (list_ascii_of_string piece).
Proof.
  revert piece. induction s as [|c s IH]; intros piece; cbn [strings_Split].
  - intros Hin. apply list_elem_of_singleton in Hin. subst piece. simpl. tauto.
  - pose proof (strings_Split_nonempty sep s) as Hne.
    destruct (Ascii.eqb_spec c sep) as [->|Hc].
    + intros Hin. apply elem_of_cons in Hin as [->|Hin];
        [simpl; tauto|by apply IH].
    + destruct (strings_Split sep s) as [|first pieces]; [contradiction|].
      intros Hin. apply elem_of_cons in Hin as [->|Hin].
      * simpl. intros [?|Hfirst]; [congruence|].
        apply (IH first); [left|exact Hfirst].
      * apply IH. by right.
Qed.

Lemma strings_Split_trailing (sep : ascii) (s : string) :
  strings_Split sep (s +:+ String sep "") = strings_Split sep s ++ [""].
Proof.
  induction s as [|c s IH].
  - change (strings_Split sep (String sep "") = [""; ""]).
    cbn [strings_Split]. by rewrite Ascii.eqb_refl.
  - change (strings_Split sep (String c (s +:+ String sep ""))
            = strings_Split sep (String c s) ++ [""]).
    cbn [strings_Split]. rewrite IH.
    pose proof (strings_Split_nonempty sep s) as Hne.
    destruct (Ascii.eqb c sep); [reflexivity|].
    by destruct (strings_Split sep s).
Qed.

(** X4: the permitted packages are the lines of the embedded file: joined
    with newlines they give back its text, and none contains a newline.  A
    text that ends with a newline has the empty string as its last entry,
    so the empty import path is then permitted. *)
Theorem permittedPackages_are_the_lines (permittedPackagesString : string) :
  String.concat (String newline "") (permittedPackages permittedPackagesString)
  = permittedPackagesString
  /\ (forall package, package ∈ permittedPackages permittedPackagesString ->
                      ~ In newline (list_ascii_of_string package))
  /\ permittedPackages (permittedPackagesString +:+ String newline "")
     = permittedPackages permittedPackagesString ++ [""].
Proof.
  unfold permittedPackages. split; [apply strings_Split_join|].
  split; [intros package; apply strings_Split_no_sep|].
  apply strings_Split_trailing.
Qed.

(** ** What the assembler reads *)

(** X5: [readArchive] reads the list of the field [filename] and, for each
    name in it, the first value of the field of that name, and nothing
    else: two forms that agree on these give the same archive.  A form
    without the field [filename] gives the archive without files. *)
Theorem readArchive_reads_named_fields (form form' : Values)
    (Hnames : Values_index form "filename" = Values_index form' "filename")
    (Hfields : forall name, name ∈ Values_index form "filename" ->
                 Values_Get form name = Values_Get form' name) :
  readArchive form = readArchive form'
  /\ readArchive (delete "filename" form) = (Some (mkArchive []), None).
Proof.
  rewrite !readArchive_Files. split.
  - rewrite <- Hnames. do 3 f_equal.
    apply map_ext_in. intros name Hin. unfold file_of_field.
    f_equal. apply Hfields. by apply list_elem_of_In.
  - unfold Values_index. by rewrite lookup_delete_eq.
Qed.

Lemma readArchive_reads_named_fields_witness :
  readArchive (<["run-id" := ["7"]]> Double.form_fmt)
  = readArchive Double.form_fmt.
Proof.
  refine (proj1 (readArchive_reads_named_fields
                   (<["run-id" := ["7"]]> Double.form_fmt) Double.form_fmt
                   _ _)).
  - reflexivity.
  - intros name Hin. vm_compute in Hin.
    apply list_elem_of_singleton in Hin. subst name. reflexivity.
Defined.

(** ** The paths through [buildWASM] *)

(** Creating the directory and removing it again leaves the paths
    outside it as they were, whether the removal succeeds or not. *)
Lemma removed_with_tmp_outside (host : Host) (tmp p : string) (w : World) :
  below tmp p = false ->
  disk (removed host tmp (with_tmp tmp w)) !! p = disk w !! p.
Proof.
  intros Hbelow. rewrite removed_outside by exact Hbelow.
  unfold with_tmp. simpl. apply lookup_insert_ne.
  intros ->. rewrite below_refl in Hbelow. discriminate.
Qed.

(** Every call of [buildWASM] takes one of five paths. *)
Lemma buildWASM_cases (lib : GoLib) (host : Host)
    (permittedPackagesString : string) (ctx : Context) (env : list string)
    (goExecPath : string) (archive : Archive) (w : World) :
  let result := buildWASM lib host permittedPackagesString ctx env goExecPath
                          archive w in
  (exists e, MkdirTemp_pick host (disk w) = inr e
             /\ result.1 = ("", Some (errors_New
                                        "failed to create temporary directory"))
             /\ disk result.2 = disk w /\ started result.2 = started w)
  \/ exists tmp,
       MkdirTemp_pick host (disk w) = inl tmp
       /\ ((exists err,
              buildWASM_screen lib permittedPackagesString (Files archive)
              = Some err
              /\ result = (("", Some err), removed host tmp (with_tmp tmp w)))
           \/ (exists err,
                 buildWASM_screen lib permittedPackagesString (Files archive)
                 = None
                 /\ txtar_FS lib archive = inr err
                 /\ result = (("", Some err), removed host tmp (with_tmp tmp w)))
           \/ (exists dir d err,
                 buildWASM_screen lib permittedPackagesString (Files archive)
                 = None
                 /\ txtar_FS lib archive = inl dir
                 /\ CopyFS_result host tmp dir (<[tmp := Directory]> (disk w))
                    = (Some err, d)
                 /\ result = (("", Some err),
                              removed host tmp (mkWorld d (started w) (logged w))))
           \/ (exists dir d,
                 reaches_compiler lib host permittedPackagesString archive w
                                  tmp dir d
                 /\ result
                    = ((after_compiler host ctx env goExecPath tmp w d).1,
                       removed host tmp
                         (after_compiler host ctx env goExecPath tmp w d).2))).
Proof.
  intros result. subst result.
  destruct (MkdirTemp_pick host (disk w)) as [tmp|e] eqn:Hpick.
  - right. exists tmp. split; [reflexivity|].
    rewrite (buildWASM_deferred _ _ _ _ _ _ _ _ _ Hpick).
    destruct (buildWASM_screen lib permittedPackagesString (Files archive))
      as [err|] eqn:Hscreen.
    { left. exists err. split; [reflexivity|].
      by rewrite (body_rejected _ _ _ _ _ _ _ _ _ _ Hscreen). }
    right.
    destruct (txtar_FS lib archive) as [dir|err] eqn:Hfs.
    2: { left. exists err. repeat split.
         unfold buildWASM_body. by rewrite Hscreen, Hfs. }
    right.
    destruct (CopyFS_result host tmp dir (<[tmp := Directory]> (disk w)))
      as [[err|] d] eqn:Hcopy.
    + left. exists dir, d, err. repeat split; [exact Hcopy|].
      unfold buildWASM_body. rewrite Hscreen, Hfs.
      unfold bind, os_CopyFS, with_tmp. simpl. by rewrite Hcopy.
    + right. exists dir, d.
      assert (Hreach : reaches_compiler lib host permittedPackagesString
                                        archive w tmp dir d) by done.
      split; [exact Hreach|].
      by rewrite (body_compiles _ _ _ _ _ _ _ _ _ _ _ Hreach).
  - left. exists e. rewrite (buildWASM_no_tmp _ _ _ _ _ _ _ _ _ Hpick).
    by repeat split.
Qed.

Lemma base64_DecodeString_EncodeToString (src : list byte) :
  base64_DecodeString (base64_EncodeToString src) = Some src.
Proof.
  unfold base64_DecodeString, base64_EncodeToString.
  rewrite list_ascii_of_string_of_list_ascii. apply Decode_Encode.
Qed.

Lemma base64_EncodeToString_inj (a b : list byte) :
  base64_EncodeToString a = base64_EncodeToString b -> a = b.
Proof.
  intros Heq. apply (f_equal base64_DecodeString) in Heq.
  rewrite !base64_DecodeString_EncodeToString in Heq. congruence.
Qed.

Lemma after_compiler_started (host : Host) (ctx : Context) (env : list string)
    (goExecPath tmp : string) (w : World) (d : Disk) :
  started (after_compiler host ctx env goExecPath tmp w d).2
  = started w ++ [build_Cmd ctx env goExecPath tmp].
Proof.
  unfold after_compiler. cbv zeta.
  destruct (Wait_error _); [reflexivity|].
  by destruct ((os_ReadFile _ _).1).
Qed.

Lemma after_compiler_result (host : Host) (ctx : Context) (env : list string)
    (goExecPath tmp : string) (w : World) (d : Disk) :
  (exists err, (after_compiler host ctx env goExecPath tmp w d).1
               = ("", Some err))
  \/ (exists wasmBuild, (after_compiler host ctx env goExecPath tmp w d).1
                        = (base64_EncodeToString wasmBuild, None)).
Proof.
  unfold after_compiler. cbv zeta.
  destruct (Wait_error _); [left; eauto|].
  destruct ((os_ReadFile _ _).1); [right|left]; eauto.
Qed.

(** X6: [buildWASM] returns either the empty string with an error, or, with
    no error, the base64 text of a binary; decoding that text gives the
    binary back.  It never returns a binary together with an error. *)
Theorem buildWASM_error_or_binary (lib : GoLib) (host : Host)
    (permittedPackagesString : string) (ctx : Context) (env : list string)
    (goExecPath : string) (archive : Archive) (w : World) :
  let result := (buildWASM lib host permittedPackagesString ctx env goExecPath
                           archive w).1 in
  (exists err, result = ("", Some err))
  \/ (exists wasmBuild,
        result = (base64_EncodeToString wasmBuild, None)
        /\ base64_DecodeString result.1 = Some wasmBuild).
Proof.
  intros result. subst result.
  destruct (buildWASM_cases lib host permittedPackagesString ctx env
                            goExecPath archive w)
    as [(e & _ & -> & _)
       |(tmp & _ & [(err & _ & ->)
                   |[(err & _ & _ & ->)
                    |[(dir & d & err & _ & _ & _ & ->)
                     |(dir & d & _ & ->)]]])];
    try (left; eexists; reflexivity).
  cbn [fst].
  destruct (after_compiler_result host ctx env goExecPath tmp w d)
    as [(err & ->)|(wasmBuild & ->)]; [left; eauto|].
  right. exists wasmBuild. split; [reflexivity|].
  apply base64_DecodeString_EncodeToString.
Qed.

(** X7: a call of [buildWASM] starts at most one command.  When it starts
    one, the directory was created, the import guard let every file pass,
    [txtar.FS] accepted the names, and the command is the [go build] of
    [build_Cmd] in the new directory. *)
Theorem buildWASM_starts_one_command (lib : GoLib) (host : Host)
    (permittedPackagesString : string) (ctx : Context) (env : list string)
    (goExecPath : string) (archive : Archive) (w : World) :
  let after := (buildWASM lib host permittedPackagesString ctx env goExecPath
                          archive w).2 in
  started after = started w
  \/ exists tmp dir,
       MkdirTemp_pick host (disk w) = inl tmp
       /\ buildWASM_screen lib permittedPackagesString (Files archive) = None
       /\ txtar_FS lib archive = inl dir
       /\ started after = started w ++ [build_Cmd ctx env goExecPath tmp].
Proof.
  intros after. subst after.
  destruct (buildWASM_cases lib host permittedPackagesString ctx env
                            goExecPath archive w)
    as [(e & _ & _ & _ & Hstarted)
       |(tmp & Hpick & [(err & _ & ->)
                       |[(err & _ & _ & ->)
                        |[(dir & d & err & _ & _ & _ & ->)
                         |(dir & d & Hreach & ->)]]])];
    try (left; cbn [snd]; rewrite ?removed_started; done).
  right. exists tmp, dir.
  destruct Hreach as (_ & Hscreen & Hfs & _).
  split; [exact Hpick|]. split; [exact Hscreen|]. split; [exact Hfs|].
  cbn [snd]. rewrite removed_started. apply after_compiler_started.
Qed.

(** X8: once the files are copied, [buildWASM] returns the base64 text of
    a binary exactly when the compiler exited with code 0 and left that
    binary as the regular file [main.wasm] of the build directory. *)
Theorem buildWASM_returns_the_artifact (lib : GoLib) (host : Host)
    (permittedPackagesString : string) (ctx : Context) (env : list string)
    (goExecPath : string) (archive : Archive) (w : World) (tmp : string)
    (dir : filesystem) (d : Disk) (wasmBuild : list byte)
    (Hreach : reaches_compiler lib host permittedPackagesString archive w
                               tmp dir d) :
  let done := run host (build_Cmd ctx env goExecPath tmp) d in
  (buildWASM lib host permittedPackagesString ctx env goExecPath archive w).1
  = (base64_EncodeToString wasmBuild, None)
  <-> state done = Exited 0
      /\ disk_after done !! filepath_Join tmp output = Some (Regular wasmBuild).
Proof.
  intros done.
  rewrite (buildWASM_deferred _ _ _ _ _ _ _ _ _ (proj1 Hreach)). cbn [fst].
  rewrite (body_compiles _ _ _ _ _ _ _ _ _ _ _ Hreach).
  unfold after_compiler, os_ReadFile. cbv zeta. fold done. cbn [fst disk].
  split.
  - destruct (state done) as [code| |err] eqn:Hstate;
      [|simpl; discriminate..].
    destruct (decide (code = 0)) as [->|Hcode].
    2: { destruct (Wait_error_failed (Exited code)) as (e & ->);
           [congruence|discriminate]. }
    cbn [Wait_error].
    destruct (disk_after done !! filepath_Join tmp output) as [[|content]|];
      try discriminate.
    intros Heq. split; [reflexivity|].
    injection Heq as Heq. apply base64_EncodeToString_inj in Heq.
    by subst content.
  - intros [-> ->]. reflexivity.
Qed.

Lemma buildWASM_returns_the_artifact_witness :
  (buildWASM Double.lib Double.host_ok Double.allow_list Double.ctx []
             "/usr/bin/go" Double.archive_fmt Double.world1).1
  = (base64_EncodeToString Double.wasm, None).
Proof.
  assert (Hfs : exists dir, txtar_FS Double.lib Double.archive_fmt = inl dir)
    by (eexists; vm_compute; reflexivity).
  destruct Hfs as (dir & Hfs).
  refine (proj2 (buildWASM_returns_the_artifact
                   Double.lib Double.host_ok Double.allow_list Double.ctx []
                   "/usr/bin/go" Double.archive_fmt Double.world1 Double.tmp
                   dir
                   (Double.copy_files Double.tmp dir
                      (<[Double.tmp := Directory]> (disk Double.world1)))
                   Double.wasm _) _).
  - split; [reflexivity|]. split; [reflexivity|]. split; [exact Hfs|reflexivity].
  - split; [reflexivity|]. apply lookup_insert_eq.
Defined.

(** X9: when the import guard or [txtar.FS] refuses the archive, the call
    starts no command, logs nothing, and leaves every path outside its
    temporary directory as it was, whether or not the removal of the
    directory succeeds. *)
Theorem buildWASM_refusal_leaves_no_trace (lib : GoLib) (host : Host)
    (permittedPackagesString : string) (ctx : Context) (env : list string)
    (goExecPath : string) (archive : Archive) (w : World) (tmp : string)
    (Hpick : MkdirTemp_pick host (disk w) = inl tmp)
    (Hrefused :
       buildWASM_screen lib permittedPackagesString (Files archive) <> None
       \/ exists err, txtar_FS lib archive = inr err) :
  let after := (buildWASM lib host permittedPackagesString ctx env goExecPath
                          archive w).2 in
  started after = started w
  /\ logged after = logged w
  /\ forall p, below tmp p = false -> disk after !! p = disk w !! p.
Proof.
  intros after.
  assert (Hafter : after = removed host tmp (with_tmp tmp w)).
  { subst after.
    destruct (buildWASM_cases lib host permittedPackagesString ctx env
                              goExecPath archive w)
      as [(e & Hpick' & _)
         |(tmp' & Hpick' & [(err & _ & ->)
                           |[(err & _ & _ & ->)
                            |[(dir & d & err & Hscreen & Hfs & _)
                             |(dir & d & (_ & Hscreen & Hfs & _) & _)]]])];
      rewrite Hpick in Hpick'; try discriminate;
      try (injection Hpick' as <-; reflexivity);
      destruct Hrefused as [Hno|(err' & Herr)]; congruence. }
  rewrite Hafter. split; [by rewrite removed_started|].
  split; [by rewrite removed_logged|].
  intros p Hp. by apply removed_with_tmp_outside.
Qed.

Lemma buildWASM_refusal_leaves_no_trace_witness :
  started (buildWASM Double.lib Double.host_remove_fails Double.allow_list
                     Double.ctx [] "/usr/bin/go" Double.archive_net
                     Double.world1).2 = []
  /\ logged (buildWASM Double.lib Double.host_remove_fails Double.allow_list
                       Double.ctx [] "/usr/bin/go" Double.archive_net
                       Double.world1).2
     = []
  /\ forall p,
       below Double.tmp p = false ->
       disk (buildWASM Double.lib Double.host_remove_fails Double.allow_list
                       Double.ctx [] "/usr/bin/go" Double.archive_net
                       Double.world1).2
         !! p
       = disk Double.world1 !! p.
Proof.
  apply (buildWASM_refusal_leaves_no_trace
           Double.lib Double.host_remove_fails Double.allow_list Double.ctx []
           "/usr/bin/go" Double.archive_net Double.world1 Double.tmp).
  - reflexivity.
  - left. vm_compute. discriminate.
Defined.

(** X10: an archive with two files of the same name, or with a name that
    is no valid path, is never compiled: [buildWASM] returns an error and
    starts no command. *)
Theorem buildWASM_refuses_bad_names (lib : GoLib) (host : Host)
    (permittedPackagesString : string) (ctx : Context) (env : list string)
    (goExecPath : string) (archive : Archive) (w : World)
    (Hbad : ~ NoDup (names archive)
            \/ exists name, name ∈ names archive /\ fs_ValidPath name = false) :
  (exists err,
     (buildWASM lib host permittedPackagesString ctx env goExecPath archive
                w).1 = ("", Some err))
  /\ started (buildWASM lib host permittedPackagesString ctx env goExecPath
                        archive w).2 = started w.
Proof.
  assert (Hfs : forall dir, txtar_FS lib archive <> inl dir).
  { intros dir Hfs. apply txtar_FS_names in Hfs.
    unfold txtar_accepts in Hfs.
    apply andb_prop in Hfs as [Hfs _].
    apply andb_prop in Hfs as [Hvalid Hnodup].
    apply bool_decide_eq_true in Hnodup.
    rewrite forallb_forall in Hvalid.
    destruct Hbad as [Hdup|(name & Hin & Hinvalid)]; [by apply Hdup|].
    apply list_elem_of_In in Hin. rewrite (Hvalid name Hin) in Hinvalid.
    discriminate. }
  destruct (buildWASM_cases lib host permittedPackagesString ctx env
                            goExecPath archive w)
    as [(e & _ & -> & _ & ->)
       |(tmp & _ & [(err & _ & ->)
                   |[(err & _ & _ & ->)
                    |[(dir & d & err & _ & Hdir & _)
                     |(dir & d & (_ & _ & Hdir & _) & _)]]])];
    try (split; [eexists; reflexivity
                |cbn [snd]; by rewrite ?removed_started]);
    by destruct (Hfs dir).
Qed.

Lemma buildWASM_refuses_bad_names_witness :
  (exists err,
     (buildWASM Double.lib Double.host_ok Double.allow_list Double.ctx []
                "/usr/bin/go" Htmx.archive_twice Double.world0).1
     = ("", Some err))
  /\ started (buildWASM Double.lib Double.host_ok Double.allow_list Double.ctx
                        [] "/usr/bin/go" Htmx.archive_twice Double.world0).2
     = [].
Proof.
  apply (buildWASM_refuses_bad_names
           Double.lib Double.host_ok Double.allow_list Double.ctx []
           "/usr/bin/go" Htmx.archive_twice Double.world0).
  left. apply (bool_decide_eq_false_1 _). vm_compute. reflexivity.
Defined.

(** ** The handler of a run *)

(** The handler is its second half on the archive of the form. *)
Lemma handleRun_archive (lib : GoLib) (host : Host)
    (permittedPackagesString goExecPath wasmExecJS : string)
    (env : list string) (req : Request) :
  handleRun lib host permittedPackagesString goExecPath env wasmExecJS req
  = handleRun_build lib host permittedPackagesString goExecPath env wasmExecJS
      req
      (Some (mkArchive (map (file_of_field (Form req))
                            (Values_index (Form req) "filename")))).
Proof. unfold handleRun. by rewrite readArchive_Files. Qed.

(** X11: whatever the request, [handleRun] answers in one of five ways:
    status 400 [invalid run id]; status 500 [failed to parse current url];
    status 500 [Internal Server Error]; the template [build-failure] with
    status 200; or one of the templates [run-item] and [run.html.template]
    with status 200.  It never panics. *)
Theorem handleRun_responses (lib : GoLib) (host : Host)
    (permittedPackagesString goExecPath wasmExecJS : string)
    (env : list string) (req : Request) (w : World) :
  let res := (handleRun lib host permittedPackagesString goExecPath env
                        wasmExecJS req w).1 in
  res = http_Error "invalid run id" StatusBadRequest
  \/ res = http_Error "failed to parse current url" StatusInternalServerError
  \/ res = http_Error "Internal Server Error" StatusInternalServerError
  \/ (exists failure,
        res = renderHTML "build-failure" StatusOK (RunFailureData failure))
  \/ (exists data,
        res = renderHTML "run-item" StatusOK (RunData data)
        \/ res = renderHTML "run.html.template" StatusOK (RunData data)).
Proof.
  intros res. subst res. rewrite handleRun_archive. unfold handleRun_build.
  destruct (if String.eqb _ "" then _ else _) as [runID|e]; [|by left].
  destruct (url_Parse lib _) as [currentURL|e]; [|by right; left].
  unfold bind. destruct (buildWASM _ _ _ _ _ _ _ _) as [[built [err|]] w1].
  { right; right; right; left. eexists. reflexivity. }
  cbn [fst snd].
  destruct (String.eqb _ "runner").
  - destruct (ExecuteTemplate lib _ _) as [doc|e].
    + right; right; right; right. eexists. left. reflexivity.
    + right; right; left. reflexivity.
  - right; right; right; right. eexists. right. reflexivity.
Qed.

(** X12: a run identifier that is not empty and that [strconv.Atoi]
    refuses is answered with status 400 before anything is built: no
    directory is made, no command started, nothing logged. *)
Theorem handleRun_invalid_run_id (lib : GoLib) (host : Host)
    (permittedPackagesString goExecPath wasmExecJS : string)
    (env : list string) (req : Request) (w : World) (err : error)
    (Hgiven : FormValue req "run-id" <> "")
    (Hatoi : strconv_Atoi lib (FormValue req "run-id") = inr err) :
  handleRun lib host permittedPackagesString goExecPath env wasmExecJS req w
  = (http_Error "invalid run id" StatusBadRequest, w).
Proof.
  rewrite handleRun_archive. unfold handleRun_build.
  apply String.eqb_neq in Hgiven. rewrite Hgiven, Hatoi. reflexivity.
Qed.

Lemma handleRun_invalid_run_id_witness :
  handleRun Double.lib Double.host_ok Double.allow_list "/usr/bin/go" [] ""
            Htmx.request_bad_run_id Double.world1
  = (http_Error "invalid run id" StatusBadRequest, Double.world1).
Proof.
  apply (handleRun_invalid_run_id
           Double.lib Double.host_ok Double.allow_list "/usr/bin/go" "" []
           Htmx.request_bad_run_id Double.world1
           (errors_New "strconv.Atoi: invalid syntax")).
  - vm_compute. discriminate.
  - vm_compute. reflexivity.
Defined.

(** X13: when the header [hx-current-url] does not parse, the handler
    answers with status 500 and logs one line with the error of
    [url.Parse]; it does not build: the disk and the commands started are
    as before.  The run identifier is checked first. *)
Theorem handleRun_unparsable_url (lib : GoLib) (host : Host)
    (permittedPackagesString goExecPath wasmExecJS : string)
    (env : list string) (req : Request) (w : World) (runID : Z) (err : error)
    (Hid : requested_run_id lib req = inl runID)
    (Hurl : url_Parse lib (Header_Get lib (Header req) "hx-current-url")
            = inr err) :
  handleRun lib host permittedPackagesString goExecPath env wasmExecJS req w
  = (http_Error "failed to parse current url" StatusInternalServerError,
     mkWorld (disk w) (started w)
             (logged w ++ ["failed to parse current url " +:+ Error err])).
Proof.
  rewrite handleRun_archive. unfold handleRun_build.
  unfold requested_run_id in Hid. rewrite Hid, Hurl. reflexivity.
Qed.

Lemma handleRun_unparsable_url_witness :
  handleRun Double.lib Double.host_ok Double.allow_list "/usr/bin/go" [] ""
            Htmx.request_bad_url Double.world1
  = (http_Error "failed to parse current url" StatusInternalServerError,
     mkWorld (disk Double.world1) []
             ["failed to parse current url invalid URI for request"]).
Proof.
  apply (handleRun_unparsable_url
           Double.lib Double.host_ok Double.allow_list "/usr/bin/go" "" []
           Htmx.request_bad_url Double.world1 1
           (errors_New "invalid URI for request")).
  - reflexivity.
  - reflexivity.
Defined.

(** What [buildWASM] returns when the compiler succeeds and leaves the
    artifact. *)
Lemma buildWASM_artifact (lib : GoLib) (host : Host)
    (permittedPackagesString : string) (ctx : Context) (env : list string)
    (goExecPath : string) (archive : Archive) (w : World) (tmp : string)
    (dir : filesystem) (d : Disk) (wasmBuild : list byte) :
  reaches_compiler lib host permittedPackagesString archive w tmp dir d ->
  state (run host (build_Cmd ctx env goExecPath tmp) d) = Exited 0 ->
  disk_after (run host (build_Cmd ctx env goExecPath tmp) d)
    !! filepath_Join tmp output = Some (Regular wasmBuild) ->
  (buildWASM lib host permittedPackagesString ctx env goExecPath archive w).1
  = (base64_EncodeToString wasmBuild, None).
Proof.
  intros Hreach Hexit Hfile.
  rewrite (buildWASM_deferred _ _ _ _ _ _ _ _ _ (proj1 Hreach)). cbn [fst].
  rewrite (body_compiles _ _ _ _ _ _ _ _ _ _ _ Hreach).
  unfold after_compiler, os_ReadFile. cbv zeta. cbn [fst disk].
  by rewrite Hexit, Hfile.
Qed.

(** X14: from the form to the page.  When the run identifier and the
    current URL parse, the files of the form reach the compiler, and the
    compiler exits with 0 and leaves [main.wasm], the handler renders,
    with status 200, the run with the location [scheme://host] of the
    current URL, the run identifier and the base64 text of the artifact:
    through [run.html.template], or, when the header [HX-Target] is
    [runner], through [run-item] with the document of
    [run.html.template] in it (status 500 if that template fails). *)
Theorem handleRun_serves_the_artifact (lib : GoLib) (host : Host)
    (permittedPackagesString goExecPath wasmExecJS : string)
    (env : list string) (req : Request) (w : World) (archive : Archive)
    (runID : Z) (currentURL : URL) (tmp : string) (dir : filesystem)
    (d : Disk) (wasmBuild : list byte)
    (Harchive : (readArchive (Form req)).1 = Some archive)
    (Hid : requested_run_id lib req = inl runID)
    (Hurl : url_Parse lib (Header_Get lib (Header req) "hx-current-url")
            = inl currentURL)
    (Hreach : reaches_compiler lib host permittedPackagesString archive w
                               tmp dir d)
    (Hexit : state (run host (build_Cmd (WithTimeout request_Context 30) env
                                        goExecPath tmp) d) = Exited 0)
    (Hfile : disk_after (run host (build_Cmd (WithTimeout request_Context 30)
                                             env goExecPath tmp) d)
               !! filepath_Join tmp output = Some (Regular wasmBuild)) :
  let data := mkRun (Scheme currentURL +:+ "://" +:+ Host_ currentURL) runID
                    (base64_EncodeToString wasmBuild) "" wasmExecJS in
  (handleRun lib host permittedPackagesString goExecPath env wasmExecJS req w).1
  = if String.eqb (Header_Get lib (Header req) "HX-Target") "runner" then
      match ExecuteTemplate lib "run.html.template" data with
      | inl doc =>
          renderHTML "run-item" StatusOK
            (RunData (mkRun (Location data) runID
                            (base64_EncodeToString wasmBuild) doc wasmExecJS))
      | inr _ => http_Error "Internal Server Error" StatusInternalServerError
      end
    else renderHTML "run.html.template" StatusOK (RunData data).
Proof.
  intros data. subst data.
  pose proof (buildWASM_artifact _ _ _ _ _ _ _ _ _ _ _ _ Hreach Hexit Hfile)
    as Hbuilt.
  rewrite readArchive_Files in Harchive. simpl in Harchive.
  rewrite handleRun_archive, Harchive. unfold handleRun_build.
  unfold requested_run_id in Hid. rewrite Hid, Hurl. unfold bind.
  destruct (buildWASM _ _ _ _ _ _ _ _) as [[built berr] w1].
  simpl in Hbuilt. injection Hbuilt as -> ->. cbn [fst snd].
  destruct (String.eqb _ "runner"); [|reflexivity].
  by destruct (ExecuteTemplate lib _ _).
Qed.

Lemma handleRun_serves_the_artifact_witness :
  (handleRun Double.lib Double.host_ok Double.allow_list "/usr/bin/go" []
             "go.run()" Htmx.request_runner Double.world1).1
  = renderHTML "run-item" StatusOK
      (RunData (mkRun "http://localhost:8080" 3
                      (base64_EncodeToString Double.wasm) "<html></html>"
                      "go.run()")).
Proof.
  assert (Hfs : exists dir, txtar_FS Double.lib Double.archive_fmt = inl dir)
    by (eexists; vm_compute; reflexivity).
  destruct Hfs as (dir & Hfs).
  apply (handleRun_serves_the_artifact
           Double.lib Double.host_ok Double.allow_list "/usr/bin/go" "go.run()"
           [] Htmx.request_runner Double.world1 Double.archive_fmt 3
           (mkURL "http" "localhost:8080") Double.tmp dir
           (Double.copy_files Double.tmp dir
              (<[Double.tmp := Directory]> (disk Double.world1)))
           Double.wasm).
  - vm_compute. reflexivity.
  - vm_compute. reflexivity.
  - vm_compute. reflexivity.
  - split; [reflexivity|]. split; [reflexivity|]. split; [exact Hfs|reflexivity].
  - reflexivity.
  - apply lookup_insert_eq.
Defined.

(** ** The text of the binary *)

Lemma encode_at_alphabet (x : Z) :
  encode_at (Z.land x 63) ∈ list_ascii_of_string encodeStd.
Proof.
  assert (Hrange : 0 <= Z.land x 63 < 64).
  { change 63 with (Z.ones 6). rewrite Z.land_ones by lia.
    apply Z.mod_pos_bound. lia. }
  assert (Htable :
    forallb (fun n : nat =>
               bool_decide (encode_at (Z.of_nat n)
                            ∈ list_ascii_of_string encodeStd))
            (seq 0 64) = true) by (vm_compute; reflexivity).
  rewrite forallb_forall in Htable.
  specialize (Htable (Z.to_nat (Z.land x 63))).
  rewrite Z2Nat.id in Htable by lia.
  eapply bool_decide_eq_true_1, Htable, in_seq. lia.
Qed.

(** X15: the base64 text of a binary consists of characters of the
    alphabet [A-Za-z0-9+/], followed by as many [=] as the length of the
    binary lacks to a multiple of three (none, one or two). *)
Theorem base64_text_alphabet (wasmBuild : list byte) :
  exists body,
    list_ascii_of_string (base64_EncodeToString wasmBuild)
    = body ++ replicate ((3 - length wasmBuild mod 3) mod 3) padChar
    /\ Forall (fun c => c ∈ list_ascii_of_string encodeStd) body.
Proof.
  unfold base64_EncodeToString. rewrite list_ascii_of_string_of_list_ascii.
  induction wasmBuild as [| b0 | b0 b1 | b0 b1 b2 rest IH] using list_ind3.
  - exists []. split; [reflexivity|apply Forall_nil_2].
  - eexists [_; _]. split; [reflexivity|].
    repeat (apply Forall_cons_2; [apply encode_at_alphabet|]).
    apply Forall_nil_2.
  - eexists [_; _; _]. split; [reflexivity|].
    repeat (apply Forall_cons_2; [apply encode_at_alphabet|]).
    apply Forall_nil_2.
  - destruct IH as (body & Hbody & Hall).
    rewrite Encode_3. cbv zeta. rewrite Hbody.
    eexists (_ :: _ :: _ :: _ :: body). split.
    + change (length (b0 :: b1 :: b2 :: rest)) with (3 + length rest)%nat.
      replace (3 + length rest)%nat with (length rest + 1 * 3)%nat by lia.
      rewrite Nat.Div0.mod_add. reflexivity.
    + repeat (apply Forall_cons_2; [apply encode_at_alphabet|]). exact Hall.
Qed.

(** ** The example [counting-up] *)



